(** * EarthQuake: the catalog client, the geometry extractor and the scene
    composer of [earthquake.py], embedded in Rocq.

    The program is a Python script.  Its values are the ones [json] produces
    (None, bool, int, float, str, list, dict); its failures are Python
    exceptions.  The embedding keeps both: [pyval] is the dynamic value,
    [result] carries the exception a statement raises, and [prog] threads the
    operator console, the rendering collaborator and the one mutable list the
    composer shares with its exception handlers. *)

From Stdlib Require Import Floats.PrimFloat Floats.FloatOps Floats.SpecFloat.
From Stdlib Require Import ZArith List String Bool Lia.
Import ListNotations.

(* Decimal literals denote the nearest double, as they do in Python. *)
Set Warnings "-register-all,-inexact-float".

Local Open Scope string_scope.
Local Open Scope list_scope.
Local Open Scope Z_scope.

(** ** Python values and exceptions *)

Module Py.

(** The exception classes this program can meet.  The first five are the
    [requests.exceptions.RequestException] family; all of them derive from
    [Exception]. *)
Inductive exn : Type :=
| ConnectionError          (* DNS failure, refused connection *)
| Timeout
| HTTPError (status : Z)   (* raised by [Response.raise_for_status] *)
| TooManyRedirects
| RequestsJSONDecodeError  (* requests.exceptions.JSONDecodeError *)
| AttributeError
| TypeError
| IndexError
| KeyError
| OverflowError
| ValueError
| OSError
| FileNotFoundError
| JSONDecodeError          (* json.JSONDecodeError *)
| UnicodeDecodeError
| RecursionError.

(** [except requests.exceptions.RequestException] *)
Definition is_RequestException (e : exn) : bool :=
  match e with
  | ConnectionError | Timeout | HTTPError _ | TooManyRedirects
  | RequestsJSONDecodeError => true
  | _ => false
  end.

(** [except FileNotFoundError] *)
Definition is_FileNotFoundError (e : exn) : bool :=
  match e with FileNotFoundError => true | _ => false end.

(** [except json.JSONDecodeError]; the [requests] class of the same name
    inherits from it. *)
Definition is_JSONDecodeError (e : exn) : bool :=
  match e with JSONDecodeError | RequestsJSONDecodeError => true | _ => false end.

Inductive result (A : Type) : Type :=
| Ok (a : A)
| Raise (e : exn).
Arguments Ok {A} a.
Arguments Raise {A} e.

Definition rbind {A B} (m : result A) (k : A -> result B) : result B :=
  match m with
  | Ok a => k a
  | Raise e => Raise e
  end.

Declare Scope result_scope.
Delimit Scope result_scope with result.
Notation "x <- m ;; k" := (rbind m (fun x => k))
  (at level 61, m at next level, right associativity) : result_scope.

(** A value as [json.load] / [Response.json] builds it.  A dict keeps its
    items in insertion order; a str is held as the bytes of its UTF-8
    encoding and read by character ([chars]). *)
Inductive pyval : Type :=
| PNone
| PBool (b : bool)
| PInt (z : Z)
| PFloat (f : float)
| PStr (s : string)
| PList (l : list pyval)
| PDict (d : list (string * pyval)).

(** [bool(v)] *)
Definition truthy (v : pyval) : bool :=
  match v with
  | PNone => false
  | PBool b => b
  | PInt z => negb (z =? 0)
  | PFloat f => negb (PrimFloat.eqb f 0%float)
  | PStr s => negb (String.eqb s "")
  | PList l => match l with [] => false | _ => true end
  | PDict d => match d with [] => false | _ => true end
  end.

(** [v is None] *)
Definition is_None (v : pyval) : bool :=
  match v with PNone => true | _ => false end.

(** [v == 'literal'] *)
Definition eq_str (v : pyval) (s : string) : bool :=
  match v with PStr t => String.eqb t s | _ => false end.

Fixpoint dict_get (d : list (string * pyval)) (k : string) : option pyval :=
  match d with
  | [] => None
  | (k', v) :: d' => if String.eqb k' k then Some v else dict_get d' k
  end.

(** [d.get(k)] on the items of a dict [d]. *)
Definition field (d : list (string * pyval)) (k : string) : pyval :=
  match dict_get d k with Some x => x | None => PNone end.

(** [v.get(k, default)]: only a dict has the method. *)
Definition get_default (v : pyval) (k : string) (default : pyval) : result pyval :=
  match v with
  | PDict d => Ok (match dict_get d k with Some x => x | None => default end)
  | _ => Raise AttributeError
  end.

(** [v.get(k)] *)
Definition get (v : pyval) (k : string) : result pyval := get_default v k PNone.

(** [k in v] for a str [k]: a key of a dict, an item of a list, a substring
    of a str. *)
Definition contains (v : pyval) (k : string) : result bool :=
  match v with
  | PDict d => Ok (match dict_get d k with Some _ => true | None => false end)
  | PList l => Ok (existsb (fun x => eq_str x k) l)
  | PStr s => Ok (match String.index 0 k s with Some _ => true | None => false end)
  | _ => Raise TypeError
  end.

(** A str is held as its UTF-8 encoding.  A character (a code point) is a
    lead byte together with the continuation bytes, [10xxxxxx], that follow
    it. *)
Definition is_continuation (c : Ascii.ascii) : bool :=
  let n := Ascii.nat_of_ascii c in
  (Nat.leb 128 n && Nat.ltb n 192)%bool.

Definition starts_with_continuation (s : string) : bool :=
  match s with
  | String c _ => is_continuation c
  | EmptyString => false
  end.

(** The characters of a str, each as a str of length one. *)
Fixpoint characters (s : string) : list string :=
  match s with
  | EmptyString => []
  | String c s' =>
      if starts_with_continuation s' then
        match characters s' with
        | k :: rest => String c k :: rest
        | [] => [String c EmptyString]
        end
      else String c EmptyString :: characters s'
  end.

Definition chars (s : string) : list pyval := map PStr (characters s).

(** [v[k]] with a str key *)
Definition item (v : pyval) (k : string) : result pyval :=
  match v with
  | PDict d => match dict_get d k with Some x => Ok x | None => Raise KeyError end
  | _ => Raise TypeError
  end.

(** [v[i]] with a non-negative int index.  The keys of a dict that came out
    of JSON are strs, so an int key is never found. *)
Definition index (v : pyval) (i : nat) : result pyval :=
  match v with
  | PList l => match nth_error l i with Some x => Ok x | None => Raise IndexError end
  | PStr s => match nth_error (chars s) i with Some x => Ok x | None => Raise IndexError end
  | PDict _ => Raise KeyError
  | _ => Raise TypeError
  end.

(** The items a [for] loop, a comprehension or [list.extend] draws from [v]. *)
Definition iter (v : pyval) : result (list pyval) :=
  match v with
  | PList l => Ok l
  | PStr s => Ok (chars s)
  | PDict d => Ok (map (fun kv => PStr (fst kv)) d)
  | _ => Raise TypeError
  end.

(** [len(v)] *)
Definition len (v : pyval) : result nat :=
  match v with
  | PList l => Ok (List.length l)
  | PStr s => Ok (List.length (chars s))
  | PDict d => Ok (List.length d)
  | _ => Raise TypeError
  end.

(** A [for] loop whose body updates the loop's accumulator and may raise. *)
Fixpoint for_each {A S : Type} (body : S -> A -> result S) (l : list A) (s : S)
  : result S :=
  match l with
  | [] => Ok s
  | x :: l' =>
      match body s x with
      | Ok s' => for_each body l' s'
      | Raise e => Raise e
      end
  end.

(** A list comprehension [[f(x) for x in l]]. *)
Fixpoint comprehension {A B : Type} (f : A -> result B) (l : list A)
  : result (list B) :=
  match l with
  | [] => Ok []
  | x :: l' =>
      match f x with
      | Ok y => match comprehension f l' with
                | Ok ys => Ok (y :: ys)
                | Raise e => Raise e
                end
      | Raise e => Raise e
      end
  end.

(** *** Numbers *)

(** [isinstance(v, (int, float))]; [bool] is a subclass of [int]. *)
Definition is_number (v : pyval) : bool :=
  match v with
  | PBool _ | PInt _ | PFloat _ => true
  | _ => false
  end.

(** [float(z)]: the nearest double, ties to even; an int beyond the double
    range raises. *)
Definition float_of_int (z : Z) : result float :=
  match binary_normalize prec emax z 0 false with
  | S754_infinity _ => Raise OverflowError
  | sf => Ok (SF2Prim sf)
  end.

(** Python compares a float with an int by their exact values. *)
Definition float_compare_int (f : float) (k : Z) : option comparison :=
  match Prim2SF f with
  | S754_nan => None
  | S754_infinity s => Some (if s then Lt else Gt)
  | S754_zero _ => Some (0 ?= k)
  | S754_finite s m e =>
      let m' := if s then Z.neg m else Z.pos m in
      Some (if 0 <=? e then (m' * 2 ^ e ?= k) else (m' ?= k * 2 ^ (- e)))
  end.

(** [v >= k] for an int [k] *)
Definition ge_int (v : pyval) (k : Z) : result bool :=
  match v with
  | PBool b => Ok (k <=? Z.b2z b)
  | PInt z => Ok (k <=? z)
  | PFloat f => Ok (match float_compare_int f k with
                    | Some Gt | Some Eq => true
                    | _ => false
                    end)
  | _ => Raise TypeError
  end.

(** [v > k] for an int [k] *)
Definition gt_int (v : pyval) (k : Z) : result bool :=
  match v with
  | PBool b => Ok (k <? Z.b2z b)
  | PInt z => Ok (k <? z)
  | PFloat f => Ok (match float_compare_int f k with
                    | Some Gt => true
                    | _ => false
                    end)
  | _ => Raise TypeError
  end.

(** [v * c] for a float [c] *)
Definition mul_float (v : pyval) (c : float) : result pyval :=
  match v with
  | PBool b => (x <- float_of_int (Z.b2z b) ;; Ok (PFloat (x * c)%float))%result
  | PInt z => (x <- float_of_int z ;; Ok (PFloat (x * c)%float))%result
  | PFloat f => Ok (PFloat (f * c)%float)
  | _ => Raise TypeError
  end.

(** [-v] *)
Definition neg (v : pyval) : result pyval :=
  match v with
  | PBool b => Ok (PInt (- Z.b2z b))
  | PInt z => Ok (PInt (- z))
  | PFloat f => Ok (PFloat (- f)%float)
  | _ => Raise TypeError
  end.

(** [max(k, v)] for an int [k]: the first argument is kept unless the second
    is strictly greater. *)
Definition max_int (k : Z) (v : pyval) : result pyval :=
  (greater <- gt_int v k ;;
   Ok (if greater then v else PInt k))%result.

End Py.

Import Py.
Local Open Scope result_scope.

(** ** Geometry extractor ([extract_geojson_lines]) *)

Module GeometryExtractor.

(** The nested helper [extract_coords].  [coords] is the local list it
    fills; [append] and [extend] add at its end. *)
Definition extract_coords (geometry : pyval) : result (list pyval) :=
  let coords : list pyval := [] in
  geom_type <- get geometry "type" ;;
  geom_coords <- get geometry "coordinates" ;;
  if eq_str geom_type "Point" then
    Ok coords
  else if eq_str geom_type "LineString" then
    Ok (coords ++ [geom_coords])
  else if eq_str geom_type "MultiLineString" then
    items <- iter geom_coords ;;
    Ok (coords ++ items)
  else if eq_str geom_type "Polygon" then
    ring <- index geom_coords 0 ;;
    Ok (coords ++ [ring])
  else if eq_str geom_type "MultiPolygon" then
    polys <- iter geom_coords ;;
    for_each (fun coords poly => ring <- index poly 0 ;; Ok (coords ++ [ring]))
             polys coords
  else
    Ok coords.

(** The body of the loop over the features of a FeatureCollection. *)
Definition extract_feature (all_lines : list pyval) (feature : pyval)
  : result (list pyval) :=
  geometry <- get feature "geometry" ;;
  if truthy geometry then
    coords <- extract_coords geometry ;;
    Ok (all_lines ++ coords)
  else
    Ok all_lines.

Definition extract_geojson_lines (geojson_data : pyval) : result (list pyval) :=
  let all_lines : list pyval := [] in
  type1 <- get geojson_data "type" ;;
  if eq_str type1 "FeatureCollection" then
    features <- get_default geojson_data "features" (PList []) ;;
    items <- iter features ;;
    for_each extract_feature items all_lines
  else
    type2 <- get geojson_data "type" ;;
    if eq_str type2 "Feature" then
      geometry <- get geojson_data "geometry" ;;
      if truthy geometry then
        coords <- extract_coords geometry ;;
        Ok (all_lines ++ coords)
      else
        Ok all_lines
    else
      has_coordinates <- contains geojson_data "coordinates" ;;
      has_type <- (if has_coordinates then contains geojson_data "type"
                   else Ok false) ;;
      if has_type then
        coords <- extract_coords geojson_data ;;
        Ok (all_lines ++ coords)
      else
        Ok all_lines.

(** The five geometry types [extract_coords] knows. *)
Definition known_geometry_type (t : pyval) : bool :=
  eq_str t "Point" || eq_str t "LineString" || eq_str t "MultiLineString"
  || eq_str t "Polygon" || eq_str t "MultiPolygon".

Definition feature_collection (features : list pyval) : pyval :=
  PDict [("type", PStr "FeatureCollection"); ("features", PList features)].

(** *** Preconditions on a boundary document *)

Definition is_list (v : pyval) : bool :=
  match v with PList _ => true | _ => false end.

(** A list with a first item: a polygon with at least one ring. *)
Definition has_first_ring (v : pyval) : bool :=
  match v with PList (_ :: _) => true | _ => false end.

(** Ring presence, for one geometry: a Polygon has at least one ring, and so
    has every polygon inside a MultiPolygon. *)
Definition rings_present_in (geometry : pyval) : bool :=
  match geometry with
  | PDict d =>
      if eq_str (field d "type") "Polygon" then
        has_first_ring (field d "coordinates")
      else if eq_str (field d "type") "MultiPolygon" then
        match field d "coordinates" with
        | PList polys => forallb has_first_ring polys
        | _ => true
        end
      else true
  | _ => true
  end.

(** Ring presence, for the geometry of a feature. *)
Definition feature_rings (feature : pyval) : bool :=
  match feature with
  | PDict fd => rings_present_in (field fd "geometry")
  | _ => true
  end.

(** Ring presence, for every geometry of a document. *)
Definition rings_present (doc : pyval) : bool :=
  match doc with
  | PDict d =>
      if eq_str (field d "type") "FeatureCollection" then
        match field d "features" with
        | PList features => forallb feature_rings features
        | _ => true
        end
      else if eq_str (field d "type") "Feature" then
        rings_present_in (field d "geometry")
      else rings_present_in doc
  | _ => true
  end.

(** The JSON shape of one geometry: an object whose coordinates, when its
    type makes the extractor index or iterate them, are an array (of arrays,
    for the polygons of a MultiPolygon). *)
Definition geometry_shaped (geometry : pyval) : bool :=
  match geometry with
  | PDict d =>
      if eq_str (field d "type") "MultiLineString" then
        is_list (field d "coordinates")
      else if eq_str (field d "type") "Polygon" then
        is_list (field d "coordinates")
      else if eq_str (field d "type") "MultiPolygon" then
        match field d "coordinates" with
        | PList polys => forallb is_list polys
        | _ => false
        end
      else true
  | _ => false
  end.

(** A feature is an object whose geometry is falsy (null, absent) or shaped. *)
Definition feature_shaped (feature : pyval) : bool :=
  match feature with
  | PDict fd =>
      negb (truthy (field fd "geometry")) || geometry_shaped (field fd "geometry")
  | _ => false
  end.

(** The JSON shape of a document: an object; the features of a
    FeatureCollection, when present, are an array of shaped features. *)
Definition document_shaped (doc : pyval) : bool :=
  match doc with
  | PDict d =>
      if eq_str (field d "type") "FeatureCollection" then
        match dict_get d "features" with
        | None => true
        | Some (PList features) => forallb feature_shaped features
        | Some _ => false
        end
      else if eq_str (field d "type") "Feature" then feature_shaped doc
      else geometry_shaped doc
  | _ => false
  end.

End GeometryExtractor.

(** ** Configuration (the constants at the head of the script) *)

Definition DAYS_AGO : Z := 1000.
Definition MIN_MAGNITUDE : pyval := PFloat 2.5%float.
Definition MIN_LAT : pyval := PInt 20.
Definition MAX_LAT : pyval := PInt 50.
Definition MIN_LON : pyval := PInt 120.
Definition MAX_LON : pyval := PInt 150.
Definition MIN_DEPTH_KM : Z := 30.
Definition ASPECT_X : float := 1.0%float.
Definition ASPECT_Y : float := 1.0%float.
Definition ASPECT_Z : float := 0.3%float.
Definition EARTHQUAKE_MARKER_SIZE_BASE : Z := 3.
Definition MARKER_MAGNITUDE_MULTIPLIER : float := 1.0%float.
Definition CITY_MARKER_SIZE : Z := 3.
Definition GEOJSON_FILE : string := "gadm41_JPN_0.json".

Definition MAJOR_JAPANESE_CITIES : list (float * float * string) :=
  [ (35.6895%float, 139.6917%float, "東京");
    (34.6937%float, 135.5022%float, "大阪");
    (35.1815%float, 136.9066%float, "名古屋");
    (43.0621%float, 141.3544%float, "札幌");
    (33.5903%float, 130.4017%float, "福岡");
    (38.2682%float, 140.8694%float, "仙台");
    (34.3963%float, 132.4596%float, "広島");
    (34.6851%float, 133.9187%float, "岡山");
    (38.0000%float, 140.0000%float, "福島");
    (37.9023%float, 139.0232%float, "新潟");
    (35.0116%float, 135.7681%float, "京都");
    (34.7042%float, 137.3820%float, "浜松");
    (32.7875%float, 129.8738%float, "長崎");
    (31.5969%float, 130.5571%float, "鹿児島");
    (26.2124%float, 127.6809%float, "那覇") ].

(** ** Naive datetimes *)

Module Clock.

(** A naive [datetime] is a point of the proleptic Gregorian time line:
    microseconds since 0001-01-01T00:00:00.  [datetime.max] is the last
    microsecond of day [MAXORDINAL]. *)
Definition datetime : Type := Z.

Definition US_PER_SECOND : Z := 1000000.
Definition US_PER_DAY : Z := 86400 * US_PER_SECOND.
Definition MAXORDINAL : Z := 3652059.

Definition in_range (t : Z) : bool :=
  (0 <=? t) && (t <? MAXORDINAL * US_PER_DAY).

(** [timedelta(days=d)] for an int [d], in microseconds. *)
Definition timedelta_days (d : Z) : result Z :=
  if Z.abs d <=? 999999999 then Ok (d * US_PER_DAY) else Raise OverflowError.

(** [t - delta]: exact, and out of range past the ends of the calendar. *)
Definition sub (t : datetime) (delta : Z) : result datetime :=
  if in_range (t - delta) then Ok (t - delta) else Raise OverflowError.

(** [t.strftime("%Y-%m-%dT%H:%M:%S")] prints [t] to the second; the text is
    identified with the second it names. *)
Definition strftime_seconds (t : datetime) : Z := t / US_PER_SECOND.

End Clock.

(** ** What the program exchanges with the outside *)

(** One accepted record: the dict [get_usgs_earthquake_data] appends. *)
Record event : Type := {
  latitude : pyval;
  longitude : pyval;
  depth : pyval;
  magnitude : pyval;
  time : string;
  place : pyval
}.

(** The [params] dict of the catalog request. *)
Record query : Type := {
  q_format : string;
  q_starttime : Z;
  q_endtime : Z;
  q_minmagnitude : pyval;
  q_minlatitude : pyval;
  q_maxlatitude : pyval;
  q_minlongitude : pyval;
  q_maxlongitude : pyval;
  q_limit : Z;
  q_orderby : string
}.

(** A [requests.Response]: its status, and what [.json()] does on its body. *)
Record response : Type := {
  status_code : Z;
  body_json : result pyval
}.

(** Everything the run reads from outside. *)
Record world : Type := {
  (** [datetime.now()] *)
  now : Clock.datetime;
  (** [requests.get(api_url, params=params)] *)
  requests_get : string -> query -> result response;
  (** [datetime.fromtimestamp(time_ms / 1000).strftime("%Y/%m/%d %H:%M:%S")]
      for a number [time_ms]; it depends on the host's time zone and raises
      on a time stamp the platform cannot convert. *)
  local_time_text : pyval -> result string;
  (** [json.load] on the file opened with that name *)
  load_json_file : string -> result pyval
}.

(** The hover text of one event: the six values its f-string prints. *)
Record hover_text : Type := {
  h_time : string;
  h_place : pyval;
  h_latitude : pyval;
  h_longitude : pyval;
  h_depth : pyval;
  h_magnitude : pyval
}.

(** The three kinds of [go.Scatter3d] trace the composer builds.  The
    charting library is a collaborator: it takes these series as they are and
    its constructors, [show] and [write_html] do not raise on them. *)
Inductive trace : Type :=
| Earthquakes (x y z : list pyval) (size : list pyval) (color : list pyval)
              (text : list hover_text)
| MajorCities (x y : list float) (z : list Z) (size : Z) (text : list string)
| GeoJSONMapLine (i : nat) (x y : list pyval) (z : list Z).

Definition is_map_line (t : trace) : bool :=
  match t with GeoJSONMapLine _ _ _ _ => true | _ => false end.

Record figure : Type := {
  fig_data : list trace;
  fig_title : Z * pyval * Z;
  fig_aspectratio : float * float * float
}.

(** The lines the script prints. *)
Inductive message : Type :=
| MsgFetching (days_ago : Z) (min_magnitude : pyval)
| MsgApiError (e : exn)
| MsgNothingToVisualize
| MsgEventCount (n : nat)
| MsgLinesExtracted (file : string) (n : nat)
| MsgLinesAdded
| MsgGeoJSONNotFound (file : string)
| MsgGeoJSONMalformed (file : string)
| MsgGeoJSONError (e : exn)
| MsgSaved (file : string)
| MsgReceived (n : nat)
| MsgNoData.

Inductive effect : Type :=
| Print (m : message)
| Show (fig : figure)
| WriteHtml (file : string) (fig : figure).

Definition is_render (e : effect) : bool :=
  match e with Print _ => false | _ => true end.

(** ** Programs: effects in order, exceptions, and the composer's trace list *)

Module Prog.

(** [effects] is what the operator and the rendering collaborator have seen
    so far; [data_to_plot] is the list the composer appends traces to.  Both
    survive an exception. *)
Record machine : Type := {
  effects : list effect;
  data_to_plot : list trace
}.

Definition start : machine := {| effects := []; data_to_plot := [] |}.

Definition prog (A : Type) : Type := machine -> machine * result A.

Definition ret {A} (a : A) : prog A := fun m => (m, Ok a).

Definition bind {A B} (p : prog A) (k : A -> prog B) : prog B :=
  fun m => match p m with
           | (m', Ok a) => k a m'
           | (m', Raise e) => (m', Raise e)
           end.

Definition lift {A} (r : result A) : prog A := fun m => (m, r).

Definition emit (e : effect) : prog unit :=
  fun m => ({| effects := effects m ++ [e]; data_to_plot := data_to_plot m |}, Ok tt).

Definition print (msg : message) : prog unit := emit (Print msg).

Definition set_data_to_plot (l : list trace) : prog unit :=
  fun m => ({| effects := effects m; data_to_plot := l |}, Ok tt).

Definition append_trace (t : trace) : prog unit :=
  fun m => ({| effects := effects m; data_to_plot := data_to_plot m ++ [t] |}, Ok tt).

Definition get_data_to_plot : prog (list trace) :=
  fun m => (m, Ok (data_to_plot m)).

(** [try: body  except ...: handler]; [handler e] is [None] when no clause
    matches [e]. *)
Definition try_except {A} (body : prog A) (handler : exn -> option (prog A))
  : prog A :=
  fun m => match body m with
           | (m', Raise e) =>
               match handler e with
               | Some h => h m'
               | None => (m', Raise e)
               end
           | done => done
           end.

Fixpoint for_each_do {A} (body : A -> prog unit) (l : list A) : prog unit :=
  match l with
  | [] => ret tt
  | x :: l' => bind (body x) (fun _ => for_each_do body l')
  end.

End Prog.

Import Prog.

Declare Scope prog_scope.
Delimit Scope prog_scope with prog.
Notation "x <- m ;; k" := (bind m (fun x => k))
  (at level 61, m at next level, right associativity) : prog_scope.
Notation "m ;; k" := (bind m (fun _ => k))
  (at level 61, right associativity) : prog_scope.

(** ** Catalog client ([get_usgs_earthquake_data]) *)

Module CatalogClient.

Definition api_url : string := "https://earthquake.usgs.gov/fdsnws/event/1/query".

(** [Response.raise_for_status()]: [requests] raises [HTTPError] for a
    client error (4xx) or a server error (5xx) status and for no other. *)
Definition raise_for_status (r : response) : result unit :=
  if (400 <=? status_code r) && (status_code r <? 600)
  then Raise (HTTPError (status_code r))
  else Ok tt.

Section Parsing.

Variable w : world.

(** [datetime.fromtimestamp(time_ms / 1000).strftime(...) if time_ms else "不明"];
    the division is defined on numbers only. *)
Definition event_time_text (time_ms : pyval) : result string :=
  if truthy time_ms then
    if is_number time_ms then local_time_text w time_ms else Raise TypeError
  else Ok "不明".

(** The body of the loop over [data.get('features', [])]. *)
Definition parse_feature (earthquake_list : list event) (feature : pyval)
  : result (list event) :=
  properties <- get feature "properties" ;;
  geometry <- get feature "geometry" ;;
  usable <- (if truthy properties then
               if truthy geometry then
                 coordinates <- get geometry "coordinates" ;;
                 Ok (truthy coordinates)
               else Ok false
             else Ok false) ;;
  if usable then
    c0 <- item geometry "coordinates" ;;
    lon <- index c0 0 ;;
    c1 <- item geometry "coordinates" ;;
    lat <- index c1 1 ;;
    c2 <- item geometry "coordinates" ;;
    depth <- index c2 2 ;;
    mag <- get properties "mag" ;;
    time_ms <- get properties "time" ;;
    place <- get properties "place" ;;
    event_time <- event_time_text time_ms ;;
    if forallb is_number [lat; lon; depth]
       && negb (is_None depth) && negb (is_None mag) then
      deep_enough <- ge_int depth MIN_DEPTH_KM ;;
      if deep_enough then
        Ok (earthquake_list ++
              [ {| latitude := lat; longitude := lon; depth := depth;
                   magnitude := mag; time := event_time; place := place |} ])
      else Ok earthquake_list
    else Ok earthquake_list
  else Ok earthquake_list.

(** From [data = response.json()] to [return earthquake_list]. *)
Definition parse_catalog (data : pyval) : result (list event) :=
  let earthquake_list : list event := [] in
  features <- get_default data "features" (PList []) ;;
  items <- iter features ;;
  for_each parse_feature items earthquake_list.

(** The [try] block. *)
Definition fetch_and_parse (params : query) : result (list event) :=
  response <- requests_get w api_url params ;;
  _ <- raise_for_status response ;;
  data <- body_json response ;;
  parse_catalog data.

Definition query_window (days_ago : Z) : result (Clock.datetime * Clock.datetime) :=
  let end_time := now w in
  delta <- Clock.timedelta_days days_ago ;;
  start_time <- Clock.sub end_time delta ;;
  Ok (start_time, end_time).

Definition build_params (start_time end_time : Clock.datetime)
    (min_magnitude min_lat max_lat min_lon max_lon : pyval) : query :=
  {| q_format := "geojson";
     q_starttime := Clock.strftime_seconds start_time;
     q_endtime := Clock.strftime_seconds end_time;
     q_minmagnitude := min_magnitude;
     q_minlatitude := min_lat;
     q_maxlatitude := max_lat;
     q_minlongitude := min_lon;
     q_maxlongitude := max_lon;
     q_limit := 20000;
     q_orderby := "time" |}.

Definition get_usgs_earthquake_data (days_ago : Z)
    (min_magnitude min_lat max_lat min_lon max_lon : pyval) : prog (list event) :=
  (window <- lift (query_window days_ago) ;;
   let params := build_params (fst window) (snd window)
                   min_magnitude min_lat max_lat min_lon max_lon in
   print (MsgFetching days_ago min_magnitude) ;;
   try_except
     (lift (fetch_and_parse params))
     (fun e => if is_RequestException e
               then Some (print (MsgApiError e) ;; ret [])
               else None))%prog.

End Parsing.

(** *** What the claims about the accepted list speak of *)

(** [e] carries the depth and the magnitude found in [feature]: the third
    coordinate of its geometry and the [mag] of its properties. *)
Definition accepted_from (feature : pyval) (e : event) : Prop :=
  exists properties geometry coordinates,
    get feature "properties" = Ok properties
    /\ get feature "geometry" = Ok geometry
    /\ item geometry "coordinates" = Ok coordinates
    /\ index coordinates 2 = Ok (depth e)
    /\ get properties "mag" = Ok (magnitude e).

(** Depth and magnitude are present, the depth is a number, and
    [depth >= MIN_DEPTH_KM] is True. *)
Definition complete_and_deep (e : event) : Prop :=
  depth e <> PNone
  /\ magnitude e <> PNone
  /\ is_number (depth e) = true
  /\ ge_int (depth e) MIN_DEPTH_KM = Ok true.

(** The malformed records the parse step passes over, for a feature that is
    an object with items [fd]:
    - its properties are missing, null or otherwise falsy; or
    - its geometry is missing, null or otherwise falsy; or
    - its geometry is an object whose coordinates are missing, null or
      otherwise falsy; or
    - its properties are a non-empty object, its geometry is an object whose
      coordinates are an array of at least three items, its time stamp is
      falsy or converts, and one of the first three coordinates is not a
      number or the magnitude is missing or null. *)
Definition skipped_record (w : world) (fd : list (string * pyval)) : Prop :=
  truthy (field fd "properties") = false
  \/ truthy (field fd "geometry") = false
  \/ (exists gd, field fd "geometry" = PDict gd
                 /\ truthy (field gd "coordinates") = false)
  \/ (exists pd gd lon lat dep more event_time,
        field fd "properties" = PDict pd /\ pd <> []
        /\ field fd "geometry" = PDict gd
        /\ field gd "coordinates" = PList (lon :: lat :: dep :: more)
        /\ event_time_text w (field pd "time") = Ok event_time
        /\ (forallb is_number [lat; lon; dep] = false
            \/ field pd "mag" = PNone)).

(** The features a response document is iterated over. *)
Definition features_of (data : pyval) : result (list pyval) :=
  features <- get_default data "features" (PList []) ;;
  iter features.

(** The request for [params] fails at the transport level with [e]: the
    call raises a [RequestException] (a DNS failure and a timeout are such),
    or the service answers with a 4xx or 5xx status. *)
Definition transport_failure (w : world) (params : query) (e : exn) : Prop :=
  (requests_get w api_url params = Raise e /\ is_RequestException e = true)
  \/ (exists r, requests_get w api_url params = Ok r
                /\ 400 <= status_code r < 600
                /\ e = HTTPError (status_code r)).

(** A world with one clock reading, one answer to every request and one
    content for every file. *)
Definition fixed_world (t : Clock.datetime) (answer : result response)
    (file : result pyval) : world :=
  {| now := t;
     requests_get := fun _ _ => answer;
     local_time_text := fun _ => Ok "2024/01/01 09:00:00";
     load_json_file := fun _ => file |}.

(** 2024-01-01T00:00:00, day 738886 of the calendar. *)
Definition new_year_2024 : Clock.datetime := 738885 * Clock.US_PER_DAY.

(** A catalog record as the service sends it. *)
Definition catalog_feature (coordinates : list pyval) (mag : pyval) : pyval :=
  PDict [("type", PStr "Feature");
         ("properties", PDict [("mag", mag); ("place", PStr "off Honshu");
                               ("time", PInt 1704067200000)]);
         ("geometry", PDict [("type", PStr "Point");
                             ("coordinates", PList coordinates)])].

Definition catalog_document (features : list pyval) : pyval :=
  PDict [("type", PStr "FeatureCollection"); ("features", PList features)].

Definition ok_response (data : pyval) : result response :=
  Ok {| status_code := 200; body_json := Ok data |}.

(** Three records, the second one at a depth of 10 km. *)
Definition three_records : pyval :=
  catalog_document
    [ catalog_feature [PFloat 142.37%float; PFloat 38.32%float; PFloat 45.5%float]
                      (PFloat 5.1%float);
      catalog_feature [PInt 140; PInt 36; PInt 10] (PFloat 4.0%float);
      catalog_feature [PFloat 141.2%float; PFloat 37.5%float; PInt 60]
                      (PFloat 3.2%float) ].

End CatalogClient.

(** ** Scene composer ([visualize_earthquakes_pure_3d]) *)

Module SceneComposer.

Import GeometryExtractor.

(** The six lists the first loop fills. *)
Record columns : Type := {
  latitudes : list pyval;
  longitudes : list pyval;
  depths_for_plot : list pyval;
  depths_original : list pyval;
  magnitudes : list pyval;
  event_details : list hover_text
}.

Definition no_columns : columns :=
  {| latitudes := []; longitudes := []; depths_for_plot := [];
     depths_original := []; magnitudes := []; event_details := [] |}.

(** The body of [for eq in earthquakes_data]. *)
Definition collect (c : columns) (eq : event) : result columns :=
  below <- neg (depth eq) ;;
  let detail_text :=
    {| h_time := time eq; h_place := place eq; h_latitude := latitude eq;
       h_longitude := longitude eq; h_depth := depth eq;
       h_magnitude := magnitude eq |} in
  Ok {| latitudes := latitudes c ++ [latitude eq];
        longitudes := longitudes c ++ [longitude eq];
        depths_original := depths_original c ++ [depth eq];
        depths_for_plot := depths_for_plot c ++ [below];
        magnitudes := magnitudes c ++ [magnitude eq];
        event_details := event_details c ++ [detail_text] |}.

(** [max(EARTHQUAKE_MARKER_SIZE_BASE, (mag * MARKER_MAGNITUDE_MULTIPLIER))] *)
Definition marker_size (mag : pyval) : result pyval :=
  scaled <- mul_float mag MARKER_MAGNITUDE_MULTIPLIER ;;
  max_int EARTHQUAKE_MARKER_SIZE_BASE scaled.

Definition earthquakes_trace (c : columns) (marker_sizes : list pyval) : trace :=
  Earthquakes (longitudes c) (latitudes c) (depths_for_plot c)
              marker_sizes (depths_original c) (event_details c).

Definition cities_trace : trace :=
  let city_lats := map (fun city => fst (fst city)) MAJOR_JAPANESE_CITIES in
  let city_lons := map (fun city => snd (fst city)) MAJOR_JAPANESE_CITIES in
  let city_names := map (fun city => snd city) MAJOR_JAPANESE_CITIES in
  let city_zs := repeat 0 (List.length MAJOR_JAPANESE_CITIES) in
  MajorCities city_lons city_lats city_zs CITY_MARKER_SIZE city_names.

(** The trace of one extracted line: the body of
    [for i, line_coords in enumerate(map_lines)] up to the [Scatter3d]. *)
Definition line_trace (i : nat) (line_coords : pyval) : result trace :=
  coords <- iter line_coords ;;
  line_lons <- comprehension (fun coord => index coord 0) coords ;;
  coords' <- iter line_coords ;;
  line_lats <- comprehension (fun coord => index coord 1) coords' ;;
  n <- len line_coords ;;
  let line_zs := repeat 0 n in
  Ok (GeoJSONMapLine i line_lons line_lats line_zs).

Definition enumerate {A} (l : list A) : list (nat * A) :=
  combine (seq 0 (List.length l)) l.

Section Composing.

Variable w : world.

(** The [try] block around the boundary file. *)
Definition add_boundary_lines : prog unit :=
  (geojson_data <- lift (load_json_file w GEOJSON_FILE) ;;
   map_lines <- lift (extract_geojson_lines geojson_data) ;;
   print (MsgLinesExtracted GEOJSON_FILE (List.length map_lines)) ;;
   for_each_do
     (fun il => t <- lift (line_trace (fst il) (snd il)) ;; append_trace t)
     (enumerate map_lines) ;;
   print MsgLinesAdded)%prog.

(** Its three [except] clauses, in order. *)
Definition boundary_handler (e : exn) : option (prog unit) :=
  if is_FileNotFoundError e then Some (print (MsgGeoJSONNotFound GEOJSON_FILE))
  else if is_JSONDecodeError e then Some (print (MsgGeoJSONMalformed GEOJSON_FILE))
  else Some (print (MsgGeoJSONError e)).

Definition output_filename : string := "earthquake_map.html".

Definition make_figure (data : list trace) : figure :=
  {| fig_data := data;
     fig_title := (DAYS_AGO, MIN_MAGNITUDE, MIN_DEPTH_KM);
     fig_aspectratio := (ASPECT_X, ASPECT_Y, ASPECT_Z) |}.

Definition visualize_earthquakes_pure_3d (earthquakes_data : list event)
  : prog unit :=
  (match earthquakes_data with
   | [] => print MsgNothingToVisualize
   | _ :: _ =>
       print (MsgEventCount (List.length earthquakes_data)) ;;
       c <- lift (for_each collect earthquakes_data no_columns) ;;
       marker_sizes <- lift (comprehension marker_size (magnitudes c)) ;;
       set_data_to_plot [earthquakes_trace c marker_sizes] ;;
       append_trace cities_trace ;;
       try_except add_boundary_lines boundary_handler ;;
       data <- get_data_to_plot ;;
       let fig := make_figure data in
       emit (Show fig) ;;
       emit (WriteHtml output_filename fig) ;;
       print (MsgSaved output_filename)
   end)%prog.

(** The [if __name__ == "__main__":] block. *)
Definition main : prog unit :=
  (usgs_earthquake_data <-
     CatalogClient.get_usgs_earthquake_data w DAYS_AGO MIN_MAGNITUDE
       MIN_LAT MAX_LAT MIN_LON MAX_LON ;;
   match usgs_earthquake_data with
   | _ :: _ =>
       print (MsgReceived (List.length usgs_earthquake_data)) ;;
       visualize_earthquakes_pure_3d usgs_earthquake_data
   | [] => print MsgNoData
   end)%prog.

End Composing.

(** *** The boundary step, summarised *)

(** The message the [except] clauses print for [e]: one per category. *)
Definition failure_message (e : exn) : message :=
  if is_FileNotFoundError e then MsgGeoJSONNotFound GEOJSON_FILE
  else if is_JSONDecodeError e then MsgGeoJSONMalformed GEOJSON_FILE
  else MsgGeoJSONError e.

(** The exceptions reading a JSON value can raise: a method, an index or a
    key that is not there, or an operand of the wrong type.  None of them is
    a FileNotFoundError or a JSONDecodeError. *)
Definition is_value_error (e : exn) : bool :=
  match e with
  | AttributeError | TypeError | IndexError | KeyError => true
  | _ => false
  end.

(** The traces the loop over the extracted lines has appended when it stops,
    and the exception that stopped it, if any. *)
Fixpoint line_traces (lines : list (nat * pyval)) : list trace * option exn :=
  match lines with
  | [] => ([], None)
  | il :: rest =>
      match line_trace (fst il) (snd il) with
      | Ok t => (t :: fst (line_traces rest), snd (line_traces rest))
      | Raise e => ([], Some e)
      end
  end.

(** What the whole [try] statement adds to [data_to_plot], and what it
    prints. *)
Definition boundary_run (w : world) : list trace * list message :=
  match load_json_file w GEOJSON_FILE with
  | Raise e => ([], [failure_message e])
  | Ok geojson_data =>
      match extract_geojson_lines geojson_data with
      | Raise e => ([], [failure_message e])
      | Ok map_lines =>
          (fst (line_traces (enumerate map_lines)),
           MsgLinesExtracted GEOJSON_FILE (List.length map_lines)
           :: match snd (line_traces (enumerate map_lines)) with
              | Some e => [failure_message e]
              | None => [MsgLinesAdded]
              end)
      end
  end.

(** The figures handed to [fig.show()], the files written, and the boundary
    lines of a figure. *)
Definition shown (effs : list effect) : list figure :=
  flat_map (fun e => match e with Show fig => [fig] | _ => [] end) effs.

Definition written (effs : list effect) : list (string * figure) :=
  flat_map (fun e => match e with WriteHtml f fig => [(f, fig)] | _ => [] end) effs.

Definition printed (effs : list effect) : list message :=
  flat_map (fun e => match e with Print msg => [msg] | _ => [] end) effs.

Definition map_lines_of (fig : figure) : list trace :=
  filter is_map_line (fig_data fig).

(** One accepted event, and a boundary file whose second line is broken: its
    only point has a longitude and nothing else. *)
Definition one_event : event :=
  {| latitude := PFloat 38.32%float; longitude := PFloat 142.37%float;
     depth := PFloat 45.5%float; magnitude := PFloat 5.1%float;
     time := "2024/01/01 09:00:00"; place := PStr "off Honshu" |}.

Definition half_broken_boundary : pyval :=
  PDict [("type", PStr "MultiLineString");
         ("coordinates",
          PList [PList [PList [PInt 139; PInt 35]; PList [PInt 140; PInt 36]];
                 PList [PList [PInt 141]]])].

End SceneComposer.

(** ** The extractor on the object store *)

(** Python lists and dicts are objects: a variable holds a reference, two
    references may name one object, and [append] and [extend] change the
    object in place.  This module runs the extractor the way the interpreter
    does, on a store of objects, so that what it does to the document it is
    given can be stated.  [GeometryExtractor] above is the same code on
    values; the two are compared in the properties. *)

Module Store.

(** A value is immediate or a reference to an object of the store. *)
Inductive hval : Type :=
| HNone
| HBool (b : bool)
| HInt (z : Z)
| HFloat (f : float)
| HStr (s : string)
| HRef (r : nat).

Inductive hobj : Type :=
| HList (items : list hval)
| HDict (items : list (string * hval)).

(** The store: object number [r] is at position [r]. *)
Definition heap : Type := list hobj.

(** [h] with object [r] replaced by [o]. *)
Fixpoint update (h : heap) (r : nat) (o : hobj) : heap :=
  match h, r with
  | [], _ => []
  | _ :: h', O => o :: h'
  | x :: h', S r' => x :: update h' r' o
  end.

Fixpoint all_some {A} (l : list (option A)) : option (list A) :=
  match l with
  | [] => Some []
  | Some x :: l' => option_map (cons x) (all_some l')
  | None :: _ => None
  end.

(** The JSON value [v] stands for in [h], read to a depth of [fuel]
    objects. *)
Fixpoint reify (fuel : nat) (h : heap) (v : hval) : option pyval :=
  match v with
  | HNone => Some PNone
  | HBool b => Some (PBool b)
  | HInt z => Some (PInt z)
  | HFloat f => Some (PFloat f)
  | HStr s => Some (PStr s)
  | HRef r =>
      match fuel with
      | O => None
      | S fuel' =>
          match nth_error h r with
          | Some (HList items) =>
              option_map PList (all_some (map (reify fuel' h) items))
          | Some (HDict kvs) =>
              option_map PDict
                (all_some
                   (map (fun kv => option_map (pair (fst kv))
                                              (reify fuel' h (snd kv))) kvs))
          | None => None
          end
      end
  end.

(** [x] stands for the JSON value [x'] in [h]. *)
Definition stands (n : nat) (h : heap) (x : hval) (x' : pyval) : Prop :=
  reify n h x = Some x'.

(** Programs on the store; the store survives an exception. *)
Definition hprog (A : Type) : Type := heap -> heap * result A.

Definition hret {A} (a : A) : hprog A := fun h => (h, Ok a).

Definition hbind {A B} (p : hprog A) (k : A -> hprog B) : hprog B :=
  fun h => match p h with
           | (h', Ok a) => k a h'
           | (h', Raise e) => (h', Raise e)
           end.

(** A statement that only reads the store. *)
Definition reading {A} (f : heap -> result A) : hprog A := fun h => (h, f h).

Declare Scope store_scope.
Delimit Scope store_scope with store.
Notation "x <- m ;; k" := (hbind m (fun x => k))
  (at level 61, m at next level, right associativity) : store_scope.
Notation "m ;; k" := (hbind m (fun _ => k))
  (at level 61, right associativity) : store_scope.

(** The object a value refers to. *)
Definition object (h : heap) (v : hval) : option hobj :=
  match v with HRef r => nth_error h r | _ => None end.

(** [bool(v)] *)
Definition truthy (v : hval) : hprog bool :=
  reading (fun h =>
    Ok match v with
       | HNone => false
       | HBool b => b
       | HInt z => negb (z =? 0)
       | HFloat f => negb (PrimFloat.eqb f 0%float)
       | HStr s => negb (String.eqb s "")
       | HRef _ =>
           match object h v with
           | Some (HList (_ :: _)) | Some (HDict (_ :: _)) => true
           | _ => false
           end
       end).

(** [v == 'literal'] *)
Definition eq_str (v : hval) (s : string) : bool :=
  match v with HStr t => String.eqb t s | _ => false end.

Fixpoint dict_get (d : list (string * hval)) (k : string) : option hval :=
  match d with
  | [] => None
  | (k', v) :: d' => if String.eqb k' k then Some v else dict_get d' k
  end.

(** [v.get(k, default)] *)
Definition get_default (v : hval) (k : string) (default : hval) : hprog hval :=
  reading (fun h =>
    match object h v with
    | Some (HDict d) =>
        Ok (match dict_get d k with Some x => x | None => default end)
    | _ => Raise AttributeError
    end).

(** [v.get(k)] *)
Definition get (v : hval) (k : string) : hprog hval := get_default v k HNone.

(** [k in v] for a str [k] *)
Definition contains (v : hval) (k : string) : hprog bool :=
  reading (fun h =>
    match v with
    | HStr s => Ok (match String.index 0 k s with Some _ => true | None => false end)
    | HRef _ =>
        match object h v with
        | Some (HDict d) => Ok (match dict_get d k with Some _ => true | None => false end)
        | Some (HList l) => Ok (existsb (fun x => eq_str x k) l)
        | None => Raise TypeError
        end
    | _ => Raise TypeError
    end).

(** [v[i]] with a non-negative int index *)
Definition index (v : hval) (i : nat) : hprog hval :=
  reading (fun h =>
    match v with
    | HStr s =>
        match nth_error (map HStr (characters s)) i with
        | Some x => Ok x
        | None => Raise IndexError
        end
    | HRef _ =>
        match object h v with
        | Some (HList l) =>
            match nth_error l i with Some x => Ok x | None => Raise IndexError end
        | Some (HDict _) => Raise KeyError
        | None => Raise TypeError
        end
    | _ => Raise TypeError
    end).

(** The items a [for] loop or [list.extend] draws from [v].  They are taken
    when the loop starts: the lists iterated here belong to the document,
    and the loop bodies change only lists the call has created
    (see the properties). *)
Definition iter (v : hval) : hprog (list hval) :=
  reading (fun h =>
    match v with
    | HStr s => Ok (map HStr (characters s))
    | HRef _ =>
        match object h v with
        | Some (HList l) => Ok l
        | Some (HDict d) => Ok (map (fun kv => HStr (fst kv)) d)
        | None => Raise TypeError
        end
    | _ => Raise TypeError
    end).

(** [[]]: a new, empty list object. *)
Definition new_list : hprog hval :=
  fun h => (h ++ [HList []], Ok (HRef (List.length h))).

(** [l.extend(items)] once the items are drawn: the object [l] refers to is
    changed in place. *)
Definition add_items (l : hval) (new_items : list hval) : hprog unit :=
  fun h =>
    match l with
    | HRef r =>
        match nth_error h r with
        | Some (HList items) => (update h r (HList (items ++ new_items)), Ok tt)
        | _ => (h, Raise AttributeError)
        end
    | _ => (h, Raise AttributeError)
    end.

(** [l.append(x)] *)
Definition append (l x : hval) : hprog unit := add_items l [x].

(** [l.extend(src)] *)
Definition extend (l src : hval) : hprog unit :=
  (new_items <- iter src ;; add_items l new_items)%store.

(** A [for] loop over the items drawn. *)
Fixpoint for_in (items : list hval) (body : hval -> hprog unit) : hprog unit :=
  match items with
  | [] => hret tt
  | x :: items' => hbind (body x) (fun _ => for_in items' body)
  end.

(** [extract_coords], returning the reference to its list [coords]. *)
Definition extract_coords (geometry : hval) : hprog hval :=
  (coords <- new_list ;;
   geom_type <- get geometry "type" ;;
   geom_coords <- get geometry "coordinates" ;;
   if eq_str geom_type "Point" then
     hret coords
   else if eq_str geom_type "LineString" then
     append coords geom_coords ;; hret coords
   else if eq_str geom_type "MultiLineString" then
     extend coords geom_coords ;; hret coords
   else if eq_str geom_type "Polygon" then
     ring <- index geom_coords 0 ;;
     append coords ring ;; hret coords
   else if eq_str geom_type "MultiPolygon" then
     polys <- iter geom_coords ;;
     for_in polys (fun poly => ring <- index poly 0 ;; append coords ring) ;;
     hret coords
   else
     hret coords)%store.

(** [all_lines.extend(extract_coords(geometry))] *)
Definition extend_with_coords (all_lines geometry : hval) : hprog unit :=
  (coords <- extract_coords geometry ;; extend all_lines coords)%store.

(** The body of the loop over the features. *)
Definition extract_feature (all_lines feature : hval) : hprog unit :=
  (geometry <- get feature "geometry" ;;
   nonempty <- truthy geometry ;;
   if nonempty then extend_with_coords all_lines geometry else hret tt)%store.

(** [extract_geojson_lines], returning the reference to [all_lines]. *)
Definition extract_geojson_lines (geojson_data : hval) : hprog hval :=
  (all_lines <- new_list ;;
   type1 <- get geojson_data "type" ;;
   if eq_str type1 "FeatureCollection" then
     default <- new_list ;;
     features <- get_default geojson_data "features" default ;;
     items <- iter features ;;
     for_in items (extract_feature all_lines) ;;
     hret all_lines
   else
     type2 <- get geojson_data "type" ;;
     if eq_str type2 "Feature" then
       geometry <- get geojson_data "geometry" ;;
       nonempty <- truthy geometry ;;
       (if nonempty then extend_with_coords all_lines geometry else hret tt) ;;
       hret all_lines
     else
       has_coordinates <- contains geojson_data "coordinates" ;;
       has_type <- (if has_coordinates then contains geojson_data "type"
                    else hret false) ;;
       (if has_type then extend_with_coords all_lines geojson_data else hret tt) ;;
       hret all_lines)%store.

(** Every object [h] holds is still in [h'], unchanged. *)
Definition keeps (h h' : heap) : Prop :=
  forall r o, nth_error h r = Some o -> nth_error h' r = Some o.

(** A small store: a FeatureCollection of a LineString and a Polygon with a
    hole.  Object 9 is the document. *)
Definition sample_store : heap :=
  [ HList [HInt 1; HInt 2];                                   (* 0: a point *)
    HList [HRef 0; HRef 0];                                   (* 1: a line *)
    HDict [("type", HStr "LineString"); ("coordinates", HRef 1)];   (* 2 *)
    HDict [("type", HStr "Feature"); ("geometry", HRef 2)];         (* 3 *)
    HList [HRef 0; HRef 0; HRef 0; HRef 0];                   (* 4: a ring *)
    HList [HRef 4; HRef 1];                                   (* 5: rings *)
    HDict [("type", HStr "Polygon"); ("coordinates", HRef 5)];      (* 6 *)
    HDict [("type", HStr "Feature"); ("geometry", HRef 6)];         (* 7 *)
    HList [HRef 3; HRef 7];                                   (* 8: features *)
    HDict [("type", HStr "FeatureCollection"); ("name", HStr "sample");
           ("features", HRef 8)] ].                           (* 9 *)

End Store.

(** ** Records and lines in good order *)

Module WellFormed.

(** The values the parse step reads off a feature that is an object with a
    properties object, a geometry object and at least three coordinates. *)
Definition record_fields (feature lon lat dep mag time_ms place : pyval) : Prop :=
  exists fd pd gd more,
    feature = PDict fd
    /\ field fd "properties" = PDict pd /\ pd <> []
    /\ field fd "geometry" = PDict gd
    /\ field gd "coordinates" = PList (lon :: lat :: dep :: more)
    /\ field pd "mag" = mag
    /\ field pd "time" = time_ms
    /\ field pd "place" = place.

(** The dict appended for such a feature. *)
Definition record_of (lon lat dep mag : pyval) (event_time : string)
    (place : pyval) : event :=
  {| latitude := lat; longitude := lon; depth := dep;
     magnitude := mag; time := event_time; place := place |}.

(** A point with at least a longitude and a latitude, and a line of such
    points. *)
Definition is_point (p : pyval) : bool :=
  match p with PList (_ :: _ :: _) => true | _ => false end.

Definition is_line (line : pyval) : bool :=
  match line with PList points => forallb is_point points | _ => false end.

Definition point_x (p : pyval) : pyval :=
  match p with PList (x :: _) => x | _ => PNone end.

Definition point_y (p : pyval) : pyval :=
  match p with PList (_ :: y :: _) => y | _ => PNone end.

Definition points_of (line : pyval) : list pyval :=
  match line with PList points => points | _ => [] end.

(** The trace of line number [i]: its longitudes, its latitudes, and a zero
    for every point. *)
Definition surface_line (i : nat) (line : pyval) : trace :=
  GeoJSONMapLine i (map point_x (points_of line)) (map point_y (points_of line))
                 (repeat 0 (List.length (points_of line))).

(** [e] carries the position, the place and the time found in [feature]:
    longitude and latitude are its first two coordinates, and the time text
    is what the time stamp of its properties converts to. *)
Definition read_from (w : world) (feature : pyval) (e : event) : Prop :=
  exists properties geometry coordinates time_ms,
    get feature "properties" = Ok properties
    /\ get feature "geometry" = Ok geometry
    /\ item geometry "coordinates" = Ok coordinates
    /\ index coordinates 0 = Ok (longitude e)
    /\ index coordinates 1 = Ok (latitude e)
    /\ get properties "place" = Ok (place e)
    /\ get properties "time" = Ok time_ms
    /\ CatalogClient.event_time_text w time_ms = Ok (time e).

(** The hover text of one record. *)
Definition hover_of (eq : event) : hover_text :=
  {| h_time := time eq; h_place := place eq; h_latitude := latitude eq;
     h_longitude := longitude eq; h_depth := depth eq;
     h_magnitude := magnitude eq |}.

End WellFormed.

(** * Properties *)

(** ** Loops and comprehensions *)

Section LoopFacts.

Context {A S : Type}.

Lemma for_each_app (body : S -> A -> result S) (l1 l2 : list A) (s : S) :
  for_each body (l1 ++ l2) s = (s' <- for_each body l1 s ;; for_each body l2 s').
Proof.
  revert s; induction l1 as [|x l1 IH]; intros s; simpl.
  - reflexivity.
  - destruct (body s x); simpl; auto.
Qed.

End LoopFacts.

Lemma comprehension_Forall2 {A B} (f : A -> result B) (l : list A) (ys : list B) :
  comprehension f l = Ok ys -> Forall2 (fun x y => f x = Ok y) l ys.
Proof.
  revert ys; induction l as [|a l IH]; intros ys; simpl.
  - intros [= <-]; constructor.
  - destruct (f a) eqn:Fa; [|discriminate].
    destruct (comprehension f l) eqn:Fl; [|discriminate].
    intros [= <-]; constructor; auto.
Qed.

Lemma get_field d k : get (PDict d) k = Ok (field d k).
Proof. reflexivity. Qed.

Lemma field_list_found d k l :
  field d k = PList l -> dict_get d k = Some (PList l).
Proof. unfold field; destruct (dict_get d k); [intros ->; reflexivity|discriminate]. Qed.

(** A str is indexed, iterated and measured by character, not by byte. *)
Example characters_of_a_str :
  len (PStr "東京") = Ok 2%nat
  /\ iter (PStr "東京") = Ok [PStr "東"; PStr "京"]
  /\ index (PStr "東京") 1 = Ok (PStr "京")
  /\ index (PStr "東京") 2 = Raise IndexError
  /\ iter (PStr "a東b") = Ok [PStr "a"; PStr "東"; PStr "b"]
  /\ len (PStr "") = Ok 0%nat.
Proof. repeat split; vm_compute; reflexivity. Qed.

(** Comparisons and products on the numbers a catalog carries. *)
Example number_operations :
  ge_int (PFloat 30.0%float) 30 = Ok true
  /\ ge_int (PFloat 29.999%float) 30 = Ok false
  /\ ge_int (PFloat nan) 30 = Ok false
  /\ ge_int (PFloat infinity) 30 = Ok true
  /\ ge_int (PInt 30) 30 = Ok true
  /\ ge_int (PBool true) 30 = Ok false
  /\ ge_int (PStr "45") 30 = Raise TypeError
  /\ mul_float (PInt 7) 1.0%float = Ok (PFloat 7.0%float)
  /\ mul_float (PInt 9007199254740993) 1.0%float = Ok (PFloat 9007199254740992.0%float)
  /\ mul_float (PInt (10 ^ 400)) 1.0%float = Raise OverflowError
  /\ max_int 3 (PFloat nan) = Ok (PInt 3).
Proof. repeat split; vm_compute; reflexivity. Qed.

(** ** Geometry extractor *)

Module GeometryFacts.

Import GeometryExtractor.

(** The MultiPolygon loop keeps what [coords] held and adds the first ring of
    each polygon, in order. *)
Lemma first_rings_loop polys rings :
  Forall2 (fun poly ring => exists rest, poly = PList (ring :: rest)) polys rings ->
  forall coords,
    for_each (fun coords poly => ring <- index poly 0 ;; Ok (coords ++ [ring]))
             polys coords = Ok (coords ++ rings).
Proof.
  induction 1 as [|poly ring polys rings [rest ->] _ IH]; intros coords; simpl.
  - now rewrite app_nil_r.
  - rewrite IH, <- app_assoc; reflexivity.
Qed.

Lemma first_rings_exist polys :
  forallb has_first_ring polys = true ->
  exists rings,
    Forall2 (fun poly ring => exists rest, poly = PList (ring :: rest)) polys rings.
Proof.
  induction polys as [|poly polys IH]; simpl.
  - exists []; constructor.
  - intros H; apply andb_prop in H as [Hp Hr].
    destruct (IH Hr) as [rings Hrings].
    destruct poly as [| | | | |[|ring rest]|]; try discriminate.
    exists (ring :: rings); constructor; eauto.
Qed.

(** The loop over features only ever appends to [all_lines]. *)
Lemma extract_feature_shift features :
  forall all_lines,
    for_each extract_feature features all_lines
    = (lines <- for_each extract_feature features [] ;; Ok (all_lines ++ lines)).
Proof.
  induction features as [|f features IH]; intros all_lines; simpl.
  - now rewrite app_nil_r.
  - unfold extract_feature at 1 3.
    destruct (get f "geometry") as [geometry|e]; simpl; [|reflexivity].
    destruct (truthy geometry).
    + destruct (extract_coords geometry) as [coords|e]; simpl; [|reflexivity].
      rewrite (IH (all_lines ++ coords)), (IH coords).
      destruct (for_each extract_feature features []); simpl;
        [now rewrite app_assoc | reflexivity].
    + apply IH.
Qed.

Lemma extract_feature_collection features :
  extract_geojson_lines (feature_collection features)
  = for_each extract_feature features [].
Proof. reflexivity. Qed.

(** Any FeatureCollection, whatever other members it has, is extracted by
    the loop over its features. *)
Lemma extract_collection d features :
  eq_str (field d "type") "FeatureCollection" = true ->
  dict_get d "features" = Some (PList features) ->
  extract_geojson_lines (PDict d) = for_each extract_feature features [].
Proof.
  intros Ht Hf; unfold extract_geojson_lines.
  rewrite get_field; cbn [rbind get_default]; rewrite Ht, Hf; reflexivity.
Qed.

(** The same loop stops with IndexError at the first polygon without a
    ring. *)
Lemma first_rings_missing polys :
  forallb is_list polys = true ->
  forallb has_first_ring polys = false ->
  forall coords,
    for_each (fun coords poly => ring <- index poly 0 ;; Ok (coords ++ [ring]))
             polys coords = Raise IndexError.
Proof.
  induction polys as [|poly polys IH]; cbn [forallb]; [discriminate|].
  intros Hl Hr coords; apply andb_prop in Hl as [Hp Hl].
  destruct poly as [| | | | |[|ring rest]|]; try discriminate; cbn.
  - reflexivity.
  - apply IH; assumption.
Qed.

Lemma extract_coords_total geometry :
  geometry_shaped geometry = true ->
  rings_present_in geometry = true ->
  exists coords, extract_coords geometry = Ok coords.
Proof.
  destruct geometry as [| | | | | |d]; try discriminate.
  unfold geometry_shaped, rings_present_in, extract_coords.
  rewrite !get_field; cbn [rbind].
  destruct (eq_str (field d "type") "Point"); [eauto|].
  destruct (eq_str (field d "type") "LineString"); [eauto|].
  destruct (eq_str (field d "type") "MultiLineString").
  { destruct (field d "coordinates"); try discriminate; cbn; eauto. }
  destruct (eq_str (field d "type") "Polygon").
  { intros _.
    destruct (field d "coordinates") as [| | | | |[|ring rest]|];
      try discriminate; cbn; eauto. }
  destruct (eq_str (field d "type") "MultiPolygon"); [|eauto].
  destruct (field d "coordinates") as [| | | | |polys|];
    try discriminate; cbn [rbind iter].
  intros _ Hrings.
  destruct (first_rings_exist _ Hrings) as [rings Hr].
  exists rings. apply (first_rings_loop _ _ Hr []).
Qed.

Lemma extract_coords_no_ring geometry :
  geometry_shaped geometry = true ->
  rings_present_in geometry = false ->
  extract_coords geometry = Raise IndexError.
Proof.
  destruct geometry as [| | | | | |d]; try discriminate.
  unfold geometry_shaped, rings_present_in, extract_coords.
  rewrite !get_field; cbn [rbind].
  destruct (eq_str (field d "type") "Point") eqn:EPoint.
  { destruct (field d "type") as [| | | |t| |]; try discriminate.
    apply String.eqb_eq in EPoint as ->; discriminate. }
  destruct (eq_str (field d "type") "LineString") eqn:ELine.
  { destruct (field d "type") as [| | | |t| |]; try discriminate.
    apply String.eqb_eq in ELine as ->; discriminate. }
  destruct (eq_str (field d "type") "MultiLineString") eqn:EMulti.
  { destruct (field d "type") as [| | | |t| |]; try discriminate.
    apply String.eqb_eq in EMulti as ->; discriminate. }
  destruct (eq_str (field d "type") "Polygon").
  { destruct (field d "coordinates") as [| | | | |[|ring rest]|];
      try discriminate; reflexivity. }
  destruct (eq_str (field d "type") "MultiPolygon"); [|discriminate].
  destruct (field d "coordinates") as [| | | | |polys|];
    try discriminate; cbn [rbind iter].
  intros Hl Hr; apply first_rings_missing; assumption.
Qed.

(** A geometry that lacks a ring is a dict with a type, hence truthy. *)
Lemma no_ring_truthy geometry :
  rings_present_in geometry = false -> truthy geometry = true.
Proof.
  destruct geometry as [| | | | | |[|kv d]]; try discriminate; reflexivity.
Qed.

Lemma extract_feature_total feature all_lines :
  feature_shaped feature = true ->
  feature_rings feature = true ->
  exists lines, extract_feature all_lines feature = Ok lines.
Proof.
  destruct feature as [| | | | | |fd]; try discriminate.
  unfold feature_shaped, feature_rings, extract_feature.
  rewrite get_field; cbn [rbind].
  destruct (truthy (field fd "geometry")); cbn [negb orb]; [|eauto].
  intros Hs Hr.
  destruct (extract_coords_total _ Hs Hr) as [coords ->]; cbn; eauto.
Qed.

Lemma extract_feature_no_ring feature all_lines :
  feature_shaped feature = true ->
  feature_rings feature = false ->
  extract_feature all_lines feature = Raise IndexError.
Proof.
  destruct feature as [| | | | | |fd]; try discriminate.
  unfold feature_shaped, feature_rings, extract_feature.
  rewrite get_field; cbn [rbind].
  intros Hs Hr; rewrite (no_ring_truthy _ Hr) in *; cbn [negb orb] in Hs.
  rewrite (extract_coords_no_ring _ Hs Hr); reflexivity.
Qed.

Lemma extract_features_total features :
  forallb feature_shaped features = true ->
  forallb feature_rings features = true ->
  forall all_lines,
  exists lines, for_each extract_feature features all_lines = Ok lines.
Proof.
  induction features as [|f features IH]; cbn [forallb for_each];
    intros Hs Hr all_lines.
  - eauto.
  - apply andb_prop in Hs as [Hs1 Hs2]; apply andb_prop in Hr as [Hr1 Hr2].
    destruct (extract_feature_total f all_lines Hs1 Hr1) as [lines ->].
    apply IH; assumption.
Qed.

Lemma extract_features_no_ring features :
  forallb feature_shaped features = true ->
  forallb feature_rings features = false ->
  forall all_lines,
    for_each extract_feature features all_lines = Raise IndexError.
Proof.
  induction features as [|f features IH]; cbn [forallb for_each];
    intros Hs Hr all_lines; [discriminate|].
  apply andb_prop in Hs as [Hs1 Hs2].
  destruct (feature_rings f) eqn:Hf; cbn [andb] in Hr.
  - destruct (extract_feature_total f all_lines Hs1 Hf) as [lines ->].
    apply IH; assumption.
  - rewrite (extract_feature_no_ring f all_lines Hs1 Hf); reflexivity.
Qed.

(** The lines of a FeatureCollection are the contributions of its features,
    one after the other. *)
Lemma extract_features_concat features :
  forall lines,
    for_each extract_feature features [] = Ok lines
    <-> exists parts,
          Forall2 (fun feature part => extract_feature [] feature = Ok part)
                  features parts
          /\ lines = List.concat parts.
Proof.
  induction features as [|f features IH]; intros lines; cbn [for_each].
  - split.
    + intros [= <-]; exists []; split; [constructor|reflexivity].
    + intros (parts & Hparts & ->); inversion Hparts; reflexivity.
  - split.
    + destruct (extract_feature [] f) as [part|e] eqn:Hf; [|discriminate].
      rewrite extract_feature_shift.
      destruct (for_each extract_feature features []) as [more|e] eqn:Hfs;
        cbn [rbind]; [|discriminate].
      intros [= <-].
      destruct (proj1 (IH more) eq_refl) as (parts & Hparts & ->).
      exists (part :: parts); split; [constructor; assumption|reflexivity].
    + intros (parts & Hparts & ->).
      inversion Hparts as [|? part ? parts' Hf Hrest]; subst.
      rewrite Hf, extract_feature_shift.
      rewrite (proj2 (IH (List.concat parts'))); [reflexivity|eauto].
Qed.

End GeometryFacts.

(** ** The extractor on the object store *)

Module StoreFacts.

Import Store.

(** *** Reading values out of the store *)

Lemma all_some_Forall2 {A B} (f : A -> option B) (l : list A) (l' : list B) :
  all_some (map f l) = Some l' <-> Forall2 (fun x y => f x = Some y) l l'.
Proof.
  revert l'; induction l as [|x l IH]; intros l'; cbn [map all_some].
  - split; [intros [= <-]; constructor|inversion 1; reflexivity].
  - split.
    + destruct (f x) as [y|] eqn:Hx; [|discriminate].
      destruct (all_some (map f l)) as [ys|] eqn:Hl; [|discriminate].
      intros [= <-]; constructor; [assumption|now apply IH].
    + inversion 1 as [|? y ? ys Hx Hl]; subst.
      rewrite Hx; apply IH in Hl; rewrite Hl; reflexivity.
Qed.

Lemma reify_immediate n h v :
  match v with HRef _ => True | _ => False end \/
  reify n h v = match v with
                | HNone => Some PNone
                | HBool b => Some (PBool b)
                | HInt z => Some (PInt z)
                | HFloat f => Some (PFloat f)
                | HStr s => Some (PStr s)
                | HRef _ => None
                end.
Proof. destruct v; [right; destruct n; reflexivity ..|left; exact I]. Qed.

Lemma reify_None n h : reify n h HNone = Some PNone.
Proof. destruct n; reflexivity. Qed.

Lemma reify_Str n h s : reify n h (HStr s) = Some (PStr s).
Proof. destruct n; reflexivity. Qed.

Lemma reify_ref n h r :
  reify (S n) h (HRef r)
  = match nth_error h r with
    | Some (HList items) => option_map PList (all_some (map (reify n h) items))
    | Some (HDict kvs) =>
        option_map PDict
          (all_some (map (fun kv => option_map (pair (fst kv)) (reify n h (snd kv)))
                         kvs))
    | None => None
    end.
Proof. reflexivity. Qed.

Lemma Forall2_weaken {A B} (P Q : A -> B -> Prop) l l' :
  (forall x y, P x y -> Q x y) -> Forall2 P l l' -> Forall2 Q l l'.
Proof. intros H; induction 1; constructor; auto. Qed.

(** What a value stands for is the same at a greater depth. *)
Lemma reify_deeper n : forall h v t,
  reify n h v = Some t -> reify (S n) h v = Some t.
Proof.
  induction n as [|n IH]; intros h v t.
  - destruct v; cbn; try (intros [= <-]; reflexivity); discriminate.
  - destruct v; try (cbn; intros [= <-]; reflexivity).
    rewrite (reify_ref (S n)), (reify_ref n).
    destruct (nth_error h r) as [[items|kvs]|]; [| |discriminate].
    + destruct (all_some (map (reify n h) items)) as [l|] eqn:Hl; [|discriminate].
      intros [= <-].
      apply all_some_Forall2 in Hl.
      apply (Forall2_weaken _ (fun x y => reify (S n) h x = Some y)) in Hl;
        [|intros x y; apply IH].
      apply all_some_Forall2 in Hl; rewrite Hl; reflexivity.
    + destruct (all_some (map _ kvs)) as [d|] eqn:Hd; [|discriminate].
      intros [= <-].
      apply all_some_Forall2 in Hd.
      apply (Forall2_weaken _
               (fun kv y => option_map (pair (fst kv)) (reify (S n) h (snd kv))
                            = Some y)) in Hd.
      * apply all_some_Forall2 in Hd; rewrite Hd; reflexivity.
      * intros kv y.
        destruct (reify n h (snd kv)) as [x|] eqn:Hx; [|discriminate].
        rewrite (IH _ _ _ Hx); auto.
Qed.

(** What a value stands for is the same in a store that keeps every
    object. *)
Lemma reify_keeps n : forall h h' v t,
  keeps h h' -> reify n h v = Some t -> reify n h' v = Some t.
Proof.
  induction n as [|n IH]; intros h h' v t K.
  - destruct v; cbn; auto.
  - destruct v; try (cbn; auto; fail).
    rewrite !reify_ref.
    destruct (nth_error h r) as [o|] eqn:Ho; [|discriminate].
    rewrite (K _ _ Ho).
    destruct o as [items|kvs].
    + destruct (all_some (map (reify n h) items)) as [l|] eqn:Hl; [|discriminate].
      intros [= <-].
      apply all_some_Forall2 in Hl.
      apply (Forall2_weaken _ (fun x y => reify n h' x = Some y)) in Hl;
        [|intros x y; apply IH; exact K].
      apply all_some_Forall2 in Hl; rewrite Hl; reflexivity.
    + destruct (all_some (map _ kvs)) as [d|] eqn:Hd; [|discriminate].
      intros [= <-].
      apply all_some_Forall2 in Hd.
      apply (Forall2_weaken _
               (fun kv y => option_map (pair (fst kv)) (reify n h' (snd kv))
                            = Some y)) in Hd.
      * apply all_some_Forall2 in Hd; rewrite Hd; reflexivity.
      * intros kv y.
        destruct (reify n h (snd kv)) as [x|] eqn:Hx; [|discriminate].
        rewrite (IH _ _ _ _ K Hx); auto.
Qed.

(** The shape of a value, from what it stands for. *)
Lemma reify_cases n h v t :
  reify n h v = Some t ->
  match t with
  | PNone => v = HNone
  | PBool b => v = HBool b
  | PInt z => v = HInt z
  | PFloat f => v = HFloat f
  | PStr s => v = HStr s
  | PList l =>
      exists r items,
        v = HRef r /\ nth_error h r = Some (HList items)
        /\ Forall2 (fun x x' => reify n h x = Some x') items l
  | PDict d =>
      exists r kvs,
        v = HRef r /\ nth_error h r = Some (HDict kvs)
        /\ Forall2 (fun kv kv' => fst kv = fst kv'
                                  /\ reify n h (snd kv) = Some (snd kv')) kvs d
  end.
Proof.
  destruct v.
  1-5: destruct n; cbn; intros [= <-]; reflexivity.
  destruct n as [|n]; [discriminate|].
  rewrite reify_ref.
  destruct (nth_error h r) as [[items|kvs]|] eqn:Ho; [| |discriminate].
  - destruct (all_some (map (reify n h) items)) as [l|] eqn:Hl; [|discriminate].
    intros [= <-]; exists r, items; repeat split; auto.
    apply all_some_Forall2 in Hl.
    eapply Forall2_weaken; [|exact Hl]; intros x y; apply reify_deeper.
  - destruct (all_some (map _ kvs)) as [d|] eqn:Hd; [|discriminate].
    intros [= <-]; exists r, kvs; repeat split; auto.
    apply all_some_Forall2 in Hd.
    eapply Forall2_weaken; [|exact Hd]; intros kv [k' x'].
    destruct (reify n h (snd kv)) as [x|] eqn:Hx; [|discriminate].
    cbn; intros [= <- <-]; split; [reflexivity|].
    apply reify_deeper; assumption.
Qed.

(** A list object stands for the list of what its items stand for. *)
Lemma reify_list n h r items l :
  nth_error h r = Some (HList items) ->
  Forall2 (fun x x' => reify n h x = Some x') items l ->
  reify (S n) h (HRef r) = Some (PList l).
Proof.
  intros Ho Hl; rewrite reify_ref, Ho.
  apply all_some_Forall2 in Hl; rewrite Hl; reflexivity.
Qed.

Lemma dict_get_reified n h kvs d k :
  Forall2 (fun kv kv' => fst kv = fst kv'
                         /\ reify n h (snd kv) = Some (snd kv')) kvs d ->
  match Py.dict_get d k with
  | Some x' => exists x, dict_get kvs k = Some x /\ reify n h x = Some x'
  | None => dict_get kvs k = None
  end.
Proof.
  induction 1 as [|[k1 x] [k1' x'] kvs d [Hk Hx] _ IH]; cbn in *; [reflexivity|].
  subst k1'; destruct (String.eqb k1 k); [eauto|exact IH].
Qed.

Lemma nth_error_reified {A B} (R : A -> B -> Prop) l l' i :
  Forall2 R l l' ->
  match nth_error l' i with
  | Some x' => exists x, nth_error l i = Some x /\ R x x'
  | None => nth_error l i = None
  end.
Proof.
  intros H; revert i; induction H as [|x x' l l' Hx _ IH]; intros [|i]; cbn; eauto.
  apply IH.
Qed.

(** *** The store grows at its end *)

Lemma keeps_refl h : keeps h h.
Proof. intros r o H; exact H. Qed.

Lemma keeps_trans h1 h2 h3 : keeps h1 h2 -> keeps h2 h3 -> keeps h1 h3.
Proof. intros K1 K2 r o H; auto. Qed.

Lemma keeps_app h0 h more : keeps h0 h -> keeps h0 (h ++ more).
Proof.
  intros K r o H; apply K in H.
  rewrite nth_error_app1; [exact H|].
  apply nth_error_Some; congruence.
Qed.

Lemma nth_error_here (h : heap) o rest :
  nth_error (h ++ o :: rest) (List.length h) = Some o.
Proof. rewrite nth_error_app2, Nat.sub_diag by lia; reflexivity. Qed.

Lemma update_here (h : heap) o o' rest :
  update (h ++ o :: rest) (List.length h) o' = h ++ o' :: rest.
Proof. induction h as [|x h IH]; cbn; [reflexivity|now rewrite IH]. Qed.

Lemma add_items_here h acc rest new_items :
  add_items (HRef (List.length h)) new_items (h ++ HList acc :: rest)
  = (h ++ HList (acc ++ new_items) :: rest, Ok tt).
Proof. unfold add_items; rewrite nth_error_here, update_here; reflexivity. Qed.

Lemma hbind_ok {A B} (p : hprog A) (k : A -> hprog B) h h' a :
  p h = (h', Ok a) -> hbind p k h = k a h'.
Proof. unfold hbind; intros ->; reflexivity. Qed.

Lemma hbind_raise {A B} (p : hprog A) (k : A -> hprog B) h h' e :
  p h = (h', Raise e) -> hbind p k h = (h', Raise e).
Proof. unfold hbind; intros ->; reflexivity. Qed.

(** *** The statements that read the store *)

Section Reading.

Variables (n : nat) (h0 h : heap).
Hypothesis K : keeps h0 h.

Lemma get_default_reified v t k default default' :
  reify n h0 v = Some t ->
  match Py.get_default t k default' with
  | Ok x' =>
      exists x, get_default v k default h = (h, Ok x)
                /\ (reify n h0 x = Some x' \/ x = default /\ x' = default')
  | Raise e => get_default v k default h = (h, Raise e)
  end.
Proof.
  intros R; apply reify_cases in R.
  destruct t; try (subst v; reflexivity).
  - destruct R as (r & items & -> & Ho & _).
    cbn; unfold get_default, reading, object; rewrite (K _ _ Ho); reflexivity.
  - destruct R as (r & kvs & -> & Ho & Hd).
    cbn; unfold get_default, reading, object; rewrite (K _ _ Ho).
    pose proof (dict_get_reified _ _ _ _ k Hd) as Hk.
    destruct (Py.dict_get d k) as [x'|].
    + destruct Hk as (x & -> & Hx); eauto.
    + rewrite Hk; eauto.
Qed.

Lemma get_reified v t k :
  reify n h0 v = Some t ->
  match Py.get t k with
  | Ok x' => exists x, get v k h = (h, Ok x) /\ reify n h0 x = Some x'
  | Raise e => get v k h = (h, Raise e)
  end.
Proof.
  intros R; pose proof (get_default_reified v t k HNone PNone R) as H.
  unfold Py.get, get.
  destruct (Py.get_default t k PNone) as [x'|e]; [|exact H].
  destruct H as (x & Hx & Hor); exists x; split; [exact Hx|].
  destruct Hor as [Hr|[-> ->]]; [exact Hr|apply reify_None].
Qed.

Lemma truthy_reified v t :
  reify n h0 v = Some t -> truthy v h = (h, Ok (Py.truthy t)).
Proof.
  intros R; apply reify_cases in R.
  destruct t; try (subst v; reflexivity).
  - destruct R as (r & items & -> & Ho & Hl).
    unfold truthy, reading, object; rewrite (K _ _ Ho).
    destruct Hl; reflexivity.
  - destruct R as (r & kvs & -> & Ho & Hd).
    unfold truthy, reading, object; rewrite (K _ _ Ho).
    destruct Hd; reflexivity.
Qed.

Lemma eq_str_reified v t s :
  reify n h0 v = Some t -> eq_str v s = Py.eq_str t s.
Proof.
  intros R; apply reify_cases in R.
  destruct t; try (subst v; reflexivity).
  - destruct R as (r & items & -> & _); reflexivity.
  - destruct R as (r & kvs & -> & _); reflexivity.
Qed.

Lemma contains_reified v t k :
  reify n h0 v = Some t -> contains v k h = (h, Py.contains t k).
Proof.
  intros R; apply reify_cases in R.
  destruct t; try (subst v; reflexivity).
  - destruct R as (r & items & -> & Ho & Hl).
    unfold contains, reading, object; rewrite (K _ _ Ho); cbn.
    do 2 f_equal; clear Ho.
    induction Hl as [|x x' items l Hx _ IH]; cbn; [reflexivity|].
    rewrite (eq_str_reified _ _ _ Hx), IH; reflexivity.
  - destruct R as (r & kvs & -> & Ho & Hd).
    unfold contains, reading, object; rewrite (K _ _ Ho); cbn.
    pose proof (dict_get_reified _ _ _ _ k Hd) as Hk.
    destruct (Py.dict_get d k) as [x'|].
    + destruct Hk as (x & -> & _); reflexivity.
    + rewrite Hk; reflexivity.
Qed.

Lemma index_reified v t i :
  reify n h0 v = Some t ->
  match Py.index t i with
  | Ok x' => exists x, index v i h = (h, Ok x) /\ reify n h0 x = Some x'
  | Raise e => index v i h = (h, Raise e)
  end.
Proof.
  intros R; apply reify_cases in R.
  destruct t; try (subst v; reflexivity).
  - subst v; cbn; unfold index, reading, chars.
    rewrite !nth_error_map.
    destruct (nth_error (characters s) i) as [c|]; cbn; [|reflexivity].
    exists (HStr c); split; [reflexivity|apply reify_Str].
  - destruct R as (r & items & -> & Ho & Hl).
    cbn; unfold index, reading, object; rewrite (K _ _ Ho).
    pose proof (nth_error_reified _ _ _ i Hl) as Hi.
    destruct (nth_error l i) as [x'|].
    + destruct Hi as (x & -> & Hx); eauto.
    + rewrite Hi; reflexivity.
  - destruct R as (r & kvs & -> & Ho & _).
    cbn; unfold index, reading, object; rewrite (K _ _ Ho); reflexivity.
Qed.

Lemma iter_reified v t :
  reify n h0 v = Some t ->
  match Py.iter t with
  | Ok l' =>
      exists l, iter v h = (h, Ok l)
                /\ Forall2 (fun x x' => reify n h0 x = Some x') l l'
  | Raise e => iter v h = (h, Raise e)
  end.
Proof.
  intros R; apply reify_cases in R.
  destruct t; try (subst v; reflexivity).
  - subst v; cbn; unfold iter, reading, chars.
    eexists; split; [reflexivity|].
    induction (characters s) as [|c cs IH]; cbn; constructor.
    + apply reify_Str.
    + exact IH.
  - destruct R as (r & items & -> & Ho & Hl).
    cbn; unfold iter, reading, object; rewrite (K _ _ Ho); eauto.
  - destruct R as (r & kvs & -> & Ho & Hd).
    cbn; unfold iter, reading, object; rewrite (K _ _ Ho).
    eexists; split; [reflexivity|]; clear Ho.
    induction Hd as [|kv kv' kvs d [Hk _] _ IH]; cbn; constructor.
    + rewrite Hk; apply reify_Str.
    + exact IH.
Qed.

End Reading.

(** *** The extractor on the store and on values *)

Section Simulation.

(** [h0] is the store when the call starts; the document and all its parts
    are read in [h0]. *)
Variables (n : nat) (h0 : heap).


(** The MultiPolygon loop, with [coords] the newest object of the store. *)
Lemma polygons_loop_reified h polys polys' :
  keeps h0 h ->
  Forall2 (stands n h0) polys polys' ->
  forall acc acc',
    Forall2 (stands n h0) acc acc' ->
    exists items,
      match for_each (fun coords poly =>
                        ring <- Py.index poly 0 ;; Ok (coords ++ [ring]))
                     polys' acc' with
      | Ok coords' =>
          for_in polys
                 (fun poly => hbind (index poly 0)
                                    (fun ring => append (HRef (List.length h)) ring))
                 (h ++ [HList acc])
          = (h ++ [HList items], Ok tt)
          /\ Forall2 (stands n h0) items coords'
      | Raise e =>
          for_in polys
                 (fun poly => hbind (index poly 0)
                                    (fun ring => append (HRef (List.length h)) ring))
                 (h ++ [HList acc])
          = (h ++ [HList items], Raise e)
      end.
Proof.
  intros K Hp; induction Hp as [|poly poly' polys polys' Hpoly _ IH];
    intros acc acc' Hacc; cbn [for_each for_in].
  - exists acc; split; [reflexivity|exact Hacc].
  - pose proof (index_reified n h0 (h ++ [HList acc]) (keeps_app _ _ _ K)
                              poly poly' 0%nat Hpoly) as Hi.
    destruct (Py.index poly' 0) as [ring'|e]; cbn [rbind].
    + destruct Hi as (ring & Hi & Hring).
      assert (Hbody : hbind (index poly 0)
                            (fun ring => append (HRef (List.length h)) ring)
                            (h ++ [HList acc])
                      = (h ++ [HList (acc ++ [ring])], Ok tt)).
      { rewrite (hbind_ok _ _ _ _ _ Hi); apply add_items_here. }
      rewrite (hbind_ok _ _ _ _ _ Hbody).
      apply IH, Forall2_app; [exact Hacc|constructor; [exact Hring|constructor]].
    + exists acc.
      apply hbind_raise, hbind_raise; exact Hi.
Qed.

(** [extract_coords] adds one object to the store, its list [coords], and
    changes nothing else; what it returns stands for what the function on
    values returns. *)
Lemma extract_coords_reified h geometry t :
  keeps h0 h ->
  reify n h0 geometry = Some t ->
  exists items,
    match GeometryExtractor.extract_coords t with
    | Ok coords' =>
        extract_coords geometry h
        = (h ++ [HList items], Ok (HRef (List.length h)))
        /\ Forall2 (stands n h0) items coords'
    | Raise e => extract_coords geometry h = (h ++ [HList items], Raise e)
    end.
Proof.
  intros K R.
  assert (K1 : keeps h0 (h ++ [HList []])) by (apply keeps_app; exact K).
  unfold extract_coords, GeometryExtractor.extract_coords.
  rewrite (hbind_ok _ _ h (h ++ [HList []]) (HRef (List.length h)) eq_refl).
  pose proof (get_reified n h0 _ K1 geometry t "type" R) as Hty.
  destruct (Py.get t "type") as [ty'|e]; cbn [rbind];
    [|exists []; apply hbind_raise; exact Hty].
  destruct Hty as (ty & Hty & Rty).
  rewrite (hbind_ok _ _ _ _ _ Hty).
  pose proof (get_reified n h0 _ K1 geometry t "coordinates" R) as Hgc.
  destruct (Py.get t "coordinates") as [gc'|e]; cbn [rbind];
    [|exists []; apply hbind_raise; exact Hgc].
  destruct Hgc as (gc & Hgc & Rgc).
  rewrite (hbind_ok _ _ _ _ _ Hgc).
  rewrite !(eq_str_reified n h0 ty ty' _ Rty).
  destruct (Py.eq_str ty' "Point").
  { exists []; split; [reflexivity|constructor]. }
  destruct (Py.eq_str ty' "LineString").
  { exists [gc]; split; [|constructor; [exact Rgc|constructor]].
    unfold append.
    rewrite (hbind_ok _ _ _ _ _ (add_items_here h [] [] [gc])); reflexivity. }
  destruct (Py.eq_str ty' "MultiLineString").
  { pose proof (iter_reified n h0 _ K1 gc gc' Rgc) as Hit.
    destruct (Py.iter gc') as [l'|e]; cbn [rbind].
    - destruct Hit as (l & Hit & Hl).
      exists l; split; [|exact Hl].
      assert (Hext : extend (HRef (List.length h)) gc (h ++ [HList []])
                     = (h ++ [HList l], Ok tt)).
      { unfold extend; rewrite (hbind_ok _ _ _ _ _ Hit); apply add_items_here. }
      rewrite (hbind_ok _ _ _ _ _ Hext); reflexivity.
    - exists []; unfold extend.
      apply hbind_raise, hbind_raise; exact Hit. }
  destruct (Py.eq_str ty' "Polygon").
  { pose proof (index_reified n h0 _ K1 gc gc' 0%nat Rgc) as Hi.
    destruct (Py.index gc' 0) as [ring'|e]; cbn [rbind].
    - destruct Hi as (ring & Hi & Hring).
      exists [ring]; split; [|constructor; [exact Hring|constructor]].
      rewrite (hbind_ok _ _ _ _ _ Hi).
      unfold append.
      rewrite (hbind_ok _ _ _ _ _ (add_items_here h [] [] [ring])); reflexivity.
    - exists []; apply hbind_raise; exact Hi. }
  destruct (Py.eq_str ty' "MultiPolygon").
  { pose proof (iter_reified n h0 _ K1 gc gc' Rgc) as Hit.
    destruct (Py.iter gc') as [polys'|e]; cbn [rbind].
    - destruct Hit as (polys & Hit & Hpolys).
      rewrite (hbind_ok _ _ _ _ _ Hit).
      destruct (polygons_loop_reified h polys polys' K Hpolys [] []
                  (Forall2_nil _)) as [items Hloop].
      exists items.
      destruct (for_each _ polys' []) as [coords'|e].
      + destruct Hloop as [Hloop Hitems]; split; [|exact Hitems].
        rewrite (hbind_ok _ _ _ _ _ Hloop); reflexivity.
      + apply hbind_raise; exact Hloop.
    - exists []; apply hbind_raise; exact Hit. }
  exists []; split; [reflexivity|constructor].
Qed.

(** [all_lines.extend(extract_coords(geometry))], with [all_lines] the first
    object the call has created. *)
Lemma extend_with_coords_reified geometry t acc acc' rest :
  reify n h0 geometry = Some t ->
  Forall2 (stands n h0) acc acc' ->
  exists items rest',
    match GeometryExtractor.extract_coords t with
    | Ok coords' =>
        extend_with_coords (HRef (List.length h0)) geometry
                           (h0 ++ HList acc :: rest)
        = (h0 ++ HList items :: rest', Ok tt)
        /\ Forall2 (stands n h0) items (acc' ++ coords')
    | Raise e =>
        extend_with_coords (HRef (List.length h0)) geometry
                           (h0 ++ HList acc :: rest)
        = (h0 ++ HList items :: rest', Raise e)
    end.
Proof.
  intros R Hacc.
  assert (K : keeps h0 (h0 ++ HList acc :: rest)) by apply keeps_app, keeps_refl.
  destruct (extract_coords_reified _ geometry t K R) as [its H].
  unfold extend_with_coords.
  destruct (GeometryExtractor.extract_coords t) as [coords'|e].
  - destruct H as [H Hits].
    exists (acc ++ its), (rest ++ [HList its]); split;
      [|apply Forall2_app; assumption].
    rewrite (hbind_ok _ _ _ _ _ H); unfold extend.
    assert (Hiter : iter (HRef (List.length (h0 ++ HList acc :: rest)))
                         ((h0 ++ HList acc :: rest) ++ [HList its])
                    = ((h0 ++ HList acc :: rest) ++ [HList its], Ok its)).
    { unfold iter, reading, object; rewrite nth_error_here; reflexivity. }
    rewrite (hbind_ok _ _ _ _ _ Hiter).
    rewrite <- app_assoc; cbn [app].
    apply add_items_here.
  - exists acc, (rest ++ [HList its]).
    rewrite (hbind_raise _ _ _ _ _ H), <- app_assoc; reflexivity.
Qed.

(** The body of the loop over the features. *)
Lemma extract_feature_reified feature feature' acc acc' rest :
  reify n h0 feature = Some feature' ->
  Forall2 (stands n h0) acc acc' ->
  exists items rest',
    match GeometryExtractor.extract_feature acc' feature' with
    | Ok lines =>
        extract_feature (HRef (List.length h0)) feature (h0 ++ HList acc :: rest)
        = (h0 ++ HList items :: rest', Ok tt)
        /\ Forall2 (stands n h0) items lines
    | Raise e =>
        extract_feature (HRef (List.length h0)) feature (h0 ++ HList acc :: rest)
        = (h0 ++ HList items :: rest', Raise e)
    end.
Proof.
  intros R Hacc.
  assert (K : keeps h0 (h0 ++ HList acc :: rest)) by apply keeps_app, keeps_refl.
  unfold extract_feature, GeometryExtractor.extract_feature.
  pose proof (get_reified n h0 _ K feature feature' "geometry" R) as Hg.
  destruct (Py.get feature' "geometry") as [g'|e]; cbn [rbind];
    [|exists acc, rest; apply hbind_raise; exact Hg].
  destruct Hg as (g & Hg & Rg).
  rewrite (hbind_ok _ _ _ _ _ Hg),
          (hbind_ok _ _ _ _ _ (truthy_reified n h0 _ K g g' Rg)).
  destruct (Py.truthy g').
  - destruct (extend_with_coords_reified g g' acc acc' rest Rg Hacc)
      as (items & rest' & H).
    exists items, rest'.
    destruct (GeometryExtractor.extract_coords g'); exact H.
  - exists acc, rest; split; [reflexivity|assumption].
Qed.

Lemma features_loop_reified features features' :
  Forall2 (stands n h0) features features' ->
  forall acc acc' rest,
    Forall2 (stands n h0) acc acc' ->
    exists items rest',
      match for_each GeometryExtractor.extract_feature features' acc' with
      | Ok lines =>
          for_in features (extract_feature (HRef (List.length h0)))
                 (h0 ++ HList acc :: rest)
          = (h0 ++ HList items :: rest', Ok tt)
          /\ Forall2 (stands n h0) items lines
      | Raise e =>
          for_in features (extract_feature (HRef (List.length h0)))
                 (h0 ++ HList acc :: rest)
          = (h0 ++ HList items :: rest', Raise e)
      end.
Proof.
  induction 1 as [|f f' fs fs' Hf _ IH]; intros acc acc' rest Hacc;
    cbn [for_each for_in].
  - exists acc, rest; split; [reflexivity|assumption].
  - destruct (extract_feature_reified f f' acc acc' rest Hf Hacc)
      as (items & rest' & H).
    destruct (GeometryExtractor.extract_feature acc' f') as [lines|e].
    + destruct H as [H Hitems].
      rewrite (hbind_ok _ _ _ _ _ H); apply IH; assumption.
    + exists items, rest'; apply hbind_raise; exact H.
Qed.

(** The whole call: the store it leaves is the store it found followed by
    the lists it has created, [all_lines] first; it raises what the function
    on values raises, or returns [all_lines], whose items stand for the
    lines the function on values returns. *)
Lemma extract_geojson_lines_reified doc t :
  reify n h0 doc = Some t ->
  exists items rest,
    match GeometryExtractor.extract_geojson_lines t with
    | Ok lines =>
        extract_geojson_lines doc h0
        = (h0 ++ HList items :: rest, Ok (HRef (List.length h0)))
        /\ Forall2 (stands n h0) items lines
    | Raise e =>
        extract_geojson_lines doc h0 = (h0 ++ HList items :: rest, Raise e)
    end.
Proof.
  intros R.
  assert (K1 : keeps h0 (h0 ++ [HList []])) by apply keeps_app, keeps_refl.
  unfold extract_geojson_lines, GeometryExtractor.extract_geojson_lines.
  rewrite (hbind_ok _ _ h0 (h0 ++ [HList []]) (HRef (List.length h0)) eq_refl).
  pose proof (get_reified n h0 _ K1 doc t "type" R) as Hty.
  destruct (Py.get t "type") as [ty'|e]; cbn [rbind];
    [|exists [], []; apply hbind_raise; exact Hty].
  destruct Hty as (ty & Hty & Rty).
  rewrite (hbind_ok _ _ _ _ _ Hty).
  rewrite !(eq_str_reified n h0 ty ty' _ Rty).
  destruct (Py.eq_str ty' "FeatureCollection").
  - rewrite (hbind_ok _ _ (h0 ++ [HList []]) ((h0 ++ [HList []]) ++ [HList []])
               (HRef (List.length (h0 ++ [HList []]))) eq_refl).
    assert (K2 : keeps h0 ((h0 ++ [HList []]) ++ [HList []]))
      by (apply keeps_app; exact K1).
    pose proof (get_default_reified n h0 _ K2 doc t "features"
                  (HRef (List.length (h0 ++ [HList []]))) (PList []) R) as Hf.
    destruct (Py.get_default t "features" (PList [])) as [fs'|e]; cbn [rbind].
    2:{ exists [], [HList []].
        rewrite (hbind_raise _ _ _ _ _ Hf), <- app_assoc; reflexivity. }
    destruct Hf as (fs & Hf & Hfs).
    rewrite (hbind_ok _ _ _ _ _ Hf).
    assert (Hiter : match Py.iter fs' with
                    | Ok l' =>
                        exists l,
                          iter fs ((h0 ++ [HList []]) ++ [HList []])
                          = ((h0 ++ [HList []]) ++ [HList []], Ok l)
                          /\ Forall2 (stands n h0) l l'
                    | Raise e =>
                        iter fs ((h0 ++ [HList []]) ++ [HList []])
                        = ((h0 ++ [HList []]) ++ [HList []], Raise e)
                    end).
    { destruct Hfs as [Rfs|[-> ->]].
      - apply (iter_reified n h0 _ K2 fs fs' Rfs).
      - exists []; split; [|constructor].
        unfold iter, reading, object; rewrite nth_error_here; reflexivity. }
    destruct (Py.iter fs') as [l'|e]; cbn [rbind].
    2:{ exists [], [HList []].
        rewrite (hbind_raise _ _ _ _ _ Hiter), <- app_assoc; reflexivity. }
    destruct Hiter as (l & Hiter & Hl).
    rewrite (hbind_ok _ _ _ _ _ Hiter), <- app_assoc; cbn [app].
    destruct (features_loop_reified l l' Hl [] [] [HList []] (Forall2_nil _))
      as (items & rest' & H).
    exists items, rest'.
    destruct (for_each GeometryExtractor.extract_feature l' []) as [lines|e].
    + destruct H as [H Hitems]; rewrite (hbind_ok _ _ _ _ _ H).
      split; [reflexivity|assumption].
    + apply hbind_raise; exact H.
  - rewrite (hbind_ok _ _ _ _ _ Hty).
    rewrite !(eq_str_reified n h0 ty ty' _ Rty).
    destruct (Py.eq_str ty' "Feature").
    + pose proof (get_reified n h0 _ K1 doc t "geometry" R) as Hg.
      destruct (Py.get t "geometry") as [g'|e]; cbn [rbind];
        [|exists [], []; apply hbind_raise; exact Hg].
      destruct Hg as (g & Hg & Rg).
      rewrite (hbind_ok _ _ _ _ _ Hg),
              (hbind_ok _ _ _ _ _ (truthy_reified n h0 _ K1 g g' Rg)).
      destruct (Py.truthy g').
      * destruct (extend_with_coords_reified g g' [] [] [] Rg (Forall2_nil _))
          as (items & rest' & H).
        exists items, rest'.
        destruct (GeometryExtractor.extract_coords g') as [coords'|e]; cbn [rbind].
        -- destruct H as [H Hitems]; rewrite (hbind_ok _ _ _ _ _ H).
           split; [reflexivity|assumption].
        -- apply hbind_raise; exact H.
      * exists [], []; split; [reflexivity|constructor].
    + pose proof (contains_reified n h0 _ K1 doc t "coordinates" R) as Hc.
      destruct (Py.contains t "coordinates") as [has_coordinates|e] eqn:Ec;
        cbn [rbind]; [|exists [], []; apply hbind_raise; exact Hc].
      rewrite (hbind_ok _ _ _ _ _ Hc).
      assert (Hhas : exists has_type,
                 (if has_coordinates then Py.contains t "type" else Ok false)
                 = Ok has_type
                 /\ (if has_coordinates then contains doc "type" else hret false)
                      (h0 ++ [HList []])
                    = (h0 ++ [HList []], Ok has_type)).
      { destruct has_coordinates; [|exists false; split; reflexivity].
        pose proof (contains_reified n h0 _ K1 doc t "type" R) as Hc'.
        destruct t; try discriminate Ec; cbn in Hc' |- *; eauto. }
      destruct Hhas as (has_type & -> & Hhas); cbn [rbind].
      rewrite (hbind_ok _ _ _ _ _ Hhas).
      destruct has_type.
      * destruct (extend_with_coords_reified doc t [] [] [] R (Forall2_nil _))
          as (items & rest' & H).
        exists items, rest'.
        destruct (GeometryExtractor.extract_coords t) as [coords'|e]; cbn [rbind].
        -- destruct H as [H Hitems]; rewrite (hbind_ok _ _ _ _ _ H).
           split; [reflexivity|assumption].
        -- apply hbind_raise; exact H.
      * exists [], []; split; [reflexivity|constructor].
Qed.

End Simulation.

(** The call on the sample store creates four lists: [all_lines], the
    default of [get('features', [])], and one [coords] per feature.  The
    sequences in [all_lines] are the document's own list objects (1 and 4),
    not copies of them. *)
Example sample_store_after_one_call :
  extract_geojson_lines (HRef 9) sample_store
  = (sample_store
       ++ [HList [HRef 1; HRef 4]; HList []; HList [HRef 1]; HList [HRef 4]],
     Ok (HRef 10)).
Proof. vm_compute; reflexivity. Qed.

End StoreFacts.

Module GeometryClaims.

Import GeometryExtractor GeometryFacts StoreFacts.

(** C3.  [extract_coords] dispatches on the geometry type.  For every
    geometry object: a Point contributes no coordinate sequence; a LineString
    contributes exactly its coordinates, as one sequence; a MultiLineString
    contributes each of its component sequences; a Polygon whose rings are
    [ring :: rest] contributes exactly one sequence, [ring]; a MultiPolygon
    of K polygons contributes exactly K sequences, the first ring of each, in
    order; and a type that is none of these five, or no type at all,
    contributes nothing and raises nothing. *)
Theorem extract_coords_dispatch (d : list (string * pyval)) :
  let geometry := PDict d in
  let geom_type := field d "type" in
  let geom_coords := field d "coordinates" in
  (geom_type = PStr "Point" -> extract_coords geometry = Ok [])
  /\ (geom_type = PStr "LineString" -> extract_coords geometry = Ok [geom_coords])
  /\ (forall sequences,
        geom_type = PStr "MultiLineString" -> geom_coords = PList sequences ->
        extract_coords geometry = Ok sequences)
  /\ (forall ring rest,
        geom_type = PStr "Polygon" -> geom_coords = PList (ring :: rest) ->
        extract_coords geometry = Ok [ring])
  /\ (forall polys rings,
        geom_type = PStr "MultiPolygon" -> geom_coords = PList polys ->
        Forall2 (fun poly ring => exists rest, poly = PList (ring :: rest))
                polys rings ->
        extract_coords geometry = Ok rings
        /\ List.length rings = List.length polys)
  /\ (known_geometry_type geom_type = false -> extract_coords geometry = Ok []).
Proof.
  cbv zeta. unfold extract_coords. rewrite !get_field. cbn [rbind].
  split; [|split; [|split; [|split; [|split]]]].
  - intros ->; reflexivity.
  - intros ->; reflexivity.
  - intros sequences -> ->; reflexivity.
  - intros ring rest -> ->; reflexivity.
  - intros polys rings -> -> Hrings; split.
    + apply (first_rings_loop _ _ Hrings []).
    + symmetry; eapply Forall2_length; eassumption.
  - unfold known_geometry_type.
    intros H.
    apply orb_false_elim in H as [H HMultiPolygon].
    apply orb_false_elim in H as [H HPolygon].
    apply orb_false_elim in H as [H HMultiLineString].
    apply orb_false_elim in H as [HPoint HLineString].
    rewrite HPoint, HLineString, HMultiLineString, HPolygon, HMultiPolygon.
    reflexivity.
Qed.

Lemma extract_coords_dispatch_witness :
  extract_coords
    (PDict [("type", PStr "MultiPolygon");
            ("coordinates",
             PList [PList [PList [PList [PInt 0; PInt 0]]; PList []];
                    PList [PList [PList [PInt 1; PInt 1]]]])])
  = Ok [PList [PList [PInt 0; PInt 0]]; PList [PList [PInt 1; PInt 1]]].
Proof.
  refine (proj1 (proj1 (proj2 (proj2 (proj2 (proj2
    (extract_coords_dispatch
       [("type", PStr "MultiPolygon");
        ("coordinates",
         PList [PList [PList [PList [PInt 0; PInt 0]]; PList []];
                PList [PList [PList [PInt 1; PInt 1]]]])]))))) _ _ _ _ _)).
  - reflexivity.
  - reflexivity.
  - repeat constructor; eexists; reflexivity.
Defined.

(** C9.  Extraction is repeatable and ordered.

    Repeatable, on the object store, where a second call could see what the
    first one did.  Take any store and any document in it that stands for a
    JSON value, and call [extract_geojson_lines] on it twice in a row.  Both
    calls leave every object that was in the store before them as it was, so
    the document stands for the same value throughout.  If the function on
    values raises for that value, both calls raise the same exception.
    Otherwise the two calls return two different list objects, and after the
    second call both stand for the same list of coordinate sequences, the
    one the function on values returns.

    Ordered, for every document.  The sequences of any FeatureCollection,
    whatever other members it has, are the contributions of its features,
    concatenated in feature order, and extraction succeeds exactly when
    every feature contributes; a feature contributes what [extract_coords]
    gives for its geometry, or nothing when the geometry is falsy.  A
    Feature document yields the contribution of its own geometry, and any
    other object is treated as a geometry when it has both keys and yields
    nothing otherwise. *)
Theorem extract_geojson_lines_idempotent :
  (forall n h doc t h1 r1 h2 r2,
      Store.reify n h doc = Some t ->
      Store.extract_geojson_lines doc h = (h1, r1) ->
      Store.extract_geojson_lines doc h1 = (h2, r2) ->
      Store.keeps h h1 /\ Store.keeps h1 h2
      /\ Store.reify n h1 doc = Some t /\ Store.reify n h2 doc = Some t
      /\ (forall e,
            extract_geojson_lines t = Raise e -> r1 = Raise e /\ r2 = Raise e)
      /\ (forall lines,
            extract_geojson_lines t = Ok lines ->
            exists first second,
              r1 = Ok (Store.HRef first) /\ r2 = Ok (Store.HRef second)
              /\ first <> second
              /\ Store.reify (S n) h2 (Store.HRef first) = Some (PList lines)
              /\ Store.reify (S n) h2 (Store.HRef second) = Some (PList lines)))
  /\ (forall d features lines,
        eq_str (field d "type") "FeatureCollection" = true ->
        dict_get d "features" = Some (PList features) ->
        (extract_geojson_lines (PDict d) = Ok lines
         <-> exists parts,
               Forall2 (fun feature part => extract_feature [] feature = Ok part)
                       features parts
               /\ lines = List.concat parts))
  /\ (forall fd,
        extract_feature [] (PDict fd)
        = if truthy (field fd "geometry") then extract_coords (field fd "geometry")
          else Ok [])
  /\ (forall d,
        eq_str (field d "type") "FeatureCollection" = false ->
        eq_str (field d "type") "Feature" = true ->
        extract_geojson_lines (PDict d)
        = if truthy (field d "geometry") then extract_coords (field d "geometry")
          else Ok [])
  /\ (forall d,
        eq_str (field d "type") "FeatureCollection" = false ->
        eq_str (field d "type") "Feature" = false ->
        extract_geojson_lines (PDict d)
        = match dict_get d "coordinates", dict_get d "type" with
          | Some _, Some _ => extract_coords (PDict d)
          | _, _ => Ok []
          end).
Proof.
  split; [|split; [|split; [|split]]].
  - intros n h doc t h1 r1 h2 r2 R Hrun1 Hrun2.
    destruct (extract_geojson_lines_reified n h doc t R)
      as (items1 & rest1 & H1).
    assert (Hh1 : h1 = h ++ Store.HList items1 :: rest1).
    { destruct (extract_geojson_lines t); [destruct H1 as [H1 _]|];
        rewrite H1 in Hrun1; congruence. }
    assert (K1 : Store.keeps h h1)
      by (rewrite Hh1; apply keeps_app, keeps_refl).
    pose proof (reify_keeps _ _ _ _ _ K1 R) as R1.
    destruct (extract_geojson_lines_reified n h1 doc t R1)
      as (items2 & rest2 & H2).
    assert (Hh2 : h2 = h1 ++ Store.HList items2 :: rest2).
    { destruct (extract_geojson_lines t); [destruct H2 as [H2 _]|];
        rewrite H2 in Hrun2; congruence. }
    assert (K2 : Store.keeps h1 h2)
      by (rewrite Hh2; apply keeps_app, keeps_refl).
    pose proof (reify_keeps _ _ _ _ _ K2 R1) as R2.
    split; [exact K1|split; [exact K2|split; [exact R1|split; [exact R2|]]]].
    split.
    + intros e He; rewrite He in H1, H2.
      rewrite H1 in Hrun1; rewrite H2 in Hrun2; split; congruence.
    + intros lines Hl; rewrite Hl in H1, H2.
      destruct H1 as [H1 Hitems1], H2 as [H2 Hitems2].
      rewrite H1 in Hrun1; rewrite H2 in Hrun2.
      exists (List.length h), (List.length h1).
      split; [congruence|split; [congruence|split; [|split]]].
      * rewrite Hh1, length_app; cbn [List.length]; lia.
      * apply (reify_list _ _ _ items1).
        -- apply K2; rewrite Hh1; apply nth_error_here.
        -- eapply Forall2_weaken; [|exact Hitems1].
           intros x x'; apply reify_keeps, (keeps_trans _ _ _ K1 K2).
      * apply (reify_list _ _ _ items2).
        -- rewrite Hh2; apply nth_error_here.
        -- eapply Forall2_weaken; [|exact Hitems2].
           intros x x'; apply reify_keeps, K2.
  - intros d features lines Ht Hf.
    rewrite (extract_collection d features Ht Hf).
    apply extract_features_concat.
  - intros fd; unfold extract_feature; rewrite get_field; cbn [rbind].
    destruct (truthy (field fd "geometry")); [|reflexivity].
    destruct (extract_coords (field fd "geometry")); reflexivity.
  - intros d HFC HF.
    unfold extract_geojson_lines; rewrite !get_field; cbn [rbind].
    rewrite HFC, HF.
    destruct (truthy (field d "geometry")); [|reflexivity].
    destruct (extract_coords (field d "geometry")); reflexivity.
  - intros d HFC HF.
    unfold extract_geojson_lines; rewrite !get_field; cbn [rbind].
    rewrite HFC, HF; cbn [contains].
    destruct (dict_get d "coordinates"); cbn [rbind]; [|reflexivity].
    destruct (dict_get d "type"); cbn [rbind]; [|reflexivity].
    destruct (extract_coords (PDict d)); reflexivity.
Qed.

Lemma extract_geojson_lines_idempotent_witness :
  let first_run := Store.extract_geojson_lines (Store.HRef 9) Store.sample_store in
  let second_run := Store.extract_geojson_lines (Store.HRef 9) (fst first_run) in
  let point := PList [PInt 1; PInt 2] in
  let lines := [PList [point; point]; PList [point; point; point; point]] in
  exists first second,
    snd first_run = Ok (Store.HRef first)
    /\ snd second_run = Ok (Store.HRef second)
    /\ first <> second
    /\ Store.reify 9 (fst second_run) (Store.HRef first) = Some (PList lines)
    /\ Store.reify 9 (fst second_run) (Store.HRef second) = Some (PList lines).
Proof.
  cbv zeta.
  destruct (proj1 extract_geojson_lines_idempotent
              8%nat Store.sample_store (Store.HRef 9) _ _ _ _ _
              eq_refl
              (surjective_pairing
                 (Store.extract_geojson_lines (Store.HRef 9) Store.sample_store))
              (surjective_pairing
                 (Store.extract_geojson_lines
                    (Store.HRef 9)
                    (fst (Store.extract_geojson_lines (Store.HRef 9)
                                                      Store.sample_store)))))
    as (_ & _ & _ & _ & _ & Hlines).
  exact (Hlines _ eq_refl).
Defined.

(** The ring condition speaks of documents of the GeoJSON shape.  Outside of
    it other statements raise: a MultiLineString whose coordinates are null
    has no polygon at all and cannot be iterated. *)
Remark null_coordinates_raise :
  let doc := PDict [("type", PStr "MultiLineString"); ("coordinates", PNone)] in
  document_shaped doc = false
  /\ rings_present doc = true
  /\ extract_geojson_lines doc = Raise TypeError.
Proof. repeat split; reflexivity. Qed.

(** C10.  Extraction is total exactly under ring presence.  Take any
    boundary document: a JSON object of the GeoJSON shape (the features of a
    FeatureCollection an array of objects, every geometry that is not null an
    object, the coordinates of a MultiLineString or Polygon an array, those
    of a MultiPolygon an array of arrays).  If every Polygon, and every
    polygon inside a MultiPolygon, has at least one ring,
    [extract_geojson_lines] returns a list and raises nothing.  If some
    Polygon, or polygon inside a MultiPolygon, has an empty ring list, the
    document is outside this guarantee: the first ring is indexed
    unconditionally and the call raises IndexError. *)
Theorem extract_geojson_lines_total (doc : pyval) :
  document_shaped doc = true ->
  (rings_present doc = true -> exists lines, extract_geojson_lines doc = Ok lines)
  /\ (rings_present doc = false -> extract_geojson_lines doc = Raise IndexError).
Proof.
  destruct doc as [| | | | | |d]; try discriminate.
  unfold document_shaped, rings_present, extract_geojson_lines.
  rewrite !get_field; cbn [rbind get_default contains].
  destruct (eq_str (field d "type") "FeatureCollection").
  { unfold field at 1 2.
    destruct (dict_get d "features") as [[| | | | |features|]|];
      try discriminate; cbn [rbind iter].
    - intros Hs; split; intros Hr.
      + apply extract_features_total; assumption.
      + apply extract_features_no_ring; assumption.
    - intros _; split; [cbn; eauto|discriminate]. }
  destruct (eq_str (field d "type") "Feature").
  { unfold feature_shaped.
    destruct (truthy (field d "geometry")) eqn:Ht; cbn [negb orb].
    - intros Hs; split; intros Hr.
      + destruct (extract_coords_total _ Hs Hr) as [coords ->]; cbn; eauto.
      + rewrite (extract_coords_no_ring _ Hs Hr); reflexivity.
    - intros _; split; [eauto|].
      intros Hr; rewrite (no_ring_truthy _ Hr) in Ht; discriminate. }
  intros Hs; split; intros Hr.
  - destruct (dict_get d "coordinates"); cbn [rbind]; [|eauto].
    destruct (dict_get d "type"); cbn [rbind]; [|eauto].
    destruct (extract_coords_total _ Hs Hr) as [coords ->]; cbn; eauto.
  - pose proof (extract_coords_no_ring _ Hs Hr) as Hraise.
    assert (Hkeys : exists t c, dict_get d "type" = Some t
                                /\ dict_get d "coordinates" = Some c).
    { unfold geometry_shaped, rings_present_in in Hs, Hr.
      unfold field in Hs, Hr.
      destruct (dict_get d "type") as [t|]; [|discriminate].
      destruct (dict_get d "coordinates") as [c|]; [eauto|].
      destruct (eq_str t "MultiLineString"); [discriminate|].
      destruct (eq_str t "Polygon"); [discriminate|].
      destruct (eq_str t "MultiPolygon"); discriminate. }
    destruct Hkeys as (t & c & -> & ->); cbn [rbind].
    rewrite Hraise; reflexivity.
Qed.

Lemma extract_geojson_lines_total_witness :
  (exists lines,
      extract_geojson_lines
        (PDict [("type", PStr "Feature");
                ("geometry",
                 PDict [("type", PStr "Polygon");
                        ("coordinates",
                         PList [PList [PList [PInt 0; PInt 0];
                                       PList [PInt 0; PInt 1]]])])])
      = Ok lines)
  /\ extract_geojson_lines
       (feature_collection
          [PDict [("geometry",
                   PDict [("type", PStr "MultiPolygon");
                          ("coordinates",
                           PList [PList [PList [PList [PInt 0; PInt 0]]];
                                  PList []])])]])
     = Raise IndexError.
Proof.
  split.
  - apply (proj1 (extract_geojson_lines_total
                    (PDict [("type", PStr "Feature");
                            ("geometry",
                             PDict [("type", PStr "Polygon");
                                    ("coordinates",
                                     PList [PList [PList [PInt 0; PInt 0];
                                                   PList [PInt 0; PInt 1]]])])])
                    eq_refl)); reflexivity.
  - apply (proj2 (extract_geojson_lines_total
                    (feature_collection
                       [PDict [("geometry",
                                PDict [("type", PStr "MultiPolygon");
                                       ("coordinates",
                                        PList [PList [PList [PList [PInt 0; PInt 0]]];
                                               PList []])])]])
                    eq_refl)); reflexivity.
Defined.

End GeometryClaims.

(** ** Catalog client *)

Module CatalogFacts.

Import CatalogClient.

(** Peel one statement off a [result] computation known to succeed. *)
Ltac peel H :=
  match type of H with
  | rbind ?x _ = Ok _ =>
      let E := fresh "E" in
      destruct x eqn:E; cbn [rbind] in H; [|discriminate H]
  | (if ?b then _ else _) = Ok _ =>
      let E := fresh "E" in destruct b eqn:E
  end.

(** One turn of the loop either leaves the list alone or appends one record
    taken from the feature, complete and deep enough. *)
Lemma parse_feature_inv w earthquake_list feature earthquake_list' :
  parse_feature w earthquake_list feature = Ok earthquake_list' ->
  earthquake_list' = earthquake_list
  \/ exists e, earthquake_list' = earthquake_list ++ [e]
               /\ accepted_from feature e /\ complete_and_deep e.
Proof.
  unfold parse_feature; intros H.
  destruct (get feature "properties") as [properties|] eqn:Ep;
    cbn [rbind] in H; [|discriminate].
  destruct (get feature "geometry") as [geometry|] eqn:Eg;
    cbn [rbind] in H; [|discriminate].
  peel H. peel H; [|injection H as <-; now left].
  destruct (item geometry "coordinates") as [coordinates|] eqn:Ec;
    cbn [rbind] in H; [|discriminate].
  destruct (index coordinates 0) as [lon|]; cbn [rbind] in H; [|discriminate].
  destruct (index coordinates 1) as [lat|]; cbn [rbind] in H; [|discriminate].
  destruct (index coordinates 2) as [dep|] eqn:Ed;
    cbn [rbind] in H; [|discriminate].
  destruct (get properties "mag") as [mag|] eqn:Em;
    cbn [rbind] in H; [|discriminate].
  destruct (get properties "time") as [time_ms|];
    cbn [rbind] in H; [|discriminate].
  destruct (get properties "place") as [place|];
    cbn [rbind] in H; [|discriminate].
  destruct (event_time_text w time_ms) as [event_time|];
    cbn [rbind] in H; [|discriminate].
  destruct (forallb is_number [lat; lon; dep] && negb (is_None dep)
            && negb (is_None mag)) eqn:Hchecks;
    [|injection H as <-; now left].
  destruct (ge_int dep MIN_DEPTH_KM) as [[|]|] eqn:Hdeep;
    cbn [rbind] in H; try discriminate; injection H as <-; [right|now left].
  apply andb_prop in Hchecks as [Hchecks Hmag].
  apply andb_prop in Hchecks as [Hnum Hdepth].
  cbn [forallb] in Hnum.
  apply andb_prop in Hnum as [_ Hnum]; apply andb_prop in Hnum as [_ Hnum].
  apply andb_prop in Hnum as [Hnum _].
  eexists; split; [reflexivity|]; split.
  - exists properties, geometry, coordinates; cbn [depth magnitude]; auto.
  - repeat split; cbn [depth magnitude]; auto.
    + intros ->; discriminate.
    + intros ->; discriminate.
Qed.

Lemma parse_loop_inv w (P : event -> Prop) items :
  forall earthquake_list events,
    for_each (parse_feature w) items earthquake_list = Ok events ->
    Forall P earthquake_list ->
    (forall feature e,
        In feature items -> accepted_from feature e -> complete_and_deep e -> P e) ->
    Forall P events.
Proof.
  induction items as [|f items IH]; cbn [for_each]; intros acc events H Hacc HP.
  - injection H as <-; assumption.
  - destruct (parse_feature w acc f) as [acc'|] eqn:Ef; [|discriminate].
    apply (IH acc' events H).
    + destruct (parse_feature_inv _ _ _ _ Ef) as [->|(e & -> & Hfrom & Hdeep)].
      * assumption.
      * apply Forall_app; split; [assumption|].
        constructor; [|constructor].
        apply (HP f e); [now left|assumption|assumption].
    + intros feature e Hin; apply HP; now right.
Qed.

(** What the function returns is either what the parse returned or the
    empty list of the handler. *)
Lemma get_usgs_returns w days_ago mm la lA lo lO m m' events :
  get_usgs_earthquake_data w days_ago mm la lA lo lO m = (m', Ok events) ->
  events = []
  \/ exists response data,
       raise_for_status response = Ok tt
       /\ body_json response = Ok data
       /\ parse_catalog w data = Ok events.
Proof.
  unfold get_usgs_earthquake_data, bind, lift, try_except, print, emit, ret.
  destruct (query_window w days_ago) as [window|]; [|discriminate].
  match goal with
  | |- context [fetch_and_parse w ?q] => generalize q; intros params
  end.
  unfold fetch_and_parse.
  destruct (requests_get w api_url params) as [response|e]; cbn [rbind].
  - destruct (raise_for_status response) as [[]|e] eqn:Es; cbn [rbind].
    + destruct (body_json response) as [data|e] eqn:Ej; cbn [rbind].
      * destruct (parse_catalog w data) as [l|e] eqn:El.
        -- intros [= _ <-]; right; eauto.
        -- destruct (is_RequestException e); [intros [= _ <-]; now left|discriminate].
      * destruct (is_RequestException e); [intros [= _ <-]; now left|discriminate].
    + destruct (is_RequestException e); [intros [= _ <-]; now left|discriminate].
  - destruct (is_RequestException e); [intros [= _ <-]; now left|discriminate].
Qed.

End CatalogFacts.

Module CatalogClaims.

Import CatalogClient CatalogFacts.

(** C1.  For every catalog response, every record of the accepted list was
    taken from a feature of the response that has a depth (a third
    coordinate) and a magnitude, neither of them None, and its depth is a
    number with [depth >= MIN_DEPTH_KM]; this holds of every list
    [get_usgs_earthquake_data] returns.  For an int depth the comparison is
    the order of the integers. *)
Theorem accepted_events_complete_and_deep (w : world) :
  (forall data events,
      parse_catalog w data = Ok events ->
      exists items,
        features_of data = Ok items
        /\ Forall (fun e => complete_and_deep e
                            /\ exists feature,
                                 In feature items /\ accepted_from feature e)
                  events)
  /\ (forall days_ago mm la lA lo lO m m' events,
        get_usgs_earthquake_data w days_ago mm la lA lo lO m = (m', Ok events) ->
        Forall complete_and_deep events)
  /\ (forall e z,
        complete_and_deep e -> depth e = PInt z -> MIN_DEPTH_KM <= z).
Proof.
  assert (Hparse : forall data events,
      parse_catalog w data = Ok events ->
      exists items,
        features_of data = Ok items
        /\ Forall (fun e => complete_and_deep e
                            /\ exists feature,
                                 In feature items /\ accepted_from feature e)
                  events).
  { intros data events; unfold parse_catalog, features_of.
    destruct (get_default data "features" (PList [])) as [features|];
      cbn [rbind]; [|discriminate].
    destruct (iter features) as [items|]; cbn [rbind]; [|discriminate].
    intros H; exists items; split; [reflexivity|].
    eapply parse_loop_inv; [exact H|constructor|].
    intros feature e Hin Hfrom Hdeep; eauto. }
  split; [exact Hparse|split].
  - intros days_ago mm la lA lo lO m m' events H.
    destruct (get_usgs_returns _ _ _ _ _ _ _ _ _ _ H)
      as [->|(response & data & _ & _ & Hp)]; [constructor|].
    destruct (Hparse _ _ Hp) as (items & _ & Hall).
    eapply Forall_impl; [|exact Hall]; cbn; tauto.
  - intros e z (_ & _ & _ & Hge) Hz; rewrite Hz in Hge; cbn in Hge.
    injection Hge as Hge; apply Z.leb_le; exact Hge.
Qed.

Lemma accepted_events_complete_and_deep_witness :
  exists events,
    parse_catalog
      (fixed_world new_year_2024 (ok_response three_records) (Raise FileNotFoundError))
      three_records = Ok events
    /\ List.length events = 2%nat
    /\ Forall complete_and_deep events.
Proof.
  eexists; split; [vm_compute; reflexivity|split; [reflexivity|]].
  destruct (proj1 (accepted_events_complete_and_deep
                     (fixed_world new_year_2024 (ok_response three_records)
                                  (Raise FileNotFoundError)))
                  three_records _ eq_refl) as (items & _ & Hall).
  eapply Forall_impl; [|exact Hall]; cbn; tauto.
Defined.

(** A record whose coordinates stop after longitude and latitude is not
    skipped: [geometry['coordinates'][2]] raises IndexError before any check,
    the features after it are never looked at, and no clause of the [try]
    catches the exception, so the whole call raises. *)
Lemma missing_depth_aborts_parse :
  (forall w lon lat mag rest,
      parse_catalog w (catalog_document (catalog_feature [lon; lat] mag :: rest))
      = Raise IndexError)
  /\ (forall lon lat mag rest file m,
        snd (get_usgs_earthquake_data
               (fixed_world new_year_2024
                  (ok_response
                     (catalog_document (catalog_feature [lon; lat] mag :: rest)))
                  file)
               DAYS_AGO MIN_MAGNITUDE MIN_LAT MAX_LAT MIN_LON MAX_LON m)
        = Raise IndexError).
Proof.
  split; reflexivity.
Qed.

(** C2, as stated, fails: the parse step raises on a feature without a depth
    coordinate, on a feature that is not an object, and on a time stamp that
    is not a number; none of these is a [RequestException], so the call
    raises too. *)
Lemma malformed_record_raises :
  let w := fixed_world new_year_2024 (Raise ConnectionError)
                       (Raise FileNotFoundError) in
  parse_catalog w
    (catalog_document
       [catalog_feature [PFloat 142.37%float; PFloat 38.32%float] (PFloat 5.1%float);
        catalog_feature [PInt 140; PInt 36; PInt 60] (PFloat 4.0%float)])
  = Raise IndexError
  /\ parse_catalog w (catalog_document [PInt 5]) = Raise AttributeError
  /\ parse_catalog w
       (catalog_document
          [PDict [("properties", PDict [("mag", PFloat 4.0%float);
                                        ("time", PStr "2024-01-01")]);
                  ("geometry",
                   PDict [("coordinates", PList [PInt 140; PInt 36; PInt 60])])]])
     = Raise TypeError
  /\ snd (get_usgs_earthquake_data
            (fixed_world new_year_2024
               (ok_response
                  (catalog_document
                     [catalog_feature [PFloat 142.37%float; PFloat 38.32%float]
                                      (PFloat 5.1%float)]))
               (Raise FileNotFoundError))
            DAYS_AGO MIN_MAGNITUDE MIN_LAT MAX_LAT MIN_LON MAX_LON start)
     = Raise IndexError.
Proof. repeat split; vm_compute; reflexivity. Qed.

(** C2, amended.  A feature that is an object is skipped silently, the
    accepted list left as it was and parsing going on with the remaining
    features, in each of these cases: its properties are missing, null or
    otherwise falsy; its geometry is missing, null or otherwise falsy; its
    geometry is an object whose coordinates are missing, null or otherwise
    falsy; or its properties are a non-empty object, its geometry is an
    object whose coordinates are an array of at least three items, its time
    stamp is falsy or a number the host converts, and one of the first three
    coordinates is not a number or the magnitude is missing or null. *)
Theorem malformed_record_skipped (w : world) (fd : list (string * pyval)) :
  skipped_record w fd ->
  (forall earthquake_list,
      parse_feature w earthquake_list (PDict fd) = Ok earthquake_list)
  /\ (forall before after,
        for_each (parse_feature w) (before ++ PDict fd :: after) []
        = for_each (parse_feature w) (before ++ after) []).
Proof.
  intros Hskip.
  assert (Hone : forall earthquake_list,
             parse_feature w earthquake_list (PDict fd) = Ok earthquake_list).
  { intros earthquake_list.
    unfold parse_feature; rewrite !get_field; cbn [rbind].
    destruct Hskip as [H|[H|[(gd & Hg & H)|Hvals]]].
    - rewrite H; reflexivity.
    - rewrite H; destruct (truthy (field fd "properties")); reflexivity.
    - rewrite Hg, get_field; cbn [rbind]; rewrite H.
      destruct (truthy (field fd "properties"));
        destruct (truthy (PDict gd)); reflexivity.
    - destruct Hvals
        as (pd & gd & lon & lat & dep & more & event_time
            & Hp & Hpd & Hg & Hc & Ht & Hbad).
      rewrite Hp, Hg, !get_field, Hc; cbn [rbind].
      destruct pd as [|kv pd]; [congruence|].
      destruct gd as [|kv' gd]; [discriminate|].
      cbn [truthy rbind]; unfold item.
      rewrite (field_list_found _ _ _ Hc); cbn [rbind index nth_error].
      rewrite Ht; cbn [rbind].
      destruct Hbad as [H|H]; rewrite H.
      + reflexivity.
      + cbn [is_None negb]; rewrite !andb_false_r; reflexivity. }
  split; [exact Hone|].
  intros before after; rewrite !for_each_app.
  destruct (for_each (parse_feature w) before []) as [earthquake_list|e];
    cbn [rbind for_each]; [|reflexivity].
  rewrite Hone; reflexivity.
Qed.

Lemma malformed_record_skipped_witness :
  for_each
    (parse_feature (fixed_world new_year_2024 (Raise ConnectionError)
                                (Raise FileNotFoundError)))
    ([catalog_feature [PInt 140; PInt 36; PInt 60] (PFloat 4.0%float)]
     ++ PDict [("properties", PDict [("mag", PFloat 5.0%float)]);
               ("geometry",
                PDict [("coordinates", PList [PInt 141; PStr "37"; PInt 50])])]
        :: [catalog_feature [PInt 142; PInt 38; PInt 70] (PFloat 3.0%float)])
    []
  = for_each
      (parse_feature (fixed_world new_year_2024 (Raise ConnectionError)
                                  (Raise FileNotFoundError)))
      ([catalog_feature [PInt 140; PInt 36; PInt 60] (PFloat 4.0%float)]
       ++ [catalog_feature [PInt 142; PInt 38; PInt 70] (PFloat 3.0%float)])
      [].
Proof.
  apply (malformed_record_skipped
           (fixed_world new_year_2024 (Raise ConnectionError)
                        (Raise FileNotFoundError))).
  right; right; right.
  exists [("mag", PFloat 5.0%float)],
         [("coordinates", PList [PInt 141; PStr "37"; PInt 50])],
         (PInt 141), (PStr "37"), (PInt 50), [], "不明".
  repeat split; try reflexivity.
  - discriminate.
  - left; reflexivity.
Defined.

(** C8.  The query window is exact.  Whenever the window is computed, its end
    is the clock reading of the run and its start lies exactly [days_ago]
    days before, to the microsecond, and so do the two instants the request
    names to the second.  With the configured look-back of 1000 days the
    window is computed for every clock reading at least that far into the
    calendar, and its start precedes its end. *)
Theorem query_window_exact (w : world) :
  (forall days_ago start_time end_time,
      query_window w days_ago = Ok (start_time, end_time) ->
      end_time = now w
      /\ end_time - start_time = days_ago * Clock.US_PER_DAY
      /\ Clock.strftime_seconds end_time - Clock.strftime_seconds start_time
         = days_ago * 86400)
  /\ (Clock.in_range (now w) = true ->
      DAYS_AGO * Clock.US_PER_DAY <= now w ->
      exists start_time,
        query_window w DAYS_AGO = Ok (start_time, now w)
        /\ start_time < now w
        /\ now w - start_time = DAYS_AGO * Clock.US_PER_DAY).
Proof.
  split.
  - intros days_ago start_time end_time; unfold query_window.
    unfold Clock.timedelta_days, Clock.sub.
    destruct (Z.abs days_ago <=? 999999999); cbn [rbind]; [|discriminate].
    destruct (Clock.in_range _); cbn [rbind]; [|discriminate].
    intros [= <- <-].
    unfold Clock.strftime_seconds, Clock.US_PER_DAY, Clock.US_PER_SECOND.
    repeat split; [lia|].
    replace (now w - days_ago * (86400 * 1000000))
      with (now w + (- days_ago * 86400) * 1000000) by lia.
    rewrite Z.div_add by lia; lia.
  - unfold query_window, Clock.timedelta_days, Clock.sub, Clock.in_range.
    unfold DAYS_AGO, Clock.US_PER_DAY, Clock.US_PER_SECOND, Clock.MAXORDINAL.
    intros Hr Hlate; cbn [Z.abs Z.leb Z.compare Pos.compare Pos.compare_cont rbind].
    apply andb_prop in Hr as [H0 H1].
    apply Z.leb_le in H0; apply Z.ltb_lt in H1.
    match goal with
    | |- context [if ?b then _ else _] => replace b with true
    end.
    + eexists; split; [reflexivity|]. lia.
    + symmetry; apply andb_true_intro; split;
        [apply Z.leb_le|apply Z.ltb_lt]; lia.
Qed.

Lemma query_window_exact_witness :
  exists start_time,
    query_window
      (fixed_world new_year_2024 (Raise ConnectionError) (Raise FileNotFoundError))
      DAYS_AGO
    = Ok (start_time, new_year_2024)
    /\ start_time < new_year_2024
    /\ new_year_2024 - start_time = DAYS_AGO * Clock.US_PER_DAY.
Proof.
  apply (proj2 (query_window_exact
                  (fixed_world new_year_2024 (Raise ConnectionError)
                               (Raise FileNotFoundError)))).
  - reflexivity.
  - vm_compute; discriminate.
Defined.

End CatalogClaims.

(** ** Scene composer *)

Module SceneFacts.

Import GeometryExtractor CatalogClient SceneComposer.

Lemma machine_eta (m : machine) :
  {| effects := effects m; data_to_plot := data_to_plot m |} = m.
Proof. destruct m; reflexivity. Qed.

(** The first loop copies the magnitudes in order. *)
Lemma collect_magnitudes events :
  forall c0 c,
    for_each collect events c0 = Ok c ->
    magnitudes c = magnitudes c0 ++ map magnitude events.
Proof.
  induction events as [|eq events IH]; cbn [for_each map]; intros c0 c.
  - intros [= <-]; now rewrite app_nil_r.
  - unfold collect at 1.
    destruct (neg (depth eq)) as [below|]; cbn [rbind]; [|discriminate].
    intros H; rewrite (IH _ _ H); cbn [magnitudes].
    now rewrite <- app_assoc.
Qed.

(** It runs to its end on records whose depth is a number, as every
    accepted record's is. *)
Lemma collect_total events :
  Forall (fun eq => is_number (depth eq) = true) events ->
  forall c0, exists c, for_each collect events c0 = Ok c.
Proof.
  induction 1 as [|eq events Hn _ IH]; intros c0; cbn [for_each].
  - eauto.
  - unfold collect at 1.
    destruct (depth eq); try discriminate; cbn [neg rbind]; apply IH.
Qed.

(** Float magnitudes always have a marker size. *)
Lemma marker_sizes_total events :
  Forall (fun e => exists f, magnitude e = PFloat f) events ->
  exists marker_sizes,
    comprehension marker_size (map magnitude events) = Ok marker_sizes
    /\ List.length marker_sizes = List.length events.
Proof.
  induction 1 as [|e events [f Hf] _ (sizes & IH & Hlen)]; cbn [map comprehension].
  - exists []; split; reflexivity.
  - rewrite Hf, IH.
    unfold marker_size at 1, mul_float, max_int, gt_int; cbn [rbind].
    eexists; split; [reflexivity|cbn; now rewrite Hlen].
Qed.

(** The composer builds its lists for every list of records whose depth is a
    number and whose magnitude is a float. *)
Lemma composer_lists_total events :
  Forall (fun e => is_number (depth e) = true
                   /\ exists f, magnitude e = PFloat f) events ->
  exists c marker_sizes,
    for_each collect events no_columns = Ok c
    /\ comprehension marker_size (magnitudes c) = Ok marker_sizes.
Proof.
  intros H.
  destruct (collect_total events) with (c0 := no_columns) as [c Hc].
  { eapply Forall_impl; [|exact H]; cbn; tauto. }
  destruct (marker_sizes_total events) as (sizes & Hs & _).
  { eapply Forall_impl; [|exact H]; cbn; tauto. }
  exists c, sizes; split; [exact Hc|].
  rewrite (collect_magnitudes _ _ _ Hc); exact Hs.
Qed.

(** The loop over the lines: what it leaves in [data_to_plot] when it ends
    or is interrupted. *)
Lemma lines_loop lines :
  forall m,
    for_each_do
      (fun il => (t <- lift (line_trace (fst il) (snd il)) ;; append_trace t)%prog)
      lines m
    = ({| effects := effects m;
          data_to_plot := data_to_plot m ++ fst (line_traces lines) |},
       match snd (line_traces lines) with
       | None => Ok tt
       | Some e => Raise e
       end).
Proof.
  induction lines as [|il lines IH]; intros m; cbn [for_each_do line_traces].
  - cbn; now rewrite app_nil_r, machine_eta.
  - unfold bind at 1 2, lift at 1, append_trace at 1.
    destruct (line_trace (fst il) (snd il)) as [t|e]; cbn [fst snd].
    + rewrite IH; cbn [effects data_to_plot].
      now rewrite <- app_assoc.
    + now rewrite app_nil_r, machine_eta.
Qed.

Lemma boundary_handler_prints e :
  boundary_handler e = Some (print (failure_message e)).
Proof.
  unfold boundary_handler, failure_message.
  destruct (is_FileNotFoundError e); [reflexivity|].
  destruct (is_JSONDecodeError e); reflexivity.
Qed.

(** The [try] statement never raises: it adds the traces and prints the
    messages of [boundary_run]. *)
Lemma boundary_step w m :
  try_except (add_boundary_lines w) boundary_handler m
  = ({| effects := effects m ++ map Print (snd (boundary_run w));
        data_to_plot := data_to_plot m ++ fst (boundary_run w) |},
     Ok tt).
Proof.
  unfold try_except, add_boundary_lines, boundary_run.
  unfold bind at 1, lift at 1.
  destruct (load_json_file w GEOJSON_FILE) as [geojson_data|e].
  2:{ rewrite boundary_handler_prints; cbn. now rewrite app_nil_r. }
  unfold bind at 1, lift at 1.
  destruct (extract_geojson_lines geojson_data) as [map_lines|e].
  2:{ rewrite boundary_handler_prints; cbn. now rewrite app_nil_r. }
  unfold bind at 1, print at 1, emit at 1.
  unfold bind at 1. rewrite lines_loop; cbn [effects data_to_plot fst snd].
  destruct (snd (line_traces (enumerate map_lines))) as [e|].
  - rewrite boundary_handler_prints; unfold print, emit; cbn.
    now rewrite <- app_assoc.
  - unfold print, emit; cbn. now rewrite <- app_assoc.
Qed.

(** The composer, once its own lists are built: it renders whatever the
    boundary step did. *)
Lemma visualize_run w eq events c marker_sizes m :
  for_each collect (eq :: events) no_columns = Ok c ->
  comprehension marker_size (magnitudes c) = Ok marker_sizes ->
  let fig := make_figure ([earthquakes_trace c marker_sizes; cities_trace]
                          ++ fst (boundary_run w)) in
  visualize_earthquakes_pure_3d w (eq :: events) m
  = ({| effects :=
          effects m
          ++ Print (MsgEventCount (List.length (eq :: events)))
             :: map Print (snd (boundary_run w))
          ++ [Show fig; WriteHtml output_filename fig;
              Print (MsgSaved output_filename)];
        data_to_plot := fig_data fig |},
     Ok tt).
Proof.
  intros Hc Hs fig; unfold visualize_earthquakes_pure_3d.
  unfold bind at 1, print at 1, emit at 1.
  unfold bind at 1, lift at 1; rewrite Hc.
  unfold bind at 1, lift at 1; rewrite Hs.
  unfold bind at 1, set_data_to_plot at 1.
  unfold bind at 1, append_trace at 1.
  unfold bind at 1; rewrite boundary_step.
  cbn [effects data_to_plot app].
  unfold bind, get_data_to_plot, print, emit; cbn [effects data_to_plot].
  subst fig; cbn [fig_data make_figure].
  f_equal; f_equal.
  rewrite <- !app_assoc; cbn [app]. reflexivity.
Qed.

(** The catalog client only prints. *)
Lemma get_usgs_only_prints w days_ago mm la lA lo lO m :
  exists msgs,
    fst (get_usgs_earthquake_data w days_ago mm la lA lo lO m)
    = {| effects := effects m ++ map Print msgs; data_to_plot := data_to_plot m |}.
Proof.
  unfold get_usgs_earthquake_data, bind, lift, try_except, print, emit, ret.
  destruct (query_window w days_ago) as [window|].
  2:{ exists []; cbn; now rewrite app_nil_r, machine_eta. }
  destruct (fetch_and_parse w _) as [l|e]; cbn [fst effects data_to_plot].
  - exists [MsgFetching days_ago mm]; reflexivity.
  - destruct (is_RequestException e); cbn [fst effects data_to_plot].
    + exists [MsgFetching days_ago mm; MsgApiError e].
      now rewrite <- app_assoc.
    + exists [MsgFetching days_ago mm]; reflexivity.
Qed.

(** *** What the boundary step can raise *)

Lemma for_each_raises {A S} (body : S -> A -> result S) l :
  forall s e,
    for_each body l s = Raise e ->
    exists s' x, In x l /\ body s' x = Raise e.
Proof.
  induction l as [|x l IH]; cbn [for_each]; intros s e; [discriminate|].
  destruct (body s x) as [s'|e'] eqn:Hx.
  - intros H; destruct (IH _ _ H) as (s'' & y & Hy & Hb).
    exists s'', y; split; [now right|exact Hb].
  - intros [= <-]; exists s, x; split; [now left|exact Hx].
Qed.

Lemma comprehension_raises {A B} (f : A -> result B) l e :
  comprehension f l = Raise e -> exists x, In x l /\ f x = Raise e.
Proof.
  induction l as [|x l IH]; cbn [comprehension]; [discriminate|].
  destruct (f x) as [y|e'] eqn:Hx.
  - destruct (comprehension f l) as [ys|e'']; [discriminate|].
    intros [= <-]; destruct (IH eq_refl) as (z & Hz & Hf).
    exists z; split; [now right|exact Hf].
  - intros [= <-]; exists x; split; [now left|exact Hx].
Qed.

Lemma get_default_raises v k d e :
  get_default v k d = Raise e -> is_value_error e = true.
Proof. destruct v; cbn; intros [= <-]; reflexivity. Qed.

Lemma iter_raises v e : iter v = Raise e -> is_value_error e = true.
Proof. destruct v; cbn; intros [= <-]; reflexivity. Qed.

Lemma len_raises v e : len v = Raise e -> is_value_error e = true.
Proof. destruct v; cbn; intros [= <-]; reflexivity. Qed.

Lemma contains_raises v k e : contains v k = Raise e -> is_value_error e = true.
Proof. destruct v; cbn; intros [= <-]; reflexivity. Qed.

Lemma index_raises v i e : index v i = Raise e -> is_value_error e = true.
Proof.
  destruct v as [| | | |s|l|d]; cbn; try (intros [= <-]; reflexivity).
  - destruct (nth_error (chars s) i); [discriminate|intros [= <-]; reflexivity].
  - destruct (nth_error l i); [discriminate|intros [= <-]; reflexivity].
Qed.

Lemma extract_coords_raises geometry e :
  extract_coords geometry = Raise e -> is_value_error e = true.
Proof.
  unfold extract_coords, get.
  destruct (get_default geometry "type" PNone) as [geom_type|e1] eqn:Ht;
    cbn [rbind]; [|intros [= <-]; eapply get_default_raises; eassumption].
  destruct (get_default geometry "coordinates" PNone) as [geom_coords|e1] eqn:Hc;
    cbn [rbind]; [|intros [= <-]; eapply get_default_raises; eassumption].
  destruct (eq_str geom_type "Point"); [discriminate|].
  destruct (eq_str geom_type "LineString"); [discriminate|].
  destruct (eq_str geom_type "MultiLineString").
  { destruct (iter geom_coords) as [items|e1] eqn:Hi; cbn [rbind];
      [discriminate|intros [= <-]; eapply iter_raises; eassumption]. }
  destruct (eq_str geom_type "Polygon").
  { destruct (index geom_coords 0) as [ring|e1] eqn:Hi; cbn [rbind];
      [discriminate|intros [= <-]; eapply index_raises; eassumption]. }
  destruct (eq_str geom_type "MultiPolygon"); [|discriminate].
  destruct (iter geom_coords) as [polys|e1] eqn:Hi; cbn [rbind];
    [|intros [= <-]; eapply iter_raises; eassumption].
  intros H; destruct (for_each_raises _ _ _ _ H) as (coords & poly & _ & Hb).
  destruct (index poly 0) as [ring|e1] eqn:Hr; cbn [rbind] in Hb; [discriminate|].
  injection Hb as <-; eapply index_raises; eassumption.
Qed.

Lemma extract_feature_raises all_lines feature e :
  extract_feature all_lines feature = Raise e -> is_value_error e = true.
Proof.
  unfold extract_feature, get.
  destruct (get_default feature "geometry" PNone) as [geometry|e1] eqn:Hg;
    cbn [rbind]; [|intros [= <-]; eapply get_default_raises; eassumption].
  destruct (truthy geometry); [|discriminate].
  destruct (extract_coords geometry) as [coords|e1] eqn:Hc; cbn [rbind];
    [discriminate|intros [= <-]; eapply extract_coords_raises; eassumption].
Qed.

(** Extraction raises nothing but these. *)
Lemma extract_geojson_lines_raises geojson_data e :
  extract_geojson_lines geojson_data = Raise e -> is_value_error e = true.
Proof.
  unfold extract_geojson_lines, get.
  destruct (get_default geojson_data "type" PNone) as [type1|e1] eqn:Ht;
    cbn [rbind]; [|intros [= <-]; eapply get_default_raises; eassumption].
  destruct (eq_str type1 "FeatureCollection").
  { destruct (get_default geojson_data "features" (PList [])) as [features|e1] eqn:Hf;
      cbn [rbind]; [|intros [= <-]; eapply get_default_raises; eassumption].
    destruct (iter features) as [items|e1] eqn:Hi; cbn [rbind];
      [|intros [= <-]; eapply iter_raises; eassumption].
    intros H; destruct (for_each_raises _ _ _ _ H) as (acc & f & _ & Hb).
    eapply extract_feature_raises; eassumption. }
  destruct (eq_str type1 "Feature").
  { destruct (get_default geojson_data "geometry" PNone) as [geometry|e1] eqn:Hg;
      cbn [rbind]; [|intros [= <-]; eapply get_default_raises; eassumption].
    destruct (truthy geometry); [|discriminate].
    destruct (extract_coords geometry) as [coords|e1] eqn:Hc; cbn [rbind];
      [discriminate|intros [= <-]; eapply extract_coords_raises; eassumption]. }
  destruct (contains geojson_data "coordinates") as [[|]|e1] eqn:Hc1; cbn [rbind];
    [| |intros [= <-]; eapply contains_raises; eassumption].
  - destruct (contains geojson_data "type") as [[|]|e1] eqn:Hc2; cbn [rbind];
      [| |intros [= <-]; eapply contains_raises; eassumption].
    + destruct (extract_coords geojson_data) as [coords|e1] eqn:Hc; cbn [rbind];
        [discriminate|intros [= <-]; eapply extract_coords_raises; eassumption].
    + discriminate.
  - discriminate.
Qed.

(** Converting a line raises nothing but these either. *)
Lemma line_trace_raises i line e :
  line_trace i line = Raise e -> is_value_error e = true.
Proof.
  unfold line_trace.
  destruct (iter line) as [coords|e1] eqn:Hi; cbn [rbind];
    [|intros [= <-]; eapply iter_raises; eassumption].
  destruct (comprehension (fun coord => index coord 0) coords) as [xs|e1] eqn:Hx;
    cbn [rbind].
  2:{ intros [= <-]; destruct (comprehension_raises _ _ _ Hx) as (c & _ & Hc).
      eapply index_raises; eassumption. }
  destruct (comprehension (fun coord => index coord 1) coords) as [ys|e1] eqn:Hy;
    cbn [rbind].
  2:{ intros [= <-]; destruct (comprehension_raises _ _ _ Hy) as (c & _ & Hc).
      eapply index_raises; eassumption. }
  destruct (len line) as [n|e1] eqn:Hl; cbn [rbind];
    [discriminate|intros [= <-]; eapply len_raises; eassumption].
Qed.

Lemma line_traces_raise lines e :
  snd (line_traces lines) = Some e -> is_value_error e = true.
Proof.
  induction lines as [|il lines IH]; cbn [line_traces]; [discriminate|].
  destruct (line_trace (fst il) (snd il)) as [t|e1] eqn:Ht; cbn [snd].
  - exact IH.
  - intros [= <-]; eapply line_trace_raises; eassumption.
Qed.

(** Such an exception falls to the last [except] clause. *)
Lemma value_error_is_generic e :
  is_value_error e = true -> failure_message e = MsgGeoJSONError e.
Proof. destruct e; try discriminate; reflexivity. Qed.

Lemma shown_app l1 l2 : shown (l1 ++ l2) = shown l1 ++ shown l2.
Proof. apply flat_map_app. Qed.

Lemma written_app l1 l2 : written (l1 ++ l2) = written l1 ++ written l2.
Proof. apply flat_map_app. Qed.

Lemma shown_prints msgs : shown (map Print msgs) = [].
Proof. induction msgs; cbn; auto. Qed.

Lemma written_prints msgs : written (map Print msgs) = [].
Proof. induction msgs; cbn; auto. Qed.

End SceneFacts.

Module SceneClaims.

Import GeometryExtractor CatalogClient SceneComposer SceneFacts.

(** C6.  An empty accepted list is reported, not rendered.  Given the empty
    list the composer prints that there is nothing to visualize and returns:
    no figure is shown and no file written.  The script itself, when the
    catalog client returns the empty list, does not call the composer at
    all: it prints that no data is available, and shows and writes
    nothing. *)
Theorem empty_list_reported_not_rendered (w : world) (m : machine) :
  visualize_earthquakes_pure_3d w [] m
  = ({| effects := effects m ++ [Print MsgNothingToVisualize];
        data_to_plot := data_to_plot m |}, Ok tt)
  /\ (snd (get_usgs_earthquake_data w DAYS_AGO MIN_MAGNITUDE
             MIN_LAT MAX_LAT MIN_LON MAX_LON m) = Ok [] ->
      exists msgs,
        main w m
        = ({| effects := effects m ++ map Print (msgs ++ [MsgNoData]);
              data_to_plot := data_to_plot m |}, Ok tt)
        /\ shown (effects (fst (main w m))) = shown (effects m)
        /\ written (effects (fst (main w m))) = written (effects m)).
Proof.
  split; [reflexivity|].
  intros Hempty.
  destruct (get_usgs_only_prints w DAYS_AGO MIN_MAGNITUDE
              MIN_LAT MAX_LAT MIN_LON MAX_LON m) as [msgs Hfst].
  exists msgs.
  assert (Hmain : main w m
    = ({| effects := effects m ++ map Print (msgs ++ [MsgNoData]);
          data_to_plot := data_to_plot m |}, Ok tt)).
  { unfold main, bind at 1.
    destruct (get_usgs_earthquake_data w DAYS_AGO MIN_MAGNITUDE
                MIN_LAT MAX_LAT MIN_LON MAX_LON m) as [m1 r].
    cbn [fst snd] in Hfst, Hempty; subst m1 r.
    unfold print, emit; cbn [effects data_to_plot].
    now rewrite map_app, app_assoc. }
  rewrite Hmain; cbn [fst effects].
  rewrite shown_app, written_app, shown_prints, written_prints, !app_nil_r.
  auto.
Qed.

Lemma empty_list_reported_not_rendered_witness :
  exists msgs,
    main (fixed_world new_year_2024 (ok_response (catalog_document []))
                      (Raise FileNotFoundError)) start
    = ({| effects := map Print (msgs ++ [MsgNoData]); data_to_plot := [] |},
       Ok tt).
Proof.
  destruct (proj2 (empty_list_reported_not_rendered
                     (fixed_world new_year_2024
                                  (ok_response (catalog_document []))
                                  (Raise FileNotFoundError)) start) eq_refl)
    as (msgs & Hmain & _).
  exists msgs; exact Hmain.
Defined.



(** C5, as stated, fails: the boundary file yields two lines, the second one
    cannot be converted, the failure is printed, and the figure shown still
    carries the first line. *)
Lemma broken_line_leaves_boundary_line :
  let w := fixed_world new_year_2024 (Raise ConnectionError)
                       (Ok half_broken_boundary) in
  let m' := fst (visualize_earthquakes_pure_3d w [one_event] start) in
  printed (effects m')
  = [MsgEventCount 1; MsgLinesExtracted GEOJSON_FILE 2;
     MsgGeoJSONError IndexError; MsgSaved output_filename]
  /\ map map_lines_of (shown (effects m'))
     = [[GeoJSONMapLine 0 [PInt 139; PInt 140] [PInt 35; PInt 36] [0; 0]]].
Proof. split; vm_compute; reflexivity. Qed.

(** C5, amended.  Boundary processing never aborts the visualization: for
    every list of records with a numeric depth and a float magnitude, and
    more generally once the composer has built its own marker lists, it shows
    the figure and writes the file, whatever the boundary step did.  When
    reading or parsing the file fails, the scene has no boundary line and one
    message is printed, of the category of the failure: file missing,
    malformed JSON, or any other error.  When extracting the lines fails, the
    scene has no boundary line either and the message is the generic one,
    with the exception (an AttributeError, TypeError, IndexError or
    KeyError).  When converting an extracted line fails, the message is again
    the generic one, with the exception (of the same four classes), and the
    scene keeps the lines converted before it. *)
Theorem boundary_failure_never_aborts (w : world) :
  (forall eq events m,
      Forall (fun e => is_number (depth e) = true
                       /\ exists f, magnitude e = PFloat f) (eq :: events) ->
      let done := visualize_earthquakes_pure_3d w (eq :: events) m in
      snd done = Ok tt
      /\ exists fig,
           shown (effects (fst done)) = shown (effects m) ++ [fig]
           /\ written (effects (fst done))
              = written (effects m) ++ [(output_filename, fig)])
  /\ (forall eq events c marker_sizes m,
      for_each collect (eq :: events) no_columns = Ok c ->
      comprehension marker_size (magnitudes c) = Ok marker_sizes ->
      let fig := make_figure ([earthquakes_trace c marker_sizes; cities_trace]
                              ++ fst (boundary_run w)) in
      let done := visualize_earthquakes_pure_3d w (eq :: events) m in
      snd done = Ok tt
      /\ shown (effects (fst done)) = shown (effects m) ++ [fig]
      /\ written (effects (fst done))
         = written (effects m) ++ [(output_filename, fig)]
      /\ printed (effects (fst done))
         = printed (effects m)
           ++ MsgEventCount (List.length (eq :: events))
              :: snd (boundary_run w) ++ [MsgSaved output_filename])
  /\ (forall e,
        load_json_file w GEOJSON_FILE = Raise e ->
        boundary_run w = ([], [failure_message e]))
  /\ (forall geojson_data e,
        load_json_file w GEOJSON_FILE = Ok geojson_data ->
        extract_geojson_lines geojson_data = Raise e ->
        is_value_error e = true
        /\ boundary_run w = ([], [MsgGeoJSONError e]))
  /\ (forall geojson_data map_lines e,
        load_json_file w GEOJSON_FILE = Ok geojson_data ->
        extract_geojson_lines geojson_data = Ok map_lines ->
        snd (line_traces (enumerate map_lines)) = Some e ->
        is_value_error e = true
        /\ boundary_run w
           = (fst (line_traces (enumerate map_lines)),
              [MsgLinesExtracted GEOJSON_FILE (List.length map_lines);
               MsgGeoJSONError e]))
  /\ failure_message FileNotFoundError = MsgGeoJSONNotFound GEOJSON_FILE
  /\ failure_message JSONDecodeError = MsgGeoJSONMalformed GEOJSON_FILE
  /\ (forall e,
        is_FileNotFoundError e = false -> is_JSONDecodeError e = false ->
        failure_message e = MsgGeoJSONError e).
Proof.
  assert (Hrender : forall eq events c marker_sizes m,
      for_each collect (eq :: events) no_columns = Ok c ->
      comprehension marker_size (magnitudes c) = Ok marker_sizes ->
      let fig := make_figure ([earthquakes_trace c marker_sizes; cities_trace]
                              ++ fst (boundary_run w)) in
      let done := visualize_earthquakes_pure_3d w (eq :: events) m in
      snd done = Ok tt
      /\ shown (effects (fst done)) = shown (effects m) ++ [fig]
      /\ written (effects (fst done))
         = written (effects m) ++ [(output_filename, fig)]
      /\ printed (effects (fst done))
         = printed (effects m)
           ++ MsgEventCount (List.length (eq :: events))
              :: snd (boundary_run w) ++ [MsgSaved output_filename]);
    [|split; [|split; [exact Hrender|split; [|split; [|split; [|split; [|split]]]]]]].
  - intros eq events c marker_sizes m Hc Hs fig done.
    pose proof (visualize_run w eq events c marker_sizes m Hc Hs) as Hrun.
    cbv zeta in Hrun; fold fig in Hrun; subst done; rewrite Hrun.
    cbn [fst snd effects].
    assert (Hprints : forall msgs, printed (map Print msgs) = msgs).
    { induction msgs as [|msg msgs IH]; cbn; [|rewrite <- IH at 2]; auto. }
    repeat split.
    + rewrite shown_app; cbn [shown flat_map].
      rewrite flat_map_app; fold (shown (map Print (snd (boundary_run w)))).
      rewrite shown_prints; reflexivity.
    + rewrite written_app; cbn [written flat_map].
      rewrite flat_map_app; fold (written (map Print (snd (boundary_run w)))).
      rewrite written_prints; reflexivity.
    + unfold printed at 1; rewrite flat_map_app; fold (printed (effects m)).
      cbn [flat_map app]; rewrite flat_map_app.
      fold (printed (map Print (snd (boundary_run w)))).
      rewrite Hprints; reflexivity.
  - intros eq events m Hev done.
    destruct (composer_lists_total _ Hev) as (c & sizes & Hc & Hs).
    destruct (Hrender eq events c sizes m Hc Hs) as (Hok & Hshown & Hwritten & _).
    split; [exact Hok|eauto].
  - intros e H; unfold boundary_run; rewrite H; reflexivity.
  - intros geojson_data e H1 H2.
    pose proof (extract_geojson_lines_raises _ _ H2) as He.
    split; [exact He|].
    unfold boundary_run; rewrite H1, H2, (value_error_is_generic _ He).
    reflexivity.
  - intros geojson_data map_lines e H1 H2 H3.
    pose proof (line_traces_raise _ _ H3) as He.
    split; [exact He|].
    unfold boundary_run; rewrite H1, H2, H3, (value_error_is_generic _ He).
    reflexivity.
  - reflexivity.
  - reflexivity.
  - intros e H1 H2; unfold failure_message; rewrite H1, H2; reflexivity.
Qed.

Lemma boundary_failure_never_aborts_witness :
  snd (visualize_earthquakes_pure_3d
         (fixed_world new_year_2024 (Raise ConnectionError) (Raise FileNotFoundError))
         [one_event] start) = Ok tt.
Proof.
  apply (proj1 (boundary_failure_never_aborts
                  (fixed_world new_year_2024 (Raise ConnectionError)
                               (Raise FileNotFoundError)))
               one_event [] start).
  repeat constructor; eexists; reflexivity.
Defined.

End SceneClaims.

(** ** The whole run *)

Module ProgramClaims.

Import CatalogClient SceneComposer SceneFacts.

(** C4, as stated, fails: 300 is not a 2xx status, [raise_for_status] lets it
    pass, and a body that parses is handed on; the record in it is returned
    and nothing is logged. *)
Lemma status_300_is_parsed :
  let answer :=
    Ok {| status_code := 300;
          body_json :=
            Ok (catalog_document
                  [catalog_feature
                     [PFloat 142.37%float; PFloat 38.32%float; PFloat 45.5%float]
                     (PFloat 5.1%float)]) |} in
  let w := fixed_world new_year_2024 answer (Raise FileNotFoundError) in
  (200 <=? 300) && (300 <? 300) = false
  /\ get_usgs_earthquake_data w DAYS_AGO MIN_MAGNITUDE
       MIN_LAT MAX_LAT MIN_LON MAX_LON start
     = ({| effects := [Print (MsgFetching DAYS_AGO MIN_MAGNITUDE)];
           data_to_plot := [] |},
        Ok [one_event]).
Proof. split; vm_compute; reflexivity. Qed.

(** C4, amended.  For every transport-level failure of the catalog query (a
    [RequestException] raised by the request, such as a DNS failure or a
    timeout, or an answer with a 4xx or 5xx status) [get_usgs_earthquake_data]
    catches the failure, prints it and returns the empty list; the script
    then reports that no data is available and ends normally. *)
Theorem transport_failure_returns_empty_list (w : world) :
  (forall days_ago mm la lA lo lO m window e,
      query_window w days_ago = Ok window ->
      transport_failure w (build_params (fst window) (snd window) mm la lA lo lO) e ->
      get_usgs_earthquake_data w days_ago mm la lA lo lO m
      = ({| effects := effects m ++ [Print (MsgFetching days_ago mm);
                                     Print (MsgApiError e)];
            data_to_plot := data_to_plot m |}, Ok []))
  /\ (forall m window e,
        query_window w DAYS_AGO = Ok window ->
        transport_failure w (build_params (fst window) (snd window)
                               MIN_MAGNITUDE MIN_LAT MAX_LAT MIN_LON MAX_LON) e ->
        main w m
        = ({| effects := effects m ++ [Print (MsgFetching DAYS_AGO MIN_MAGNITUDE);
                                       Print (MsgApiError e); Print MsgNoData];
              data_to_plot := data_to_plot m |}, Ok tt))
  /\ is_RequestException ConnectionError = true
  /\ is_RequestException Timeout = true.
Proof.
  assert (Hget : forall days_ago mm la lA lo lO m window e,
      query_window w days_ago = Ok window ->
      transport_failure w (build_params (fst window) (snd window) mm la lA lo lO) e ->
      get_usgs_earthquake_data w days_ago mm la lA lo lO m
      = ({| effects := effects m ++ [Print (MsgFetching days_ago mm);
                                     Print (MsgApiError e)];
            data_to_plot := data_to_plot m |}, Ok [])).
  { intros days_ago mm la lA lo lO m window e Hw Hfail.
    unfold get_usgs_earthquake_data, bind at 1, lift at 1; rewrite Hw.
    unfold bind at 1, print at 1, emit at 1, try_except, lift, fetch_and_parse.
    destruct Hfail as [[Hreq Hexc]|(r & Hreq & Hstatus & ->)]; rewrite Hreq;
      cbn [rbind].
    - rewrite Hexc; unfold bind, print, emit, ret; cbn [effects data_to_plot].
      now rewrite <- app_assoc.
    - unfold raise_for_status.
      replace ((400 <=? status_code r) && (status_code r <? 600)) with true.
      + cbn [rbind is_RequestException].
        unfold bind, print, emit, ret; cbn [effects data_to_plot].
        now rewrite <- app_assoc.
      + symmetry; apply andb_true_intro; split;
          [apply Z.leb_le|apply Z.ltb_lt]; lia. }
  split; [exact Hget|split; [|split; reflexivity]].
  intros m window e Hw Hfail.
  unfold main, bind at 1; rewrite (Hget _ _ _ _ _ _ m _ _ Hw Hfail).
  unfold print, emit; cbn [effects data_to_plot].
  now rewrite <- app_assoc.
Qed.

Lemma transport_failure_returns_empty_list_witness :
  main (fixed_world new_year_2024 (Raise Timeout) (Raise FileNotFoundError)) start
  = ({| effects := [Print (MsgFetching DAYS_AGO MIN_MAGNITUDE);
                    Print (MsgApiError Timeout); Print MsgNoData];
        data_to_plot := [] |}, Ok tt).
Proof.
  eapply (proj1 (proj2 (transport_failure_returns_empty_list
                          (fixed_world new_year_2024 (Raise Timeout)
                                       (Raise FileNotFoundError)))) start).
  - vm_compute; reflexivity.
  - left; split; reflexivity.
Defined.

End ProgramClaims.

(** ** Further properties of the catalog client *)

Section AccumulatingLoops.

Context {A B : Type}.

(** A loop whose body only appends to its accumulator can be run on the
    empty list and its result appended afterwards. *)
Lemma for_each_shift (body : list B -> A -> result (list B)) :
  (forall acc x, body acc x = (l <- body [] x ;; Ok (acc ++ l))) ->
  forall xs acc,
    for_each body xs acc = (l <- for_each body xs [] ;; Ok (acc ++ l)).
Proof.
  intros Hbody; induction xs as [|x xs IH]; intros acc; cbn [for_each].
  - cbn; now rewrite app_nil_r.
  - rewrite (Hbody acc x).
    destruct (body [] x) as [l|e]; cbn [rbind]; [|reflexivity].
    rewrite (IH (acc ++ l)), (IH l).
    destruct (for_each body xs []) as [l'|e]; cbn [rbind];
      [now rewrite app_assoc|reflexivity].
Qed.

(** Such a loop returns the contributions of its items, one after the
    other. *)
Lemma for_each_concat (body : list B -> A -> result (list B)) :
  (forall acc x, body acc x = (l <- body [] x ;; Ok (acc ++ l))) ->
  forall xs out,
    for_each body xs [] = Ok out ->
    exists parts,
      Forall2 (fun x part => body [] x = Ok part) xs parts
      /\ out = List.concat parts.
Proof.
  intros Hbody; induction xs as [|x xs IH]; intros out; cbn [for_each].
  - intros [= <-]; exists []; split; [constructor|reflexivity].
  - destruct (body [] x) as [l|e] eqn:Hx; [|discriminate].
    rewrite (for_each_shift body Hbody xs l).
    destruct (for_each body xs []) as [l'|e] eqn:Hxs; cbn [rbind]; [|discriminate].
    intros [= <-].
    destruct (IH l' eq_refl) as (parts & Hparts & ->).
    exists (l :: parts); split; [constructor; assumption|reflexivity].
Qed.

End AccumulatingLoops.

Module CatalogProperties.

Import CatalogClient CatalogFacts WellFormed.

Lemma number_ge_int v k : is_number v = true -> exists b, ge_int v k = Ok b.
Proof. destruct v; try discriminate; cbn; eauto. Qed.

(** What the parse step does with a feature that has all its fields, in
    terms of its time text. *)
Lemma parse_feature_fields w acc feature lon lat dep mag time_ms place :
  record_fields feature lon lat dep mag time_ms place ->
  parse_feature w acc feature
  = (event_time <- event_time_text w time_ms ;;
     if forallb is_number [lat; lon; dep]
        && negb (is_None dep) && negb (is_None mag) then
       deep <- ge_int dep MIN_DEPTH_KM ;;
       Ok (if deep then acc ++ [record_of lon lat dep mag event_time place]
           else acc)
     else Ok acc).
Proof.
  intros (fd & pd & gd & more & -> & Hp & Hpd & Hg & Hc & Hm & Ht & Hpl).
  unfold parse_feature; rewrite !get_field; cbn [rbind].
  rewrite Hp, Hg, !get_field, Hc; cbn [rbind].
  destruct pd as [|kv pd]; [congruence|].
  destruct gd as [|kv' gd]; [discriminate|].
  cbn [truthy rbind]; unfold item.
  rewrite (field_list_found _ _ _ Hc); cbn [rbind index nth_error].
  rewrite Hm, Ht, Hpl.
  destruct (event_time_text w time_ms) as [event_time|e]; cbn [rbind];
    [|reflexivity].
  destruct (forallb is_number [lat; lon; dep] && negb (is_None dep)
            && negb (is_None mag)); [|reflexivity].
  destruct (ge_int dep MIN_DEPTH_KM) as [[|]|e]; reflexivity.
Qed.

(** X1.  A record with three numeric coordinates, a magnitude and a
    convertible time stamp is accepted exactly when its depth is at least
    [MIN_DEPTH_KM]: then the record appended carries its six values
    unchanged; otherwise the list is left as it was.  Nothing else is
    checked: neither the magnitude nor the position is compared with the
    bounds of the query. *)
Theorem complete_record_accepted_iff_deep w acc feature lon lat dep mag
    time_ms place event_time :
  record_fields feature lon lat dep mag time_ms place ->
  forallb is_number [lat; lon; dep] = true ->
  mag <> PNone ->
  event_time_text w time_ms = Ok event_time ->
  exists deep,
    ge_int dep MIN_DEPTH_KM = Ok deep
    /\ parse_feature w acc feature
       = Ok (if deep then acc ++ [record_of lon lat dep mag event_time place]
             else acc).
Proof.
  intros Hfields Hnum Hmag Htime.
  rewrite (parse_feature_fields _ _ _ _ _ _ _ _ _ Hfields), Htime; cbn [rbind].
  assert (Hdep : is_number dep = true).
  { cbn [forallb] in Hnum.
    apply andb_prop in Hnum as [_ Hnum]; apply andb_prop in Hnum as [_ Hnum].
    apply andb_prop in Hnum as [Hnum _]; exact Hnum. }
  rewrite Hnum.
  replace (is_None dep) with false by (destruct dep; try discriminate; reflexivity).
  replace (is_None mag) with false by (destruct mag; cbn; congruence).
  destruct (number_ge_int dep MIN_DEPTH_KM Hdep) as [deep Hdeep].
  exists deep; rewrite Hdeep; split; reflexivity.
Qed.

Lemma complete_record_accepted_iff_deep_witness :
  exists deep,
    ge_int (PInt 10) MIN_DEPTH_KM = Ok deep
    /\ parse_feature
         (fixed_world new_year_2024 (Raise ConnectionError) (Raise FileNotFoundError))
         [SceneComposer.one_event]
         (catalog_feature [PInt 140; PInt 36; PInt 10] (PFloat 0.5%float))
       = Ok (if deep
             then [SceneComposer.one_event]
                  ++ [record_of (PInt 140) (PInt 36) (PInt 10) (PFloat 0.5%float)
                                "2024/01/01 09:00:00" (PStr "off Honshu")]
             else [SceneComposer.one_event]).
Proof.
  apply (complete_record_accepted_iff_deep
           (fixed_world new_year_2024 (Raise ConnectionError) (Raise FileNotFoundError))
           [SceneComposer.one_event]
           (catalog_feature [PInt 140; PInt 36; PInt 10] (PFloat 0.5%float))
           (PInt 140) (PInt 36) (PInt 10) (PFloat 0.5%float)
           (PInt 1704067200000) (PStr "off Honshu")).
  - eexists _, _, _, _; repeat split; try reflexivity; discriminate.
  - reflexivity.
  - discriminate.
  - reflexivity.
Defined.

(** One turn of the parse loop only appends to the list. *)
Lemma parse_feature_shift w acc feature :
  parse_feature w acc feature
  = (l <- parse_feature w [] feature ;; Ok (acc ++ l)).
Proof.
  unfold parse_feature.
  repeat lazymatch goal with
         | |- rbind ?x _ = _ => destruct x; cbn [rbind]; try reflexivity
         | |- (if ?b then _ else _) = _ => destruct b; cbn [rbind]; try reflexivity
         end.
  all: cbn [app]; now rewrite ?app_nil_r.
Qed.

(** X2.  The accepted list keeps the order of the catalog.  When the parse
    returns, each feature has contributed no record or one, and the list
    returned is these contributions one after the other, in feature order;
    so there are never more records than features. *)
Theorem accepted_events_in_catalog_order w data events :
  parse_catalog w data = Ok events ->
  exists items parts,
    features_of data = Ok items
    /\ Forall2 (fun feature part =>
                  parse_feature w [] feature = Ok part
                  /\ (List.length part <= 1)%nat) items parts
    /\ events = List.concat parts
    /\ (List.length events <= List.length items)%nat.
Proof.
  unfold parse_catalog, features_of.
  destruct (get_default data "features" (PList [])) as [features|];
    cbn [rbind]; [|discriminate].
  destruct (iter features) as [items|]; cbn [rbind]; [|discriminate].
  intros H.
  destruct (for_each_concat (parse_feature w) (parse_feature_shift w) _ _ H)
    as (parts & Hparts & ->).
  assert (Hshort : Forall2 (fun feature part =>
                              parse_feature w [] feature = Ok part
                              /\ (List.length part <= 1)%nat) items parts).
  { clear H; induction Hparts as [|f part items parts Hf _ IH]; constructor.
    - split; [exact Hf|].
      destruct (parse_feature_inv _ _ _ _ Hf) as [->|(e & -> & _)]; cbn; lia.
    - exact IH. }
  exists items, parts; repeat split; try assumption.
  clear -Hshort; induction Hshort as [|f part items parts [_ Hlen] _ IH]; cbn.
  - lia.
  - rewrite length_app; lia.
Qed.

Lemma accepted_events_in_catalog_order_witness :
  exists items parts,
    features_of three_records = Ok items
    /\ Forall2 (fun feature part =>
                  parse_feature
                    (fixed_world new_year_2024 (ok_response three_records)
                                 (Raise FileNotFoundError))
                    [] feature = Ok part
                  /\ (List.length part <= 1)%nat) items parts
    /\ [record_of (PFloat 142.37%float) (PFloat 38.32%float) (PFloat 45.5%float)
                  (PFloat 5.1%float) "2024/01/01 09:00:00" (PStr "off Honshu");
        record_of (PFloat 141.2%float) (PFloat 37.5%float) (PInt 60)
                  (PFloat 3.2%float) "2024/01/01 09:00:00" (PStr "off Honshu")]
       = List.concat parts
    /\ (2 <= List.length items)%nat.
Proof.
  apply (accepted_events_in_catalog_order
           (fixed_world new_year_2024 (ok_response three_records)
                        (Raise FileNotFoundError))
           three_records).
  vm_compute; reflexivity.
Defined.

(** X3.  A time stamp that is missing, null or zero is reported as unknown.
    For a record that is accepted the time text is the sentinel whenever the
    [time] of its properties is falsy, and the clock of the host is not
    consulted: this holds in every world. *)
Theorem falsy_time_reported_unknown w acc feature lon lat dep mag time_ms place :
  record_fields feature lon lat dep mag time_ms place ->
  truthy time_ms = false ->
  forallb is_number [lat; lon; dep] = true ->
  mag <> PNone ->
  ge_int dep MIN_DEPTH_KM = Ok true ->
  parse_feature w acc feature
  = Ok (acc ++ [record_of lon lat dep mag "不明" place]).
Proof.
  intros Hfields Htime Hnum Hmag Hdeep.
  rewrite (parse_feature_fields _ _ _ _ _ _ _ _ _ Hfields).
  unfold event_time_text; rewrite Htime; cbn [rbind].
  rewrite Hnum, Hdeep.
  replace (is_None dep) with false
    by (destruct dep; try discriminate; reflexivity).
  replace (is_None mag) with false by (destruct mag; cbn; congruence).
  reflexivity.
Qed.

Lemma falsy_time_reported_unknown_witness :
  parse_feature
    {| now := new_year_2024;
       requests_get := fun _ _ => Raise ConnectionError;
       local_time_text := fun _ => Raise OSError;
       load_json_file := fun _ => Raise FileNotFoundError |}
    []
    (PDict [("properties", PDict [("mag", PFloat 4.5%float); ("time", PInt 0)]);
            ("geometry",
             PDict [("coordinates", PList [PInt 140; PInt 36; PInt 80])])])
  = Ok ([] ++ [record_of (PInt 140) (PInt 36) (PInt 80) (PFloat 4.5%float)
                         "不明" PNone]).
Proof.
  apply falsy_time_reported_unknown with (time_ms := PInt 0).
  - eexists _, _, _, _; repeat split; try reflexivity; discriminate.
  - reflexivity.
  - reflexivity.
  - discriminate.
  - reflexivity.
Defined.

(** X4.  The time stamp is converted before the record is checked.  A
    truthy time stamp that is not a number raises TypeError, and one the
    host cannot convert raises what the conversion raises, whatever the
    coordinates and the magnitude are: also for a record that would have
    been rejected. *)
Theorem time_converted_before_validation w acc feature lon lat dep mag
    time_ms place :
  record_fields feature lon lat dep mag time_ms place ->
  truthy time_ms = true ->
  (is_number time_ms = false -> parse_feature w acc feature = Raise TypeError)
  /\ (forall e,
        is_number time_ms = true -> local_time_text w time_ms = Raise e ->
        parse_feature w acc feature = Raise e).
Proof.
  intros Hfields Htime.
  rewrite (parse_feature_fields _ _ _ _ _ _ _ _ _ Hfields).
  unfold event_time_text; rewrite Htime; split.
  - intros ->; reflexivity.
  - intros e -> ->; reflexivity.
Qed.

Lemma time_converted_before_validation_witness :
  parse_feature
    (fixed_world new_year_2024 (Raise ConnectionError) (Raise FileNotFoundError))
    []
    (PDict [("properties", PDict [("time", PStr "2024-01-01T00:00:00Z")]);
            ("geometry",
             PDict [("coordinates", PList [PInt 140; PNone; PInt 2])])])
  = Raise TypeError.
Proof.
  destruct (time_converted_before_validation
              (fixed_world new_year_2024 (Raise ConnectionError)
                           (Raise FileNotFoundError))
              []
              (PDict [("properties", PDict [("time", PStr "2024-01-01T00:00:00Z")]);
                      ("geometry",
                       PDict [("coordinates", PList [PInt 140; PNone; PInt 2])])])
              (PInt 140) PNone (PInt 2) PNone
              (PStr "2024-01-01T00:00:00Z") PNone) as [Hraise _].
  - eexists _, _, _, _; repeat split; try reflexivity; discriminate.
  - reflexivity.
  - apply Hraise; reflexivity.
Defined.



End CatalogProperties.

(** ** Further properties of the geometry extractor *)

Module GeometryProperties.

Import GeometryExtractor GeometryFacts.

Lemma extract_feature_appends all_lines feature :
  extract_feature all_lines feature
  = (l <- extract_feature [] feature ;; Ok (all_lines ++ l)).
Proof.
  unfold extract_feature.
  destruct (get feature "geometry") as [geometry|e]; cbn [rbind]; [|reflexivity].
  destruct (truthy geometry); cbn [rbind app]; [|now rewrite app_nil_r].
  destruct (extract_coords geometry); reflexivity.
Qed.

(** X7.  A Feature document yields what a FeatureCollection holding just
    that feature yields, lines and exceptions alike. *)
Theorem feature_is_singleton_collection d :
  eq_str (field d "type") "Feature" = true ->
  extract_geojson_lines (PDict d)
  = extract_geojson_lines (feature_collection [PDict d]).
Proof.
  intros Ht.
  rewrite extract_feature_collection; cbn [for_each].
  unfold extract_geojson_lines, extract_feature.
  rewrite !get_field; cbn [rbind]; rewrite Ht.
  replace (eq_str (field d "type") "FeatureCollection") with false.
  - destruct (truthy (field d "geometry")); [|reflexivity].
    destruct (extract_coords (field d "geometry")); reflexivity.
  - destruct (field d "type") as [| | | |t| |]; try discriminate.
    apply String.eqb_eq in Ht as ->; reflexivity.
Qed.

Lemma feature_is_singleton_collection_witness :
  extract_geojson_lines
    (PDict [("type", PStr "Feature");
            ("geometry", PDict [("type", PStr "Polygon"); ("coordinates", PList [])])])
  = extract_geojson_lines
      (feature_collection
         [PDict [("type", PStr "Feature");
                 ("geometry",
                  PDict [("type", PStr "Polygon"); ("coordinates", PList [])])]]).
Proof.
  apply feature_is_singleton_collection; reflexivity.
Defined.

(** X8.  Features without lines do not disturb the others.  Take any two
    FeatureCollection objects, whatever other members they carry, whose
    features differ by one feature only, present in the first and taken out
    of the second.  If the geometry of that feature is null or absent, is a
    Point, or has a type the extractor does not know (a GeometryCollection,
    a MultiPoint), extraction returns or raises the same for both.  A
    document that is itself a geometry of an unknown type yields the empty
    list. *)
Theorem lineless_feature_contributes_nothing :
  (forall d d' fd before after,
      eq_str (field d "type") "FeatureCollection" = true ->
      eq_str (field d' "type") "FeatureCollection" = true ->
      dict_get d "features" = Some (PList (before ++ PDict fd :: after)) ->
      dict_get d' "features" = Some (PList (before ++ after)) ->
      truthy (field fd "geometry") = false
      \/ (exists gd,
            field fd "geometry" = PDict gd
            /\ (eq_str (field gd "type") "Point" = true
                \/ known_geometry_type (field gd "type") = false)) ->
      extract_geojson_lines (PDict d) = extract_geojson_lines (PDict d'))
  /\ (forall gd,
        known_geometry_type (field gd "type") = false ->
        eq_str (field gd "type") "FeatureCollection" = false ->
        eq_str (field gd "type") "Feature" = false ->
        extract_geojson_lines (PDict gd) = Ok []).
Proof.
  assert (Hunknown : forall gd,
             known_geometry_type (field gd "type") = false ->
             extract_coords (PDict gd) = Ok []).
  { intros gd H; unfold extract_coords; rewrite !get_field; cbn [rbind].
    unfold known_geometry_type in H.
    apply orb_false_elim in H as [H HMultiPolygon].
    apply orb_false_elim in H as [H HPolygon].
    apply orb_false_elim in H as [H HMultiLineString].
    apply orb_false_elim in H as [HPoint HLineString].
    rewrite HPoint, HLineString, HMultiLineString, HPolygon, HMultiPolygon.
    reflexivity. }
  split.
  - intros d d' fd before after Ht Ht' Hf Hf' Hlineless.
    assert (Hone : forall acc, extract_feature acc (PDict fd) = Ok acc).
    { intros acc; unfold extract_feature; rewrite get_field; cbn [rbind].
      destruct Hlineless as [->|(gd & -> & [HPoint|Hun])]; [reflexivity| |].
      - destruct (truthy (PDict gd)); [|reflexivity].
        unfold extract_coords; rewrite !get_field; cbn [rbind]; rewrite HPoint.
        cbn; now rewrite app_nil_r.
      - destruct (truthy (PDict gd)); [|reflexivity].
        rewrite (Hunknown gd Hun); cbn; now rewrite app_nil_r. }
    rewrite (extract_collection d _ Ht Hf), (extract_collection d' _ Ht' Hf').
    rewrite !for_each_app.
    destruct (for_each extract_feature before []) as [acc|e];
      cbn [rbind for_each]; [|reflexivity].
    rewrite Hone; reflexivity.
  - intros gd Hun HFC HF.
    unfold extract_geojson_lines; rewrite !get_field; cbn [rbind].
    rewrite HFC, HF; cbn [contains].
    destruct (dict_get gd "coordinates"); cbn [rbind]; [|reflexivity].
    destruct (dict_get gd "type"); cbn [rbind]; [|reflexivity].
    rewrite (Hunknown gd Hun); reflexivity.
Qed.

Lemma lineless_feature_contributes_nothing_witness :
  extract_geojson_lines
    (PDict [("name", PStr "coast"); ("type", PStr "FeatureCollection");
            ("features",
             PList
               ([PDict [("geometry",
                         PDict [("type", PStr "LineString");
                                ("coordinates", PList [PList [PInt 1; PInt 2]])])]]
                ++ PDict [("geometry",
                           PDict [("type", PStr "GeometryCollection");
                                  ("geometries",
                                   PList [PDict [("type", PStr "LineString");
                                                 ("coordinates",
                                                  PList [PList [PInt 3; PInt 4]])]])])]
                   :: [PDict [("type", PStr "Feature"); ("geometry", PNone)]]));
            ("bbox", PList [PInt 1; PInt 2; PInt 3; PInt 4])])
  = extract_geojson_lines
      (PDict [("type", PStr "FeatureCollection");
              ("features",
               PList
                 ([PDict [("geometry",
                           PDict [("type", PStr "LineString");
                                  ("coordinates", PList [PList [PInt 1; PInt 2]])])]]
                  ++ [PDict [("type", PStr "Feature"); ("geometry", PNone)]]));
              ("crs", PNone)]).
Proof.
  apply (proj1 lineless_feature_contributes_nothing
           [("name", PStr "coast"); ("type", PStr "FeatureCollection");
            ("features",
             PList
               ([PDict [("geometry",
                         PDict [("type", PStr "LineString");
                                ("coordinates", PList [PList [PInt 1; PInt 2]])])]]
                ++ PDict [("geometry",
                           PDict [("type", PStr "GeometryCollection");
                                  ("geometries",
                                   PList [PDict [("type", PStr "LineString");
                                                 ("coordinates",
                                                  PList [PList [PInt 3; PInt 4]])]])])]
                   :: [PDict [("type", PStr "Feature"); ("geometry", PNone)]]));
            ("bbox", PList [PInt 1; PInt 2; PInt 3; PInt 4])]
           [("type", PStr "FeatureCollection");
            ("features",
             PList
               ([PDict [("geometry",
                         PDict [("type", PStr "LineString");
                                ("coordinates", PList [PList [PInt 1; PInt 2]])])]]
                ++ [PDict [("type", PStr "Feature"); ("geometry", PNone)]]));
            ("crs", PNone)]
           [("geometry",
             PDict [("type", PStr "GeometryCollection");
                    ("geometries",
                     PList [PDict [("type", PStr "LineString");
                                   ("coordinates",
                                    PList [PList [PInt 3; PInt 4]])]])])]
           _ _ eq_refl eq_refl eq_refl eq_refl).
  right; eexists; split; [reflexivity|right; reflexivity].
Defined.

(** X9.  Extraction is all or nothing.  Take any FeatureCollection object,
    whatever other members it carries.  When the features before one of its
    features are extracted without error and that feature makes the loop
    raise, the call raises that exception and the lines of the features
    before it are lost.  A document that is not an object raises
    AttributeError. *)
Theorem one_bad_feature_loses_all_lines :
  (forall d0 d before feature after lines e,
      eq_str (field d0 "type") "FeatureCollection" = true ->
      eq_str (field d "type") "FeatureCollection" = true ->
      dict_get d0 "features" = Some (PList before) ->
      dict_get d "features" = Some (PList (before ++ feature :: after)) ->
      extract_geojson_lines (PDict d0) = Ok lines ->
      extract_feature [] feature = Raise e ->
      extract_geojson_lines (PDict d) = Raise e)
  /\ (forall doc,
        match doc with PDict _ => False | _ => True end ->
        extract_geojson_lines doc = Raise AttributeError).
Proof.
  split.
  - intros d0 d before feature after lines e Ht0 Ht Hf0 Hf Hb Hbad.
    rewrite (extract_collection d0 _ Ht0 Hf0) in Hb.
    rewrite (extract_collection d _ Ht Hf).
    rewrite for_each_app, Hb; cbn [rbind for_each].
    rewrite extract_feature_appends, Hbad; reflexivity.
  - intros [| | | | | |d] H; try reflexivity; destruct H.
Qed.

Lemma one_bad_feature_loses_all_lines_witness :
  extract_geojson_lines
    (PDict [("name", PStr "coast"); ("type", PStr "FeatureCollection");
            ("features",
             PList
               ([PDict [("geometry",
                         PDict [("type", PStr "LineString");
                                ("coordinates", PList [PList [PInt 1; PInt 2]])])]]
                ++ PNone :: []))])
  = Raise AttributeError.
Proof.
  apply (proj1 one_bad_feature_loses_all_lines
           [("type", PStr "FeatureCollection");
            ("features",
             PList [PDict [("geometry",
                            PDict [("type", PStr "LineString");
                                   ("coordinates", PList [PList [PInt 1; PInt 2]])])]]);
            ("bbox", PNone)]
           [("name", PStr "coast"); ("type", PStr "FeatureCollection");
            ("features",
             PList
               ([PDict [("geometry",
                         PDict [("type", PStr "LineString");
                                ("coordinates", PList [PList [PInt 1; PInt 2]])])]]
                ++ PNone :: []))]
           _ PNone [] [PList [PList [PInt 1; PInt 2]]] AttributeError
           eq_refl eq_refl eq_refl eq_refl eq_refl eq_refl).
Defined.

End GeometryProperties.

(** ** Further properties of the scene composer *)

Module SceneProperties.

Import GeometryExtractor CatalogClient SceneComposer SceneFacts WellFormed.

(** The first loop fills its six lists in step with the records. *)
Lemma collect_columns events :
  forall c0 c,
    for_each collect events c0 = Ok c ->
    latitudes c = latitudes c0 ++ map latitude events
    /\ longitudes c = longitudes c0 ++ map longitude events
    /\ depths_original c = depths_original c0 ++ map depth events
    /\ magnitudes c = magnitudes c0 ++ map magnitude events
    /\ event_details c = event_details c0 ++ map hover_of events
    /\ exists below,
         depths_for_plot c = depths_for_plot c0 ++ below
         /\ Forall2 (fun e z => neg (depth e) = Ok z) events below.
Proof.
  induction events as [|eq events IH]; cbn [for_each map]; intros c0 c.
  - intros [= <-]; rewrite !app_nil_r; repeat split.
    exists []; rewrite app_nil_r; split; [reflexivity|constructor].
  - unfold collect at 1.
    destruct (neg (depth eq)) as [z|] eqn:Hz; cbn [rbind]; [|discriminate].
    intros H.
    destruct (IH _ _ H) as (H1 & H2 & H3 & H4 & H5 & below & H6 & H7).
    cbn [latitudes longitudes depths_original magnitudes event_details
         depths_for_plot] in *.
    rewrite H1, H2, H3, H4, H5, H6, <- !app_assoc; repeat split.
    exists (z :: below); split; [reflexivity|constructor; assumption].
Qed.

Lemma line_trace_is_map_line i line t :
  line_trace i line = Ok t -> is_map_line t = true.
Proof.
  unfold line_trace.
  destruct (iter line); cbn [rbind]; [|discriminate].
  destruct (comprehension _ _); cbn [rbind]; [|discriminate].
  destruct (comprehension _ _); cbn [rbind]; [|discriminate].
  destruct (len line); cbn [rbind]; [|discriminate].
  intros [= <-]; reflexivity.
Qed.

Lemma line_traces_are_map_lines lines :
  forallb is_map_line (fst (line_traces lines)) = true.
Proof.
  induction lines as [|il lines IH]; cbn [line_traces]; [reflexivity|].
  destruct (line_trace (fst il) (snd il)) as [t|e] eqn:Ht; cbn [fst forallb];
    [|reflexivity].
  now rewrite (line_trace_is_map_line _ _ _ Ht), IH.
Qed.

Lemma boundary_run_map_lines w : forallb is_map_line (fst (boundary_run w)) = true.
Proof.
  unfold boundary_run.
  destruct (load_json_file w GEOJSON_FILE); [|reflexivity].
  destruct (extract_geojson_lines _); [|reflexivity].
  apply line_traces_are_map_lines.
Qed.

(** X10.  The layout of the scene.  The figure shown holds the event
    markers first, the city markers second and after them boundary lines
    only.  The event markers follow the records one for one and in order:
    longitudes on x, latitudes on y, the negated depth on z, the depth
    itself as colour, and the hover text built from the record's six
    values. *)
Theorem scene_layout w eq events c marker_sizes m :
  for_each collect (eq :: events) no_columns = Ok c ->
  comprehension marker_size (magnitudes c) = Ok marker_sizes ->
  exists fig zs lines,
    shown (effects (fst (visualize_earthquakes_pure_3d w (eq :: events) m)))
    = shown (effects m) ++ [fig]
    /\ fig_data fig
       = Earthquakes (map longitude (eq :: events)) (map latitude (eq :: events))
                     zs marker_sizes (map depth (eq :: events))
                     (map hover_of (eq :: events))
         :: cities_trace :: lines
    /\ Forall2 (fun e z => neg (depth e) = Ok z) (eq :: events) zs
    /\ forallb is_map_line lines = true.
Proof.
  intros Hc Hs.
  pose proof (visualize_run w eq events c marker_sizes m Hc Hs) as Hrun.
  cbv zeta in Hrun; rewrite Hrun; cbn [fst effects].
  destruct (collect_columns _ _ _ Hc) as (H1 & H2 & H3 & _ & H5 & zs & H6 & H7).
  cbn [latitudes longitudes depths_original event_details depths_for_plot
       no_columns app] in H1, H2, H3, H5, H6.
  exists (make_figure ([earthquakes_trace c marker_sizes; cities_trace]
                       ++ fst (boundary_run w))), zs, (fst (boundary_run w)).
  repeat split.
  - rewrite shown_app; cbn [shown flat_map].
    rewrite flat_map_app; fold (shown (map Print (snd (boundary_run w)))).
    rewrite shown_prints; reflexivity.
  - unfold earthquakes_trace; rewrite H1, H2, H3, H5, H6; reflexivity.
  - exact H7.
  - apply boundary_run_map_lines.
Qed.

Lemma scene_layout_witness :
  exists fig zs lines,
    shown (effects (fst (visualize_earthquakes_pure_3d
                           (fixed_world new_year_2024 (Raise ConnectionError)
                                        (Ok half_broken_boundary))
                           [one_event] start)))
    = shown (effects start) ++ [fig]
    /\ fig_data fig
       = Earthquakes (map longitude [one_event]) (map latitude [one_event])
                     zs [PFloat 5.1%float] (map depth [one_event])
                     (map hover_of [one_event])
         :: cities_trace :: lines
    /\ Forall2 (fun e z => neg (depth e) = Ok z) [one_event] zs
    /\ forallb is_map_line lines = true.
Proof.
  apply (scene_layout
           (fixed_world new_year_2024 (Raise ConnectionError)
                        (Ok half_broken_boundary))
           one_event [] _ [PFloat 5.1%float] start eq_refl eq_refl).
Defined.

Lemma gt_implies_ge v k : gt_int v k = Ok true -> ge_int v k = Ok true.
Proof.
  destruct v as [|b|z|f| | |]; cbn; try discriminate.
  - intros [= H]; apply Z.ltb_lt in H; f_equal; apply Z.leb_le; lia.
  - intros [= H]; apply Z.ltb_lt in H; f_equal; apply Z.leb_le; lia.
  - destruct (float_compare_int f k) as [[| |]|]; try discriminate; reflexivity.
Qed.

(** X11.  No marker is smaller than the base size.  Whenever a marker size
    is computed it is either the base itself or a float that Python finds
    strictly greater than the base; a magnitude that is not a number raises
    TypeError instead. *)
Theorem marker_size_at_least_base mag :
  (forall size,
      marker_size mag = Ok size ->
      ge_int size EARTHQUAKE_MARKER_SIZE_BASE = Ok true
      /\ (size = PInt EARTHQUAKE_MARKER_SIZE_BASE
          \/ exists f, size = PFloat f
                       /\ gt_int size EARTHQUAKE_MARKER_SIZE_BASE = Ok true))
  /\ (is_number mag = false -> marker_size mag = Raise TypeError).
Proof.
  split.
  - intros size; unfold marker_size, max_int.
    destruct (mul_float mag MARKER_MAGNITUDE_MULTIPLIER) as [scaled|] eqn:Hmul;
      cbn [rbind]; [|discriminate].
    assert (Hfloat : exists f, scaled = PFloat f).
    { destruct mag as [|b|z|f| | |]; cbn in Hmul; try discriminate.
      - destruct (float_of_int (Z.b2z b)); cbn in Hmul; [|discriminate].
        injection Hmul as <-; eauto.
      - destruct (float_of_int z); cbn in Hmul; [|discriminate].
        injection Hmul as <-; eauto.
      - injection Hmul as <-; eauto. }
    destruct Hfloat as [f ->].
    destruct (gt_int (PFloat f) EARTHQUAKE_MARKER_SIZE_BASE) as [[|]|] eqn:Hgt;
      cbn [rbind]; try discriminate; intros [= <-].
    + split; [apply gt_implies_ge; exact Hgt|right; eauto].
    + split; [reflexivity|left; reflexivity].
  - intros Hnum; destruct mag; try discriminate; reflexivity.
Qed.

Lemma marker_size_at_least_base_witness :
  ge_int (PInt 3) EARTHQUAKE_MARKER_SIZE_BASE = Ok true
  /\ (PInt 3 = PInt EARTHQUAKE_MARKER_SIZE_BASE
      \/ exists f, PInt 3 = PFloat f
                   /\ gt_int (PInt 3) EARTHQUAKE_MARKER_SIZE_BASE = Ok true).
Proof.
  apply (proj1 (marker_size_at_least_base (PFloat (-1.5)%float))).
  vm_compute; reflexivity.
Defined.

Lemma good_points_x points :
  forallb is_point points = true ->
  comprehension (fun coord => index coord 0) points = Ok (map point_x points).
Proof.
  induction points as [|p points IH]; cbn [forallb comprehension map];
    [reflexivity|].
  intros H; apply andb_prop in H as [Hp Hps].
  destruct p as [| | | | |[|x [|y rest]]|]; try discriminate.
  cbn [index nth_error]; rewrite (IH Hps); reflexivity.
Qed.

Lemma good_points_y points :
  forallb is_point points = true ->
  comprehension (fun coord => index coord 1) points = Ok (map point_y points).
Proof.
  induction points as [|p points IH]; cbn [forallb comprehension map];
    [reflexivity|].
  intros H; apply andb_prop in H as [Hp Hps].
  destruct p as [| | | | |[|x [|y rest]]|]; try discriminate.
  cbn [index nth_error]; rewrite (IH Hps); reflexivity.
Qed.

Lemma list_points_x points :
  forallb is_list points = true ->
  comprehension (fun coord => index coord 0) points = Raise IndexError
  \/ exists xs, comprehension (fun coord => index coord 0) points = Ok xs.
Proof.
  induction points as [|p points IH]; cbn [forallb comprehension]; [eauto|].
  intros H; apply andb_prop in H as [Hp Hps].
  destruct p as [| | | | |[|x rest]|]; try discriminate;
    cbn [index nth_error]; [now left|].
  destruct (IH Hps) as [->|[xs ->]]; eauto.
Qed.

Lemma short_point_y points :
  forallb is_list points = true ->
  forallb is_point points = false ->
  comprehension (fun coord => index coord 1) points = Raise IndexError.
Proof.
  induction points as [|p points IH]; cbn [forallb comprehension];
    [discriminate|].
  intros H Hshort; apply andb_prop in H as [Hp Hps].
  destruct p as [| | | | |[|x [|y rest]]|]; try discriminate;
    cbn [index nth_error]; try reflexivity.
  cbn [is_point andb] in Hshort; rewrite (IH Hps Hshort); reflexivity.
Qed.

(** X12.  The trace of one boundary line.  A line whose points all have a
    longitude and a latitude becomes a trace with the longitudes on x, the
    latitudes on y and a zero on z for every point; a third coordinate of a
    point is dropped.  A line of arrays of which one has fewer than two
    coordinates raises IndexError. *)
Theorem line_trace_on_the_surface i :
  (forall line,
      is_line line = true -> line_trace i line = Ok (surface_line i line))
  /\ (forall points,
        forallb is_list points = true ->
        forallb is_point points = false ->
        line_trace i (PList points) = Raise IndexError).
Proof.
  split.
  - intros [| | | | |points|]; try discriminate; cbn [is_line]; intros H.
    unfold line_trace, surface_line; cbn [iter len points_of rbind].
    rewrite (good_points_x _ H), (good_points_y _ H); reflexivity.
  - intros points Hl Hs; unfold line_trace; cbn [iter rbind].
    destruct (list_points_x _ Hl) as [->|[xs ->]]; cbn [rbind]; [reflexivity|].
    rewrite (short_point_y _ Hl Hs); reflexivity.
Qed.

Lemma line_trace_on_the_surface_witness :
  line_trace 4
    (PList [PList [PFloat 139.5%float; PFloat 35.1%float; PInt 12];
            PList [PInt 140; PInt 36]])
  = Ok (GeoJSONMapLine 4 [PFloat 139.5%float; PInt 140]
                       [PFloat 35.1%float; PInt 36] [0; 0]).
Proof.
  apply (proj1 (line_trace_on_the_surface 4)
               (PList [PList [PFloat 139.5%float; PFloat 35.1%float; PInt 12];
                       PList [PInt 140; PInt 36]])).
  reflexivity.
Defined.

Lemma good_line_traces lines :
  Forall (fun il => is_line (snd il) = true) lines ->
  line_traces lines
  = (map (fun il => surface_line (fst il) (snd il)) lines, None).
Proof.
  induction 1 as [|il lines Hil _ IH]; cbn [line_traces map]; [reflexivity|].
  rewrite (proj1 (line_trace_on_the_surface (fst il)) _ Hil), IH; reflexivity.
Qed.

Lemma combine_good_lines (indices : list nat) lines :
  forallb is_line lines = true ->
  Forall (fun il : nat * pyval => is_line (snd il) = true) (combine indices lines).
Proof.
  revert indices; induction lines as [|line lines IH]; intros indices H.
  - destruct indices; constructor.
  - cbn [forallb] in H; apply andb_prop in H as [Hl Hls].
    destruct indices as [|i indices]; constructor; [exact Hl|apply IH; exact Hls].
Qed.

Lemma nth_enumerate {A} (l : list A) :
  forall start i x,
    nth_error l i = Some x ->
    nth_error (combine (seq start (List.length l)) l) i = Some ((start + i)%nat, x).
Proof.
  induction l as [|a l IH]; intros start [|i] x; cbn; try discriminate.
  - intros [= <-]; now rewrite Nat.add_0_r.
  - intros H; rewrite (IH (S start) i x H); f_equal; f_equal; lia.
Qed.

(** X13.  A boundary file in good order is drawn whole.  When the file loads
    and every extracted line is a list of points, the boundary step adds one
    trace per line, in order and numbered from zero, prints the number of
    lines and then that they were added, and logs no failure. *)
Theorem good_boundary_file_drawn_whole w geojson_data map_lines :
  load_json_file w GEOJSON_FILE = Ok geojson_data ->
  extract_geojson_lines geojson_data = Ok map_lines ->
  forallb is_line map_lines = true ->
  boundary_run w
  = (map (fun il => surface_line (fst il) (snd il)) (enumerate map_lines),
     [MsgLinesExtracted GEOJSON_FILE (List.length map_lines); MsgLinesAdded])
  /\ List.length (fst (boundary_run w)) = List.length map_lines
  /\ (forall i line,
        nth_error map_lines i = Some line ->
        nth_error (fst (boundary_run w)) i = Some (surface_line i line)).
Proof.
  intros Hload Hextract Hlines.
  assert (Hrun : boundary_run w
    = (map (fun il => surface_line (fst il) (snd il)) (enumerate map_lines),
       [MsgLinesExtracted GEOJSON_FILE (List.length map_lines); MsgLinesAdded])).
  { unfold boundary_run; rewrite Hload, Hextract.
    rewrite (good_line_traces (enumerate map_lines)
               (combine_good_lines _ _ Hlines)); reflexivity. }
  rewrite Hrun; cbn [fst]; repeat split.
  - unfold enumerate; rewrite length_map, length_combine, length_seq; lia.
  - intros i line Hi; unfold enumerate.
    rewrite nth_error_map, (nth_enumerate map_lines 0 i line Hi); reflexivity.
Qed.

Lemma good_boundary_file_drawn_whole_witness :
  boundary_run
    (fixed_world new_year_2024 (Raise ConnectionError)
       (Ok (PDict [("type", PStr "Polygon");
                   ("coordinates",
                    PList [PList [PList [PInt 130; PInt 30]; PList [PInt 131; PInt 30];
                                  PList [PInt 130; PInt 31]; PList [PInt 130; PInt 30]];
                           PList [PList [PInt 0; PInt 0]]])])))
  = ([GeoJSONMapLine 0 [PInt 130; PInt 131; PInt 130; PInt 130]
                     [PInt 30; PInt 30; PInt 31; PInt 30] [0; 0; 0; 0]],
     [MsgLinesExtracted GEOJSON_FILE 1; MsgLinesAdded]).
Proof.
  eapply (proj1 (good_boundary_file_drawn_whole
                   (fixed_world new_year_2024 (Raise ConnectionError)
                      (Ok (PDict [("type", PStr "Polygon");
                                  ("coordinates",
                                   PList [PList [PList [PInt 130; PInt 30];
                                                 PList [PInt 131; PInt 30];
                                                 PList [PInt 130; PInt 31];
                                                 PList [PInt 130; PInt 30]];
                                          PList [PList [PInt 0; PInt 0]]])])))
                   _ _ eq_refl eq_refl eq_refl)).
Defined.

Lemma magnitudes_raise_type_error events :
  Forall (fun e => (exists f, magnitude e = PFloat f)
                   \/ is_number (magnitude e) = false) events ->
  Exists (fun e => is_number (magnitude e) = false) events ->
  comprehension marker_size (map magnitude events) = Raise TypeError.
Proof.
  induction 1 as [|e events He _ IH]; intros Hex; [inversion Hex|].
  cbn [map comprehension].
  destruct He as [[f Hf]|Hnot].
  - rewrite Hf.
    assert (Hrest : Exists (fun e => is_number (magnitude e) = false) events).
    { inversion Hex as [? ? Hhere|]; subst; [rewrite Hf in Hhere; discriminate|].
      assumption. }
    rewrite (IH Hrest).
    unfold marker_size, mul_float, max_int, gt_int; cbn [rbind]; reflexivity.
  - destruct (magnitude e); try discriminate; reflexivity.
Qed.

(** X14.  A magnitude that is not a number stops the composer before
    anything is drawn.  The catalog client only checks that the magnitude is
    present; if the records (their depths numbers, their other magnitudes
    floats) hold one whose magnitude is a str, a list or a dict, the composer
    prints the number of events and raises TypeError: no figure is shown and
    no file written. *)
Theorem non_numeric_magnitude_stops_composer w eq events m :
  Forall (fun e => is_number (depth e) = true) (eq :: events) ->
  Forall (fun e => (exists f, magnitude e = PFloat f)
                   \/ is_number (magnitude e) = false) (eq :: events) ->
  Exists (fun e => is_number (magnitude e) = false) (eq :: events) ->
  visualize_earthquakes_pure_3d w (eq :: events) m
  = ({| effects := effects m ++ [Print (MsgEventCount (List.length (eq :: events)))];
        data_to_plot := data_to_plot m |},
     Raise TypeError).
Proof.
  intros Hdepth Hmags Hbad.
  destruct (collect_total _ Hdepth no_columns) as [c Hc].
  pose proof (collect_magnitudes _ _ _ Hc) as Hm; cbn [magnitudes no_columns app] in Hm.
  pose proof (magnitudes_raise_type_error _ Hmags Hbad) as Hs.
  rewrite <- Hm in Hs.
  unfold visualize_earthquakes_pure_3d.
  unfold bind at 1, print at 1, emit at 1.
  unfold bind at 1, lift at 1; rewrite Hc.
  unfold bind at 1, lift at 1; rewrite Hs; reflexivity.
Qed.

Lemma non_numeric_magnitude_stops_composer_witness :
  visualize_earthquakes_pure_3d
    (fixed_world new_year_2024 (Raise ConnectionError) (Raise FileNotFoundError))
    [one_event;
     record_of (PInt 140) (PInt 36) (PInt 60) (PStr "4.7") "不明" PNone]
    start
  = ({| effects := [Print (MsgEventCount 2)]; data_to_plot := [] |},
     Raise TypeError).
Proof.
  apply (non_numeric_magnitude_stops_composer
           (fixed_world new_year_2024 (Raise ConnectionError)
                        (Raise FileNotFoundError))
           one_event
           [record_of (PInt 140) (PInt 36) (PInt 60) (PStr "4.7") "不明" PNone]
           start).
  - repeat constructor.
  - constructor; [left; eexists; reflexivity|].
    constructor; [right; reflexivity|constructor].
  - right; left; reflexivity.
Defined.

(** X15.  A LineString without coordinates is extracted as one line that is
    None, and that line cannot be drawn: for a Feature file with such a
    geometry the boundary step counts one extracted line, then prints the
    generic error for TypeError and adds no trace. *)
Theorem line_string_without_coordinates w d gd :
  load_json_file w GEOJSON_FILE = Ok (PDict d) ->
  eq_str (field d "type") "Feature" = true ->
  field d "geometry" = PDict gd ->
  eq_str (field gd "type") "LineString" = true ->
  field gd "coordinates" = PNone ->
  extract_geojson_lines (PDict d) = Ok [PNone]
  /\ boundary_run w
     = ([], [MsgLinesExtracted GEOJSON_FILE 1; MsgGeoJSONError TypeError]).
Proof.
  intros Hload Hd Hg Hgd Hc.
  assert (Hextract : extract_geojson_lines (PDict d) = Ok [PNone]).
  { unfold extract_geojson_lines; rewrite !get_field; cbn [rbind]; rewrite Hd.
    replace (eq_str (field d "type") "FeatureCollection") with false.
    2:{ destruct (field d "type") as [| | | |t| |]; try discriminate.
        apply String.eqb_eq in Hd as ->; reflexivity. }
    rewrite Hg.
    replace (truthy (PDict gd)) with true.
    2:{ destruct gd; [discriminate|reflexivity]. }
    unfold extract_coords; rewrite !get_field; cbn [rbind]; rewrite Hgd, Hc.
    replace (eq_str (field gd "type") "Point") with false; [reflexivity|].
    destruct (field gd "type") as [| | | |t| |]; try discriminate.
    apply String.eqb_eq in Hgd as ->; reflexivity. }
  split; [exact Hextract|].
  unfold boundary_run; rewrite Hload, Hextract; reflexivity.
Qed.

Lemma line_string_without_coordinates_witness :
  boundary_run
    (fixed_world new_year_2024 (Raise ConnectionError)
       (Ok (PDict [("type", PStr "Feature");
                   ("geometry", PDict [("type", PStr "LineString")])])))
  = ([], [MsgLinesExtracted GEOJSON_FILE 1; MsgGeoJSONError TypeError]).
Proof.
  eapply (proj2 (line_string_without_coordinates
                   (fixed_world new_year_2024 (Raise ConnectionError)
                      (Ok (PDict [("type", PStr "Feature");
                                  ("geometry",
                                   PDict [("type", PStr "LineString")])])))
                   _ _ eq_refl eq_refl eq_refl eq_refl eq_refl)).
Defined.

End SceneProperties.

(** ** Further properties of the whole run *)

Module ProgramProperties.

Import CatalogClient CatalogFacts SceneComposer SceneFacts WellFormed.

(** Every record the catalog client returns has a numeric depth. *)
Lemma returned_depths_numeric w days_ago mm la lA lo lO m m' events :
  get_usgs_earthquake_data w days_ago mm la lA lo lO m = (m', Ok events) ->
  Forall (fun e => is_number (depth e) = true) events.
Proof.
  intros H.
  destruct (get_usgs_returns _ _ _ _ _ _ _ _ _ _ H)
    as [->|(response & data & _ & _ & Hp)]; [constructor|].
  unfold parse_catalog in Hp.
  destruct (get_default data "features" (PList [])) as [features|];
    cbn [rbind] in Hp; [|discriminate].
  destruct (iter features) as [items|]; cbn [rbind] in Hp; [|discriminate].
  eapply parse_loop_inv; [exact Hp|constructor|].
  intros feature e _ _ (_ & _ & Hnum & _); exact Hnum.
Qed.

(** X16.  From the catalog to the artifact.  When the catalog client returns
    at least one record and the magnitudes are floats, the script ends
    normally having shown exactly one figure and written that same figure
    to [earthquake_map.html]; its event markers are the returned records,
    one marker each and in order.  The depths need no assumption: every
    returned record has a numeric depth. *)
Theorem main_renders_returned_records w m eq events :
  snd (get_usgs_earthquake_data w DAYS_AGO MIN_MAGNITUDE
         MIN_LAT MAX_LAT MIN_LON MAX_LON m) = Ok (eq :: events) ->
  Forall (fun e => exists f, magnitude e = PFloat f) (eq :: events) ->
  snd (main w m) = Ok tt
  /\ exists fig zs marker_sizes others,
       shown (effects (fst (main w m))) = shown (effects m) ++ [fig]
       /\ written (effects (fst (main w m)))
          = written (effects m) ++ [(output_filename, fig)]
       /\ fig_data fig
          = Earthquakes (map longitude (eq :: events)) (map latitude (eq :: events))
                        zs marker_sizes (map depth (eq :: events))
                        (map hover_of (eq :: events))
            :: others
       /\ List.length marker_sizes = List.length (eq :: events).
Proof.
  intros Hget Hmags.
  destruct (get_usgs_only_prints w DAYS_AGO MIN_MAGNITUDE
              MIN_LAT MAX_LAT MIN_LON MAX_LON m) as [msgs Hfst].
  destruct (get_usgs_earthquake_data w DAYS_AGO MIN_MAGNITUDE
              MIN_LAT MAX_LAT MIN_LON MAX_LON m) as [m1 r] eqn:HG.
  cbn [fst snd] in Hget, Hfst; subst r m1.
  pose proof (returned_depths_numeric _ _ _ _ _ _ _ _ _ _ HG) as Hdepth.
  destruct (composer_lists_total (eq :: events)) as (c & sizes & Hc & Hs).
  { clear -Hdepth Hmags.
    induction Hdepth as [|e l Hd _ IH]; [constructor|].
    inversion Hmags; subst; constructor; auto. }
  assert (Hmain : main w m
    = visualize_earthquakes_pure_3d w (eq :: events)
        {| effects := (effects m ++ map Print msgs)
                      ++ [Print (MsgReceived (List.length (eq :: events)))];
           data_to_plot := data_to_plot m |}).
  { unfold main, bind at 1; rewrite HG.
    unfold bind at 1, print at 1, emit at 1; reflexivity. }
  rewrite Hmain, (visualize_run w eq events c sizes _ Hc Hs).
  cbn [fst snd effects].
  split; [reflexivity|].
  destruct (SceneProperties.collect_columns _ _ _ Hc)
    as (H1 & H2 & H3 & H4 & H5 & zs & H6 & _).
  cbn [latitudes longitudes depths_original magnitudes event_details
       depths_for_plot no_columns app] in H1, H2, H3, H4, H5, H6.
  eexists _, zs, sizes, _; repeat split.
  - rewrite !shown_app, shown_prints; cbn [shown flat_map].
    rewrite flat_map_app; fold (shown (map Print (snd (boundary_run w)))).
    rewrite shown_prints, !app_nil_r; reflexivity.
  - rewrite !written_app, written_prints; cbn [written flat_map].
    rewrite flat_map_app; fold (written (map Print (snd (boundary_run w)))).
    rewrite written_prints, !app_nil_r; reflexivity.
  - cbn [make_figure fig_data app]; unfold earthquakes_trace.
    rewrite H1, H2, H3, H5, H6; reflexivity.
  - apply comprehension_Forall2 in Hs; apply Forall2_length in Hs.
    rewrite H4, length_map in Hs; symmetry; exact Hs.
Qed.

Lemma main_renders_returned_records_witness :
  snd (main (fixed_world new_year_2024 (ok_response three_records)
                         (Raise FileNotFoundError)) start) = Ok tt.
Proof.
  eapply (proj1 (main_renders_returned_records
                   (fixed_world new_year_2024 (ok_response three_records)
                                (Raise FileNotFoundError))
                   start _ _ eq_refl _)).
  Unshelve.
  repeat constructor; eexists; reflexivity.
Defined.

(** X5.  A good answer is handed to the parse step, and what the parse does
    is what the call does.  With a status that is no error and a body that
    is JSON, the call prints the fetching line and returns the parsed list;
    an exception of the parse step that is not a [RequestException] is not
    logged as a request failure: it leaves the call and the script, and
    nothing is shown or written. *)
Theorem parse_outcome_is_call_outcome w m window r data :
  query_window w DAYS_AGO = Ok window ->
  requests_get w api_url
    (build_params (fst window) (snd window)
       MIN_MAGNITUDE MIN_LAT MAX_LAT MIN_LON MAX_LON) = Ok r ->
  raise_for_status r = Ok tt ->
  body_json r = Ok data ->
  let m' := {| effects := effects m ++ [Print (MsgFetching DAYS_AGO MIN_MAGNITUDE)];
               data_to_plot := data_to_plot m |} in
  (forall events,
      parse_catalog w data = Ok events ->
      get_usgs_earthquake_data w DAYS_AGO MIN_MAGNITUDE
        MIN_LAT MAX_LAT MIN_LON MAX_LON m = (m', Ok events))
  /\ (forall e,
        parse_catalog w data = Raise e ->
        is_RequestException e = false ->
        get_usgs_earthquake_data w DAYS_AGO MIN_MAGNITUDE
          MIN_LAT MAX_LAT MIN_LON MAX_LON m = (m', Raise e)
        /\ main w m = (m', Raise e)).
Proof.
  intros Hw Hreq Hstatus Hbody m'.
  assert (Hget : get_usgs_earthquake_data w DAYS_AGO MIN_MAGNITUDE
                   MIN_LAT MAX_LAT MIN_LON MAX_LON m
                 = try_except (lift (parse_catalog w data))
                     (fun e => if is_RequestException e
                               then Some (bind (print (MsgApiError e))
                                               (fun _ => ret []))
                               else None) m').
  { unfold get_usgs_earthquake_data, bind at 1, lift at 1; rewrite Hw.
    unfold bind at 1, print at 1, emit at 1.
    unfold try_except, lift, fetch_and_parse.
    rewrite Hreq; cbn [rbind]; rewrite Hstatus; cbn [rbind]; rewrite Hbody.
    reflexivity. }
  split.
  - intros events Hp; rewrite Hget; unfold try_except, lift; rewrite Hp.
    reflexivity.
  - intros e Hp He.
    assert (Hraise : get_usgs_earthquake_data w DAYS_AGO MIN_MAGNITUDE
                       MIN_LAT MAX_LAT MIN_LON MAX_LON m = (m', Raise e)).
    { rewrite Hget; unfold try_except, lift; rewrite Hp, He; reflexivity. }
    split; [exact Hraise|].
    unfold main, bind at 1; rewrite Hraise; reflexivity.
Qed.

Lemma parse_outcome_is_call_outcome_witness :
  main (fixed_world new_year_2024
          (ok_response
             (catalog_document
                [catalog_feature [PInt 140; PInt 36] (PFloat 4.0%float)]))
          (Raise FileNotFoundError))
       start
  = ({| effects := [Print (MsgFetching DAYS_AGO MIN_MAGNITUDE)];
        data_to_plot := [] |},
     Raise IndexError).
Proof.
  eapply (proj2 (parse_outcome_is_call_outcome
                   (fixed_world new_year_2024
                      (ok_response
                         (catalog_document
                            [catalog_feature [PInt 140; PInt 36] (PFloat 4.0%float)]))
                      (Raise FileNotFoundError))
                   start _ _ _ eq_refl eq_refl eq_refl eq_refl)
                IndexError eq_refl eq_refl).
Defined.

End ProgramProperties.

(** ** The records the catalog client hands on *)

Module RecordProperties.

Import CatalogClient CatalogFacts WellFormed.

(** An invariant of a loop that returns holds of what it returns. *)
Lemma for_each_invariant {A S} (body : S -> A -> result S) (P : S -> Prop) items :
  (forall s x s', In x items -> P s -> body s x = Ok s' -> P s') ->
  forall s out, P s -> for_each body items s = Ok out -> P out.
Proof.
  induction items as [|x items IH]; cbn [for_each]; intros Hstep s out Hs.
  - intros [= <-]; exact Hs.
  - destruct (body s x) as [s'|] eqn:Hx; [|discriminate].
    apply IH.
    + intros s0 y s0' Hy; apply Hstep; now right.
    + apply (Hstep s x s'); [now left|exact Hs|exact Hx].
Qed.

Lemma parse_feature_reads w earthquake_list feature earthquake_list' :
  parse_feature w earthquake_list feature = Ok earthquake_list' ->
  earthquake_list' = earthquake_list
  \/ exists e, earthquake_list' = earthquake_list ++ [e]
               /\ read_from w feature e
               /\ is_number (latitude e) = true
               /\ is_number (longitude e) = true
               /\ is_number (depth e) = true.
Proof.
  unfold parse_feature; intros H.
  destruct (get feature "properties") as [properties|] eqn:Ep;
    cbn [rbind] in H; [|discriminate].
  destruct (get feature "geometry") as [geometry|] eqn:Eg;
    cbn [rbind] in H; [|discriminate].
  peel H. peel H; [|injection H as <-; now left].
  destruct (item geometry "coordinates") as [coordinates|] eqn:Ec;
    cbn [rbind] in H; [|discriminate].
  destruct (index coordinates 0) as [lon|] eqn:Elon;
    cbn [rbind] in H; [|discriminate].
  destruct (index coordinates 1) as [lat|] eqn:Elat;
    cbn [rbind] in H; [|discriminate].
  destruct (index coordinates 2) as [dep|] eqn:Edep;
    cbn [rbind] in H; [|discriminate].
  destruct (get properties "mag") as [mag|];
    cbn [rbind] in H; [|discriminate].
  destruct (get properties "time") as [time_ms|] eqn:Et;
    cbn [rbind] in H; [|discriminate].
  destruct (get properties "place") as [place|] eqn:Epl;
    cbn [rbind] in H; [|discriminate].
  destruct (event_time_text w time_ms) as [event_time|] eqn:Etext;
    cbn [rbind] in H; [|discriminate].
  destruct (forallb is_number [lat; lon; dep] && negb (is_None dep)
            && negb (is_None mag)) eqn:Hchecks;
    [|injection H as <-; now left].
  destruct (ge_int dep MIN_DEPTH_KM) as [[|]|];
    cbn [rbind] in H; try discriminate; injection H as <-; [right|now left].
  apply andb_prop in Hchecks as [Hchecks _].
  apply andb_prop in Hchecks as [Hnum _].
  cbn [forallb] in Hnum.
  apply andb_prop in Hnum as [Hlat Hnum]; apply andb_prop in Hnum as [Hlon Hnum].
  apply andb_prop in Hnum as [Hdep _].
  eexists; split; [reflexivity|]; cbn [latitude longitude depth].
  repeat split; try assumption.
  exists properties, geometry, coordinates, time_ms; cbn; auto 10.
Qed.

(** X17.  Every record handed on has a number for its latitude, its
    longitude and its depth.  The longitude is the first coordinate of the
    feature it was read from and the latitude the second; its place is the
    feature's, and its time text is the conversion of the feature's time
    stamp (or the sentinel). *)
Theorem returned_records_positioned w :
  (forall data events,
      parse_catalog w data = Ok events ->
      exists items,
        features_of data = Ok items
        /\ Forall (fun e =>
                     is_number (latitude e) = true
                     /\ is_number (longitude e) = true
                     /\ is_number (depth e) = true
                     /\ exists feature, In feature items /\ read_from w feature e)
                  events)
  /\ (forall days_ago mm la lA lo lO m m' events,
        get_usgs_earthquake_data w days_ago mm la lA lo lO m = (m', Ok events) ->
        Forall (fun e => is_number (latitude e) = true
                         /\ is_number (longitude e) = true
                         /\ is_number (depth e) = true) events).
Proof.
  assert (Hparse : forall data events,
      parse_catalog w data = Ok events ->
      exists items,
        features_of data = Ok items
        /\ Forall (fun e =>
                     is_number (latitude e) = true
                     /\ is_number (longitude e) = true
                     /\ is_number (depth e) = true
                     /\ exists feature, In feature items /\ read_from w feature e)
                  events).
  { intros data events; unfold parse_catalog, features_of.
    destruct (get_default data "features" (PList [])) as [features|];
      cbn [rbind]; [|discriminate].
    destruct (iter features) as [items|]; cbn [rbind]; [|discriminate].
    intros H; exists items; split; [reflexivity|].
    eapply (for_each_invariant (parse_feature w)); [|constructor|exact H].
    intros acc f acc' Hin Hacc Hf.
    destruct (parse_feature_reads _ _ _ _ Hf)
      as [->|(e & -> & Hread & Hlat & Hlon & Hdep)]; [exact Hacc|].
    apply Forall_app; split; [exact Hacc|].
    constructor; [|constructor]; eauto 10. }
  split; [exact Hparse|].
  intros days_ago mm la lA lo lO m m' events H.
  destruct (get_usgs_returns _ _ _ _ _ _ _ _ _ _ H)
    as [->|(response & data & _ & _ & Hp)]; [constructor|].
  destruct (Hparse _ _ Hp) as (items & _ & Hall).
  eapply Forall_impl; [|exact Hall]; cbn; tauto.
Qed.

Lemma returned_records_positioned_witness :
  exists items,
    features_of three_records = Ok items
    /\ Forall (fun e =>
                 is_number (latitude e) = true
                 /\ is_number (longitude e) = true
                 /\ is_number (depth e) = true
                 /\ exists feature,
                      In feature items
                      /\ read_from
                           (fixed_world new_year_2024 (ok_response three_records)
                                        (Raise FileNotFoundError))
                           feature e)
              [record_of (PFloat 142.37%float) (PFloat 38.32%float)
                         (PFloat 45.5%float) (PFloat 5.1%float)
                         "2024/01/01 09:00:00" (PStr "off Honshu");
               record_of (PFloat 141.2%float) (PFloat 37.5%float) (PInt 60)
                         (PFloat 3.2%float) "2024/01/01 09:00:00"
                         (PStr "off Honshu")].
Proof.
  apply (proj1 (returned_records_positioned
                  (fixed_world new_year_2024 (ok_response three_records)
                               (Raise FileNotFoundError)))
               three_records).
  vm_compute; reflexivity.
Defined.

(** X18.  A body that is not JSON.  When the answer has a status that is no
    error but [.json()] raises, the outcome depends on the class of the
    exception alone: a [RequestException] (the JSONDecodeError of [requests])
    is printed as a request failure and the empty list is returned; any
    other exception leaves the call, with only the fetching line printed. *)
Theorem unreadable_body w days_ago mm la lA lo lO m window r e :
  query_window w days_ago = Ok window ->
  requests_get w api_url
    (build_params (fst window) (snd window) mm la lA lo lO) = Ok r ->
  raise_for_status r = Ok tt ->
  body_json r = Raise e ->
  get_usgs_earthquake_data w days_ago mm la lA lo lO m
  = if is_RequestException e
    then ({| effects := effects m ++ [Print (MsgFetching days_ago mm);
                                      Print (MsgApiError e)];
             data_to_plot := data_to_plot m |}, Ok [])
    else ({| effects := effects m ++ [Print (MsgFetching days_ago mm)];
             data_to_plot := data_to_plot m |}, Raise e).
Proof.
  intros Hw Hreq Hstatus Hbody.
  unfold get_usgs_earthquake_data, bind at 1, lift at 1; rewrite Hw.
  unfold bind at 1, print at 1, emit at 1.
  unfold try_except, lift, fetch_and_parse.
  rewrite Hreq; cbn [rbind]; rewrite Hstatus; cbn [rbind]; rewrite Hbody.
  cbn [rbind]; destruct (is_RequestException e); [|reflexivity].
  unfold bind, print, emit, ret; cbn [effects data_to_plot].
  now rewrite <- app_assoc.
Qed.

Lemma unreadable_body_witness :
  get_usgs_earthquake_data
    (fixed_world new_year_2024
       (Ok {| status_code := 200; body_json := Raise RequestsJSONDecodeError |})
       (Raise FileNotFoundError))
    DAYS_AGO MIN_MAGNITUDE MIN_LAT MAX_LAT MIN_LON MAX_LON start
  = ({| effects := [Print (MsgFetching DAYS_AGO MIN_MAGNITUDE);
                    Print (MsgApiError RequestsJSONDecodeError)];
        data_to_plot := [] |}, Ok []).
Proof.
  eapply (unreadable_body
            (fixed_world new_year_2024
               (Ok {| status_code := 200; body_json := Raise RequestsJSONDecodeError |})
               (Raise FileNotFoundError))
            DAYS_AGO MIN_MAGNITUDE MIN_LAT MAX_LAT MIN_LON MAX_LON start
            _ _ RequestsJSONDecodeError eq_refl eq_refl eq_refl eq_refl).
Defined.

End RecordProperties.
